(** * openapi-backend: the request / response validator (src/validation.ts)

    A shallow embedding of the class [OpenAPIValidator] and the properties
    of its two entry points, [validateRequest] and [validateResponse].

    Layout:
    - [Js]        JavaScript values, objects as ordered association lists,
                  the lodash helpers the class calls, and the reads of a
                  plain object used as a map, with what it inherits from
                  [Object.prototype];
    - [Ajv]       the part of the Ajv 6 library the class relies on: options,
                  error objects, and the evaluation of the keywords that the
                  synthesized schemas themselves use ([type: 'object'],
                  [required], [properties], [additionalProperties], [oneOf]).
                  Schemas written by the API author are values of an abstract
                  type whose evaluation is an interface ([SchemaDialect]);
    - the OpenAPI data model and the router interface (the router lives in
      src/router.ts, which is not part of this development: it is a record
      of functions);
    - [OpenAPIValidator]: constructor, the two [build...] methods, the two
      getters, [validateRequest], [validateResponse], as state passing over
      the instance (compiled validators carry a mutable [errors] slot);
    - a small concrete instance ([Example]) used to run the definitions;
    - the theorems ([Properties]), stated for every dialect, environment
      and router, and their instances on the example ([Checks]). *)

From Stdlib Require Import String Ascii List ZArith Bool Lia.
From stdpp Require Import base option gmap strings list fin_maps.
Import ListNotations.
Open Scope string_scope.
Set Warnings "-register-all".

(* ===================================================================== *)
(** ** JavaScript values *)
(* ===================================================================== *)

Module Js.

(** A JavaScript value as the validator sees it.  Objects keep their keys in
    enumeration order.  Numbers are integral: no property below looks inside
    a number. *)
Inductive value : Type :=
| Undefined
| Null
| Bool (b : bool)
| Number (z : Z)
| Str (s : string)
| Array (l : list value)
| Object (fields : list (string * value)).

Definition object := list (string * value).

(** [typeof v === 'object'] : true of objects, arrays and [null]. *)
Definition typeof_object (v : value) : bool :=
  match v with
  | Null | Array _ | Object _ => true
  | _ => false
  end.

Definition is_undefined (v : value) : bool :=
  match v with Undefined => true | _ => false end.

(** [o[k]] *)
Fixpoint get (k : string) (o : object) : value :=
  match o with
  | [] => Undefined
  | (k', v) :: o' => if String.eqb k k' then v else get k o'
  end.

Fixpoint has_key {A} (k : string) (o : list (string * A)) : bool :=
  match o with
  | [] => false
  | (k', _) :: o' => String.eqb k k' || has_key k o'
  end.

(** [o[k] = v] : an existing key keeps its place, a new key goes last. *)
Fixpoint set {A} (k : string) (v : A) (o : list (string * A)) : list (string * A) :=
  match o with
  | [] => [(k, v)]
  | (k', v') :: o' =>
      if String.eqb k k' then (k', v) :: o' else (k', v') :: set k v o'
  end.

(** [_.keys], [_.entries] *)
Definition keys {A} (o : list (string * A)) : list string := map fst o.
Definition entries (o : option object) : list (string * value) :=
  match o with Some fs => fs | None => [] end.

(** Property lookup in a typed map ([content['application/json']]). *)
Fixpoint lookup {A} (k : string) (o : list (string * A)) : option A :=
  match o with
  | [] => None
  | (k', v) :: o' => if String.eqb k k' then Some v else lookup k o'
  end.

(** [_.uniq] : first occurrences, in order. *)
Fixpoint uniq (l : list string) : list string :=
  match l with
  | [] => []
  | x :: l' => x :: List.filter (fun y => negb (String.eqb x y)) (uniq l')
  end.

(** Truthiness of an optional string ([!operation.operationId]). *)
Definition truthy_string (s : option string) : bool :=
  match s with
  | Some s => negb (String.eqb s "")
  | None => false
  end.

(** The key under which [o[k] = ...] stores when [k] may be [undefined]. *)
Definition property_key (k : option string) : string :=
  match k with Some s => s | None => "undefined" end.

(** Template-literal conversion [`${v}`] of a value that is not an object. *)
Definition digit (n : nat) : ascii := ascii_of_nat (48 + n).

Fixpoint decimal (fuel n : nat) (acc : string) : string :=
  match fuel with
  | O => acc
  | S fuel' =>
      let acc' := String (digit (n mod 10)) acc in
      if Nat.eqb (n / 10) 0 then acc' else decimal fuel' (n / 10) acc'
  end.

Definition number_to_string (z : Z) : string :=
  let n := Z.abs_nat z in
  let d := decimal (S n) n "" in
  if Z.ltb z 0 then String "-" d else d.

Fixpoint to_string (v : value) : string :=
  match v with
  | Undefined => "undefined"
  | Null => "null"
  | Bool true => "true"
  | Bool false => "false"
  | Number z => number_to_string z
  | Str s => s
  | Array l =>
      (fix join (l : list value) : string :=
         let element x :=
           match x with Undefined | Null => "" | _ => to_string x end in
         match l with
         | [] => ""
         | [x] => element x
         | x :: l' => element x ++ "," ++ join l'
         end) l
  | Object _ => "[object Object]"
  end.

(** [JSON.parse] either returns a value or throws a [SyntaxError]. *)
Inductive parsed : Type :=
| Parsed (v : value)
| SyntaxError (message : string).

(** *** Plain objects used as maps

    An object created by [{}] and filled by assignments [o[k] = v] is read
    by [o[k]]: the read finds the value assigned under [k] or, when there
    is none, what the object inherits from [Object.prototype]. *)

(** The properties of [Object.prototype] (ECMAScript, Annex B included). *)
Inductive builtin : Type :=
| Object_constructor        (* constructor *)
| defineGetter              (* __defineGetter__ *)
| defineSetter              (* __defineSetter__ *)
| lookupGetter              (* __lookupGetter__ *)
| lookupSetter              (* __lookupSetter__ *)
| hasOwnProperty
| isPrototypeOf
| propertyIsEnumerable
| toString
| toLocaleString
| valueOf
| Object_prototype.         (* __proto__ : the prototype object itself *)

Definition prototype_members : list (string * builtin) :=
  [("constructor", Object_constructor);
   ("__defineGetter__", defineGetter);
   ("__defineSetter__", defineSetter);
   ("hasOwnProperty", hasOwnProperty);
   ("__lookupGetter__", lookupGetter);
   ("__lookupSetter__", lookupSetter);
   ("isPrototypeOf", isPrototypeOf);
   ("propertyIsEnumerable", propertyIsEnumerable);
   ("toString", toString);
   ("valueOf", valueOf);
   ("__proto__", Object_prototype);
   ("toLocaleString", toLocaleString)].

(** [Object.prototype[k]] *)
Definition inherited (k : string) : option builtin :=
  lookup k prototype_members.

(** [f(v)] in strict code, [f] being a member of [Object.prototype]: the
    call passes [undefined] as [this].  It throws a [TypeError] when the
    member converts [this] to an object ([isPrototypeOf] does so only for
    an argument that is an object) or is not a function; [Object(v)] and
    [toString()] return. *)
Definition call_throws (f : builtin) (v : value) : bool :=
  match f with
  | Object_constructor | toString => false
  | isPrototypeOf =>
      match v with
      | Array _ | Object _ => true
      | _ => false
      end
  | _ => true
  end.

(** What a read [o[k]] finds. *)
Inductive property (V : Type) : Type :=
| Own (v : V)               (* the value assigned under [k] *)
| Inherited (f : builtin)   (* a member of [Object.prototype] *)
| Missing.                  (* [undefined] *)
Arguments Own {V} v.
Arguments Inherited {V} f.
Arguments Missing {V}.

(** [o[k]], the map holding the values assigned to [o].  An assignment
    under the key ['__proto__'] creates no property: it installs the value
    as the prototype of [o], and a read of ['__proto__'] gives the
    prototype back, so that for this key too the read returns what was
    assigned.  What the other keys inherit from a prototype installed in
    this way is not represented. *)
Definition read {V} (o : gmap string V) (k : string) : property V :=
  match o !! k with
  | Some v => Own v
  | None =>
      match inherited k with
      | Some f => Inherited f
      | None => Missing
      end
  end.

End Js.

(* ===================================================================== *)
(** ** Ajv *)
(* ===================================================================== *)

Module Ajv.

(** [Ajv.ErrorObject] *)
Record ErrorObject : Type := {
  keyword : string;
  dataPath : string;
  schemaPath : string;
  params : Js.value;
  message : string;
}.

(** [Ajv.Options], the two options that decide how many errors a validator
    reports and whether it rewrites its input; every other option is at its
    default. *)
Inductive CoerceTypes : Type := CoerceOff | CoerceOn | CoerceArray.

Record Options : Type := {
  coerceTypes : CoerceTypes;
  allErrors : bool;
}.

(** [{}] *)
Definition default_options : Options :=
  {| coerceTypes := CoerceOff; allErrors := false |}.

(** [{ ...opts, coerceTypes: true }] *)
Definition with_coercion (o : Options) : Options :=
  {| coerceTypes := CoerceOn; allErrors := allErrors o |}.

(** *** Paths in error objects *)

Definition is_alpha (c : ascii) : bool :=
  let n := nat_of_ascii c in
  (Nat.leb 65 n && Nat.leb n 90) || (Nat.leb 97 n && Nat.leb n 122)
  || Nat.eqb n 36 || Nat.eqb n 95.

Definition is_alnum (c : ascii) : bool :=
  let n := nat_of_ascii c in
  is_alpha c || (Nat.leb 48 n && Nat.leb n 57).

Fixpoint all_chars (p : ascii -> bool) (s : string) : bool :=
  match s with
  | EmptyString => true
  | String c s' => p c && all_chars p s'
  end.

(** [/^[a-z$_][a-z$_0-9]*$/i] *)
Definition is_identifier (s : string) : bool :=
  match s with
  | EmptyString => false
  | String c s' => is_alpha c && all_chars is_alnum s'
  end.

(** [util.escapeQuotes] *)
Fixpoint escapeQuotes (s : string) : string :=
  match s with
  | EmptyString => EmptyString
  | String c s' =>
      let n := nat_of_ascii c in
      let rest := escapeQuotes s' in
      if Nat.eqb n 39 || Nat.eqb n 92 then String "\" (String c rest)
      else if Nat.eqb n 10 then String "\" (String "n" rest)
      else if Nat.eqb n 13 then String "\" (String "r" rest)
      else if Nat.eqb n 12 then String "\" (String "f" rest)
      else if Nat.eqb n 9 then String "\" (String "t" rest)
      else String c rest
  end.

(** [util.getProperty] : the accessor appended to [dataPath]. *)
Definition getProperty (k : string) : string :=
  if is_identifier k then "." ++ k else "['" ++ escapeQuotes k ++ "']".

Definition hex_digit (n : nat) : ascii :=
  if Nat.ltb n 10 then ascii_of_nat (48 + n) else ascii_of_nat (55 + n).

(** [encodeURIComponent] leaves these characters as they are. *)
Definition uri_unreserved (c : ascii) : bool :=
  let n := nat_of_ascii c in
  (Nat.leb 65 n && Nat.leb n 90) || (Nat.leb 97 n && Nat.leb n 122)
  || (Nat.leb 48 n && Nat.leb n 57)
  || existsb (Nat.eqb n) [45; 95; 46; 33; 126; 42; 39; 40; 41]%nat.

(** [util.escapeFragment] : JSON-pointer escaping, then percent encoding. *)
Fixpoint escapeFragment (s : string) : string :=
  match s with
  | EmptyString => EmptyString
  | String c s' =>
      let n := nat_of_ascii c in
      let rest := escapeFragment s' in
      if Nat.eqb n 126 then String "~" (String "0" rest)
      else if Nat.eqb n 47 then String "~" (String "1" rest)
      else if uri_unreserved c then String c rest
      else String "%" (String (hex_digit (n / 16)) (String (hex_digit (n mod 16)) rest))
  end.

(** *** The errors of the structural keywords *)

Definition type_object_error (dp sp : string) : ErrorObject :=
  {| keyword := "type"; dataPath := dp; schemaPath := sp ++ "/type";
     params := Js.Object [("type", Js.Str "object")];
     message := "should be object" |}.

Definition required_error (dp sp k : string) : ErrorObject :=
  {| keyword := "required"; dataPath := dp; schemaPath := sp ++ "/required";
     params := Js.Object [("missingProperty", Js.Str k)];
     message := "should have required property '" ++ k ++ "'" |}.

Definition additional_error (dp sp k : string) : ErrorObject :=
  {| keyword := "additionalProperties"; dataPath := dp;
     schemaPath := sp ++ "/additionalProperties";
     params := Js.Object [("additionalProperty", Js.Str k)];
     message := "should NOT have additional properties" |}.

Definition oneOf_error (dp sp : string) (passing : Js.value) : ErrorObject :=
  {| keyword := "oneOf"; dataPath := dp; schemaPath := sp ++ "/oneOf";
     params := Js.Object [("passingSchemas", passing)];
     message := "should match exactly one schema in oneOf" |}.

(** An error reported by a sub-schema, seen from the enclosing schema. *)
Definition relocate (dp sp : string) (e : ErrorObject) : ErrorObject :=
  {| keyword := keyword e; dataPath := dp ++ dataPath e;
     schemaPath := sp ++ schemaPath e; params := params e;
     message := message e |}.

(** Without [allErrors] a validator stops at its first failing keyword. *)
Definition limit (all : bool) (es : list ErrorObject) : list ErrorObject :=
  if all then es else firstn 1 es.

(** *** Schemas written by the API author

    [OpenAPIV3.SchemaObject] comes from the package openapi-types and is
    evaluated by Ajv; the validator class only reads its [type] field.  A
    dialect says how such a schema is checked at compile time and evaluated
    at run time: evaluation returns the errors, with paths relative to the
    schema, and the value as coercion leaves it. *)
Class SchemaDialect : Type := {
  SchemaObject : Type;
  (** [schema.type] *)
  schema_type : SchemaObject -> option string;
  (** [compile] accepts the schema: it passes Ajv's meta-schema validation
      and what it refers to resolves *)
  schema_valid : SchemaObject -> bool;
  (** the schema has at least one keyword Ajv generates code for *)
  schema_has_rules : SchemaObject -> bool;
  evaluate : Options -> SchemaObject -> Js.value -> list ErrorObject * Js.value;
  (** a schema without rules accepts everything and touches nothing *)
  evaluate_no_rules : forall o s d,
    schema_has_rules s = false -> evaluate o s d = ([], d);
  (** only coercion rewrites the validated value *)
  evaluate_no_coercion : forall o s d,
    coerceTypes o = CoerceOff -> snd (evaluate o s d) = d;
  (** errors carry the keyword of the JSON Schema rule that failed *)
  evaluate_keyword : forall o s d e,
    In e (fst (evaluate o s d)) -> keyword e <> "parse";
}.

Section Evaluation.
Context `{SchemaDialect}.

(** *** The schema documents the validator class hands to [compile] *)

(** [{ type: 'object', additionalProperties, properties, required }] with
    author schemas as properties: the shape of a parameter location.  A
    property may hold [undefined] (a parameter declared without schema). *)
Record LocationSchema : Type := {
  loc_additionalProperties : bool;
  loc_properties : list (string * option SchemaObject);
  loc_required : list string;
}.

(** What a property of an [ObjectSchema] holds. *)
Inductive PropertySchema : Type :=
| Author (s : SchemaObject)
| Location (l : LocationSchema).

(** [{ title, type: 'object', additionalProperties, properties, required }] *)
Record ObjectSchema : Type := {
  title : string;
  additionalProperties : bool;
  properties : list (string * PropertySchema);
  required : list string;
}.

Inductive Schema : Type :=
| SObject (s : ObjectSchema)
| SOneOf (oneOf : list SchemaObject).

(** *** Evaluation *)

Definition is_nil {A} (l : list A) : bool :=
  match l with [] => true | _ => false end.

(** Stop after a failing keyword unless [allErrors] is set. *)
Definition stop (all : bool) (es : list ErrorObject) : bool :=
  negb all && negb (is_nil es).

(** [data[k] === undefined], for the keys the data has itself: the members
    a data object inherits from [Object.prototype] are not part of
    [Js.value]. *)
Definition missing (o : Js.object) (k : string) : bool :=
  Js.is_undefined (Js.get k o).

Definition mem (k : string) (l : list string) : bool :=
  existsb (String.eqb k) l.

(** How keyword [required] names a missing property in its error: with
    [allErrors] every missing property is reported under its own name;
    without, the generated code keeps the accessor of the first missing
    property ([.name], or [['name']] when the name is no identifier) and
    reports that. *)
Definition missing_name (all : bool) (k : string) : string :=
  if all then k else getProperty k.

(** [uniqueItems] on a list of strings. *)
Fixpoint unique (l : list string) : bool :=
  match l with
  | [] => true
  | k :: l' => negb (mem k l') && unique l'
  end.

(** An author schema placed at [dp] in the data and [sp] in the schema. *)
Definition eval_author (opts : Options) (s : SchemaObject)
    (dp sp : string) (d : Js.value) : list ErrorObject * Js.value :=
  let '(es, d') := evaluate opts s d in (map (relocate dp sp) es, d').

Definition eval_optional (opts : Options) (s : option SchemaObject)
    (dp sp : string) (d : Js.value) : list ErrorObject * Js.value :=
  match s with
  | Some s => eval_author opts s dp sp d
  | None => ([], d)
  end.

Definition optional_has_rules (s : option SchemaObject) : bool :=
  match s with Some s => schema_has_rules s | None => false end.

Section ObjectKeywords.
Context {A : Type}.
Variable has_rules : A -> bool.
Variable child : A -> string -> string -> Js.value -> list ErrorObject * Js.value.
Variable all : bool.
Variable required : list string.
Variables dp sp : string.

(** The loop of keyword [properties] over the schema's properties, in
    order.  A property absent from the data fails only when it is required;
    a present one is handed to its sub-schema and stored back as coerced. *)
Fixpoint eval_properties (props : list (string * A)) (o : Js.object)
  : list ErrorObject * Js.object :=
  match props with
  | [] => ([], o)
  | (k, a) :: rest =>
      let '(es, o1) :=
        if has_rules a then
          if missing o k then
            (if mem k required then [required_error dp sp k] else [], o)
          else
            let '(es, v') :=
              child a (dp ++ getProperty k)
                      (sp ++ "/properties/" ++ escapeFragment k)
                      (Js.get k o) in
            (es, Js.set k v' o)
        else ([], o) in
      if stop all es then (es, o1)
      else let '(es', o2) := eval_properties rest o1 in ((es ++ es')%list, o2)
  end.

(** An object schema: [type], then [required] (for the names whose property
    has no rules of its own), then [properties] - additional keys first.
    Keyword [required] names the missing property by its accessor when it
    stops at the first one, keyword [properties] by its bare name. *)
Definition eval_object (addl : bool) (props : list (string * A))
    (d : Js.value) : list ErrorObject * Js.value :=
  match d with
  | Js.Object o =>
      let ruled k :=
        match Js.lookup k props with
        | Some a => has_rules a
        | None => false
        end in
      let e_req :=
        limit all (map (fun k => required_error dp sp (missing_name all k))
          (List.filter (fun k => negb (ruled k) && missing o k) required)) in
      if stop all e_req then (e_req, d)
      else
        let e_add :=
          if addl then []
          else limit all (map (additional_error dp sp)
                 (List.filter (fun k => negb (Js.has_key k props)) (Js.keys o))) in
        if stop all e_add then ((e_req ++ e_add)%list, d)
        else
          let '(e_props, o') := eval_properties props o in
          ((e_req ++ e_add ++ e_props)%list, Js.Object o')
  | _ => ([type_object_error dp sp], d)
  end.

End ObjectKeywords.

Definition eval_location (opts : Options) (l : LocationSchema)
    (dp sp : string) (d : Js.value) : list ErrorObject * Js.value :=
  eval_object optional_has_rules (eval_optional opts) (allErrors opts)
    (loc_required l) dp sp (loc_additionalProperties l) (loc_properties l) d.

Definition eval_property (opts : Options) (p : PropertySchema)
    (dp sp : string) (d : Js.value) : list ErrorObject * Js.value :=
  match p with
  | Author s => eval_author opts s dp sp d
  | Location l => eval_location opts l dp sp d
  end.

Definition property_has_rules (p : PropertySchema) : bool :=
  match p with
  | Author s => schema_has_rules s
  | Location _ => true
  end.

(** Keyword [oneOf]: the branches run in order on the same value, until a
    second one passes.  [passing] holds the index of the branch that passed
    so far.  The result is the errors of the failed branches, the indices
    that passed, and the value. *)
Fixpoint eval_branches (opts : Options) (dp sp : string)
    (schemas : list SchemaObject) (i : nat) (passing : option nat)
    (d : Js.value) : list ErrorObject * list nat * Js.value :=
  match schemas with
  | [] => ([], match passing with Some p => [p] | None => [] end, d)
  | s :: rest =>
      let '(es, d') :=
        eval_author opts s dp
          (sp ++ "/oneOf/" ++ Js.number_to_string (Z.of_nat i)) d in
      match is_nil es, passing with
      | true, Some p => ([], [p; i], d')
      | true, None => eval_branches opts dp sp rest (S i) (Some i) d'
      | false, _ =>
          let '(es', ps, d'') := eval_branches opts dp sp rest (S i) passing d' in
          ((es ++ es')%list, ps, d'')
      end
  end.

Definition eval_oneOf (opts : Options) (dp sp : string)
    (schemas : list SchemaObject) (d : Js.value) : list ErrorObject * Js.value :=
  let '(es, ps, d') := eval_branches opts dp sp schemas 0 None d in
  match ps with
  | [_] => ([], d')
  | [] => ((es ++ [oneOf_error dp sp Js.Null])%list, d')
  | _ => ((es ++ [oneOf_error dp sp
                  (Js.Array (map (fun p => Js.Number (Z.of_nat p)) ps))])%list, d')
  end.

Definition eval_schema (opts : Options) (s : Schema) (d : Js.value)
  : list ErrorObject * Js.value :=
  match s with
  | SObject s =>
      eval_object property_has_rules (eval_property opts) (allErrors opts)
        (required s) "" "#" (additionalProperties s) (properties s) d
  | SOneOf schemas => eval_oneOf opts "" "#" schemas d
  end.

(** *** Compiled validators *)

(** [Ajv.ValidateFunction]: the compiled schema with the options it was
    compiled under, and the [errors] property the last call left. *)
Record ValidateFunction : Type := {
  vf_options : Options;
  vf_schema : Schema;
  errors : option (list ErrorObject);
}.

(** Meta-schema validation at compile time: every author schema is valid,
    no property is [undefined], and no [required] list names a property
    twice (the meta-schema asks for [uniqueItems]). *)
Definition location_valid (l : LocationSchema) : bool :=
  forallb (fun '(_, s) =>
             match s with Some s => schema_valid s | None => false end)
          (loc_properties l)
  && unique (loc_required l).

Definition property_valid (p : PropertySchema) : bool :=
  match p with
  | Author s => schema_valid s
  | Location l => location_valid l
  end.

Definition valid_schema (s : Schema) : bool :=
  match s with
  | SObject s =>
      forallb (fun '(_, p) => property_valid p) (properties s)
      && unique (required s)
  | SOneOf schemas => forallb schema_valid schemas
  end.

(** [new Ajv(opts).compile(schema)]; [None] when compile throws. *)
Definition compile (opts : Options) (s : Schema) : option ValidateFunction :=
  if valid_schema s
  then Some {| vf_options := opts; vf_schema := s; errors := None |}
  else None.

(** [validate(data)]: the function with its [errors] property set ([null]
    when the data is valid), and the data as coercion left it. *)
Definition call (validate : ValidateFunction) (d : Js.value)
  : ValidateFunction * Js.value :=
  let '(es, d') := eval_schema (vf_options validate) (vf_schema validate) d in
  ({| vf_options := vf_options validate; vf_schema := vf_schema validate;
      errors := if is_nil es then None else Some es |}, d').

End Evaluation.

End Ajv.

(* ===================================================================== *)
(** ** Exceptions *)
(* ===================================================================== *)

Inductive Exception : Type :=
| Error (message : string)   (* [new Error(message)] *)
| TypeError                  (* a read on [undefined], a loop over a value
                               that is not iterable, a call that fails *)
| InvalidSchema.             (* thrown by Ajv's [compile] *)

Inductive outcome (A : Type) : Type :=
| Returns (a : A)
| Throws (e : Exception).
Arguments Returns {A} a.
Arguments Throws {A} e.

Definition bind {A B} (m : outcome A) (k : A -> outcome B) : outcome B :=
  match m with
  | Returns a => k a
  | Throws e => Throws e
  end.

(** [operations.map(f)] for a method [f] that updates the instance. *)
Fixpoint for_each {A S} (f : S -> A -> outcome S) (l : list A) (s : S)
  : outcome S :=
  match l with
  | [] => Returns s
  | a :: l' => bind (f s a) (for_each f l')
  end.

(* ===================================================================== *)
(** ** The OpenAPI data model and the router interface *)
(* ===================================================================== *)

Section Model.
Context `{D : Ajv.SchemaDialect}.

(** [OpenAPIV3.ParameterObject], dereferenced. *)
Inductive ParameterLocation : Type := InPath | InQuery | InHeader | InCookie.

Definition location_name (l : ParameterLocation) : string :=
  match l with
  | InPath => "path"
  | InQuery => "query"
  | InHeader => "header"
  | InCookie => "cookie"
  end.

Definition is_query (l : ParameterLocation) : bool :=
  match l with InQuery => true | _ => false end.

Record ParameterObject : Type := {
  param_name : string;
  param_in : ParameterLocation;
  param_required : bool;
  param_schema : option Ajv.SchemaObject;
}.

Record MediaTypeObject : Type := {
  media_schema : option Ajv.SchemaObject;
}.

Record RequestBodyObject : Type := {
  body_content : list (string * MediaTypeObject);
}.

Record ResponseObject : Type := {
  response_content : option (list (string * MediaTypeObject));
}.

(** [Operation] of the router: an operation object with its path and
    method. *)
Record Operation : Type := {
  operationId : option string;
  path : string;
  method : string;
  parameters : list ParameterObject;
  requestBody : option RequestBodyObject;
  responses : option (list (string * ResponseObject));
}.

(** [Request] and [ParsedRequest] of the router. *)
Record Request : Type := {
  req_method : string;
  req_path : string;
  req_headers : option Js.object;
  req_query : option Js.value;
  body : Js.value;
}.

Record ParsedRequest : Type := {
  params : option Js.object;
  query : option Js.object;
  headers : option Js.object;
  cookies : option Js.object;
  parsed_requestBody : Js.value;
}.

(** The methods of [OpenAPIRouter] the validator calls. *)
Record OpenAPIRouter : Type := {
  getOperations : list Operation;
  matchOperation : Request -> option Operation;
  getOperation : string -> option Operation;
  parseRequest : Request -> option string -> ParsedRequest;
}.

(** What the class takes from its surroundings: the document type, the
    router constructor, and [JSON.parse]. *)
Class Environment : Type := {
  Document : Type;
  new_OpenAPIRouter : Document -> OpenAPIRouter;
  JSON_parse : string -> Js.parsed;
}.

Context `{E : Environment}.

(* ===================================================================== *)
(** ** class OpenAPIValidator *)
(* ===================================================================== *)

Record ValidationResult : Type := {
  valid : bool;
  errors : option (list Ajv.ErrorObject);
}.

Definition InputValidationSchema : Type := Ajv.ObjectSchema.

(** The two registries are plain objects used as maps from operationId to
    validators: the maps below hold what the [build...] methods assigned,
    and the getters read them as JavaScript reads a property ([Js.read]). *)
Record OpenAPIValidator : Type := {
  definition : Document;
  ajvOpts : Ajv.Options;
  requestValidators : gmap string (list Ajv.ValidateFunction);
  responseValidators : gmap string Ajv.ValidateFunction;
  router : OpenAPIRouter;
}.

Definition set_requestValidators (self : OpenAPIValidator)
    (m : gmap string (list Ajv.ValidateFunction)) : OpenAPIValidator :=
  {| definition := definition self; ajvOpts := ajvOpts self;
     requestValidators := m;
     responseValidators := responseValidators self;
     router := router self |}.

Definition set_responseValidators (self : OpenAPIValidator)
    (m : gmap string Ajv.ValidateFunction) : OpenAPIValidator :=
  {| definition := definition self; ajvOpts := ajvOpts self;
     requestValidators := requestValidators self;
     responseValidators := m;
     router := router self |}.

Definition getRequestValidatorsForOperation (self : OpenAPIValidator)
    (operationId : string) : Js.property (list Ajv.ValidateFunction) :=
  Js.read (requestValidators self) operationId.

Definition getResponseValidatorForOperation (self : OpenAPIValidator)
    (operationId : string) : Js.property Ajv.ValidateFunction :=
  Js.read (responseValidators self) operationId.

(** *** buildRequestValidatorsForOperation *)

(** The schema for the request body (lines 252-269): present when the
    request body has a schema under application/json. *)
Definition requestBodySchema (requestBody : RequestBodyObject)
  : option InputValidationSchema :=
  match Js.lookup "application/json" (body_content requestBody) with
  | Some jsonbody =>
      match media_schema jsonbody with
      | Some schema =>
          Some {| Ajv.title := "Request";
                  Ajv.additionalProperties := true;
                  Ajv.properties := [("requestBody", Ajv.Author schema)];
                  Ajv.required :=
                    if Nat.eqb (length (Js.keys (body_content requestBody))) 1
                    then ["requestBody"] else [] |}
      | None => None
      end
  | None => None
  end.

Definition emptyLocation (additional : bool) : Ajv.PropertySchema :=
  Ajv.Location {| Ajv.loc_additionalProperties := additional;
                  Ajv.loc_properties := [];
                  Ajv.loc_required := [] |}.

(** The literal the parameter schema starts from (lines 277-308). *)
Definition paramsSkeleton : InputValidationSchema :=
  {| Ajv.title := "Request";
     Ajv.additionalProperties := true;
     Ajv.properties :=
       [("path", emptyLocation false);
        ("query", emptyLocation false);
        ("header", emptyLocation true);
        ("cookie", emptyLocation true)];
     Ajv.required := [] |}.

(** [paramsSchema.properties[target]] updated in place. *)
Definition on_target (target : string)
    (f : Ajv.LocationSchema -> Ajv.LocationSchema)
    (props : list (string * Ajv.PropertySchema))
  : list (string * Ajv.PropertySchema) :=
  map (fun '(k, p) =>
         if String.eqb k target
         then (k, match p with
                  | Ajv.Location l => Ajv.Location (f l)
                  | Ajv.Author _ => p
                  end)
         else (k, p)) props.

(** One step of [parameters.map] (lines 312-319). *)
Definition addParameter (paramsSchema : InputValidationSchema)
    (param : ParameterObject) : InputValidationSchema :=
  let target := location_name (param_in param) in
  let update (l : Ajv.LocationSchema) : Ajv.LocationSchema :=
    {| Ajv.loc_additionalProperties := Ajv.loc_additionalProperties l;
       Ajv.loc_properties :=
         Js.set (param_name param) (param_schema param) (Ajv.loc_properties l);
       Ajv.loc_required :=
         if param_required param
         then (Ajv.loc_required l ++ [param_name param])%list
         else Ajv.loc_required l |} in
  {| Ajv.title := Ajv.title paramsSchema;
     Ajv.additionalProperties := Ajv.additionalProperties paramsSchema;
     Ajv.properties := on_target target update (Ajv.properties paramsSchema);
     Ajv.required :=
       if param_required param
       then Js.uniq (Ajv.required paramsSchema ++ [target])%list
       else Ajv.required paramsSchema |}.

Definition paramsSchemaOf (operation : Operation) : InputValidationSchema :=
  fold_left addParameter (parameters operation) paramsSkeleton.

Definition throwing {A} (o : option A) : outcome A :=
  match o with
  | Some a => Returns a
  | None => Throws InvalidSchema
  end.

(** The body validator of an operation, if it has one. *)
Definition bodyValidators (opts : Ajv.Options) (operation : Operation)
  : outcome (list Ajv.ValidateFunction) :=
  match requestBody operation with
  | Some requestBody =>
      match requestBodySchema requestBody with
      | Some requestBodySchema =>
          bind (throwing (Ajv.compile opts (Ajv.SObject requestBodySchema)))
               (fun requstBodyValidator => Returns [requstBodyValidator])
      | None => Returns []
      end
  | None => Returns []
  end.

Definition buildRequestValidatorsForOperation (self : OpenAPIValidator)
    (operation : Operation) : outcome OpenAPIValidator :=
  let operationId := operationId operation in
  bind (bodyValidators (ajvOpts self) operation) (fun validators =>
  let paramsSchema := paramsSchemaOf operation in
  bind (throwing (Ajv.compile (Ajv.with_coercion (ajvOpts self))
                              (Ajv.SObject paramsSchema)))
       (fun paramsValidator =>
  let validators := (validators ++ [paramsValidator])%list in
  Returns (set_requestValidators self
             (<[Js.property_key operationId := validators]>
                (requestValidators self))))).

(** *** buildResponseValidatorForOperation *)

(** The schemas collected by [_.mapKeys] (lines 353-358). *)
Definition responseSchemasOf (responses : list (string * ResponseObject))
  : list Ajv.SchemaObject :=
  flat_map (fun '(status, response) =>
    match response_content response with
    | Some content =>
        match Js.lookup "application/json" content with
        | Some media =>
            match media_schema media with
            | Some schema => [schema]
            | None => []
            end
        | None => []
        end
    | None => []
    end) responses.

Definition buildResponseValidatorForOperation (self : OpenAPIValidator)
    (operation : Operation) : outcome OpenAPIValidator :=
  match responses operation with
  | None => Returns self
  | Some responses =>
      let operationId := operationId operation in
      let responseSchemas := responseSchemasOf responses in
      if Ajv.is_nil responseSchemas then Returns self
      else
        let schema := Ajv.SOneOf responseSchemas in
        bind (throwing (Ajv.compile (ajvOpts self) schema)) (fun validator =>
        Returns (set_responseValidators self
                   (<[Js.property_key operationId := validator]>
                      (responseValidators self))))
  end.

(** *** constructor *)

Record ConstructorOptions : Type := {
  opts_definition : Document;
  opts_ajvOpts : option Ajv.Options;
}.

Definition constructor (opts : ConstructorOptions) : outcome OpenAPIValidator :=
  let router := new_OpenAPIRouter (opts_definition opts) in
  let operations := getOperations router in
  let self :=
    {| definition := opts_definition opts;
       ajvOpts := match opts_ajvOpts opts with
                  | Some o => o
                  | None => Ajv.default_options
                  end;
       requestValidators := ∅;
       responseValidators := ∅;
       router := router |} in
  bind (for_each buildRequestValidatorsForOperation operations self)
       (for_each buildResponseValidatorForOperation operations).

(** *** validateRequest *)

(** The [operation] argument: omitted, an operationId, or an operation. *)
Inductive OperationArg : Type :=
| Omitted
| ById (id : string)
| Given (operation : Operation).

(** Lines 105-109. *)
Definition resolveRequestOperation (self : OpenAPIValidator) (req : Request)
    (operation : OperationArg) : option Operation :=
  match operation with
  | Omitted => matchOperation (router self) req
  | ById id =>
      if String.eqb id "" then matchOperation (router self) req
      else getOperation (router self) id
  | Given operation => Some operation
  end.

(** [_.find(operation.parameters, { name, in: 'query' })] finds a parameter
    whose schema has [type === 'array'] (lines 125-128). *)
Definition declaredAsArray (operation : Operation) (name : string) : bool :=
  match List.find (fun p => String.eqb (param_name p) name && is_query (param_in p))
                  (parameters operation) with
  | Some operationParameter =>
      match param_schema operationParameter with
      | Some schema =>
          match Ajv.schema_type schema with
          | Some t => String.eqb t "array"
          | None => false
          end
      | None => false
      end
  | None => false
  end.

(** The loop over [_.entries(query)] (lines 123-133). *)
Definition wrapSingularQuery (operation : Operation) (query : option Js.object)
  : option Js.object :=
  fold_left
    (fun query '(name, value) =>
       match value with
       | Js.Str _ =>
           if declaredAsArray operation name
           then option_map (Js.set name (Js.Array [value])) query
           else query
       | _ => query
       end)
    (Js.entries query) query.

(** [_.omitBy({ path, query, header, cookie }, _.isNil)] (lines 135-143). *)
Definition omitNil (l : list (string * option Js.object)) : Js.object :=
  flat_map (fun '(k, v) =>
              match v with
              | Some o => [(k, Js.Object o)]
              | None => []
              end) l.

(** The object to validate, before the body is added (lines 123-143). *)
Definition requestParameters (operation : Operation) (parsed : ParsedRequest)
  : Js.object :=
  let query := wrapSingularQuery operation (query parsed) in
  omitNil [("path", params parsed); ("query", query);
           ("header", headers parsed); ("cookie", cookies parsed)].

Definition parse_error (message : string) : Ajv.ErrorObject :=
  {| Ajv.keyword := "parse";
     Ajv.dataPath := "";
     Ajv.schemaPath := "#/requestBody";
     Ajv.params := Js.Array [];
     Ajv.message := message |}.

(** [_.keys(_.get(operation, 'requestBody.content', {}))] *)
Definition payloadFormats (operation : Operation) : list string :=
  match requestBody operation with
  | Some requestBody => Js.keys (body_content requestBody)
  | None => []
  end.

(** The check for malformed JSON (lines 145-161). *)
Definition malformedBodyErrors (operation : Operation) (req : Request)
  : list Ajv.ErrorObject :=
  if negb (Js.typeof_object (body req)) && negb (Js.is_undefined (body req))
  then
    match payloadFormats operation with
    | [format] =>
        if String.eqb format "application/json"
        then match JSON_parse (Js.to_string (body req)) with
             | Js.SyntaxError message => [parse_error message]
             | Js.Parsed _ => []
             end
        else []
    | _ => []
    end
  else [].

Definition is_json_content_type (v : Js.value) : bool :=
  match v with
  | Js.Str s => String.eqb s "application/json"
  | _ => false
  end.

(** Lines 163-166; reading [headers['content-type']] throws when the router
    returned no headers. *)
Definition includeRequestBody (parsed : ParsedRequest) (parameters : Js.object)
  : outcome Js.object :=
  if Js.typeof_object (parsed_requestBody parsed)
  then Returns (Js.set "requestBody" (parsed_requestBody parsed) parameters)
  else
    match headers parsed with
    | Some headers =>
        if is_json_content_type (Js.get "content-type" headers)
        then Returns (Js.set "requestBody" (parsed_requestBody parsed) parameters)
        else Returns parameters
    | None => Throws TypeError
    end.

Definition errors_of (validate : Ajv.ValidateFunction) : list Ajv.ErrorObject :=
  match Ajv.errors validate with
  | Some es => es
  | None => []
  end.

(** The loop over the validators (lines 169-174): every validator is called
    on the same object, and keeps the errors of the call. *)
Fixpoint runValidators (validators : list Ajv.ValidateFunction)
    (parameters : Js.value) : list Ajv.ValidateFunction * list Ajv.ErrorObject :=
  match validators with
  | [] => ([], [])
  | validate :: rest =>
      let '(validate', parameters') := Ajv.call validate parameters in
      let '(rest', es) := runValidators rest parameters' in
      (validate' :: rest', (errors_of validate' ++ es)%list)
  end.

(** Lines 176-183 and 218-225. *)
Definition finish (errs : list Ajv.ErrorObject) : ValidationResult :=
  if Ajv.is_nil errs
  then {| valid := true; errors := None |}
  else {| valid := false; errors := Some errs |}.

Definition unknownOperation : Exception := Error "Unknown operation".

(** Lines 99-184.  The loop [for (const validate of validators)] needs an
    iterable: it throws a [TypeError] on [undefined] and on a member
    inherited from [Object.prototype], none of which is iterable.

    The parsed request is a value here.  The wrapped query values and the
    values Ajv coerces are threaded through the validators, as the source
    does by writing them into the objects the router returned (line 129,
    and Ajv's coercion in place); the call returns the result and the
    instance, not those objects as it leaves them. *)
Definition validateRequest (self : OpenAPIValidator) (req : Request)
    (operation : OperationArg) : outcome ValidationResult * OpenAPIValidator :=
  match resolveRequestOperation self req operation with
  | None => (Throws unknownOperation, self)
  | Some operation =>
      if negb (Js.truthy_string (operationId operation))
      then (Throws unknownOperation, self)
      else
        let operationId := Js.property_key (operationId operation) in
        let validators := getRequestValidatorsForOperation self operationId in
        let parsed := parseRequest (router self) req (Some (path operation)) in
        let parameters := requestParameters operation parsed in
        let errs := malformedBodyErrors operation req in
        match includeRequestBody parsed parameters with
        | Throws e => (Throws e, self)
        | Returns parameters =>
            match validators with
            | Js.Own validators =>
                let '(validators', es) :=
                  runValidators validators (Js.Object parameters) in
                (Returns (finish (errs ++ es)%list),
                 set_requestValidators self
                   (<[operationId := validators']> (requestValidators self)))
            | Js.Inherited _ | Js.Missing => (Throws TypeError, self)
            end
        end
  end.

(** *** validateResponse *)

(** Lines 200-202. *)
Definition resolveResponseOperation (self : OpenAPIValidator)
    (operation : OperationArg) : option Operation :=
  match operation with
  | Omitted => None
  | ById id => getOperation (router self) id
  | Given operation => Some operation
  end.

(** Lines 194-226.  Whatever the registry yields under the operationId
    is tested for truthiness and called: a registered validator, or a
    member inherited from [Object.prototype], which has no [errors]. *)
Definition validateResponse (self : OpenAPIValidator) (res : Js.value)
    (operation : OperationArg) : outcome ValidationResult * OpenAPIValidator :=
  match resolveResponseOperation self operation with
  | None => (Throws unknownOperation, self)
  | Some operation =>
      if negb (Js.truthy_string (operationId operation))
      then (Throws unknownOperation, self)
      else
        let operationId := Js.property_key (operationId operation) in
        match getResponseValidatorForOperation self operationId with
        | Js.Own validate =>
            let '(validate', _) := Ajv.call validate res in
            (Returns (finish (errors_of validate')),
             set_responseValidators self
               (<[operationId := validate']> (responseValidators self)))
        | Js.Inherited member =>
            if Js.call_throws member res then (Throws TypeError, self)
            else (Returns (finish []), self)
        | Js.Missing => (Returns (finish []), self)
        end
  end.

(** *** Notions used in the statements *)

(** The registry key of an operation. *)
Definition registryKey (operation : Operation) : string :=
  Js.property_key (operationId operation).

(** OpenAPI requires operationIds to be unique in a document. *)
Definition uniqueOperationIds (operations : list Operation) : Prop :=
  List.NoDup (map registryKey operations).

(** ... and parameters to be unique by name and location. *)
Definition uniqueParameters (operation : Operation) : Prop :=
  List.NoDup (map (fun p => (param_name p, param_in p)) (parameters operation)).

Definition fresh (opts : Ajv.Options) (s : Ajv.Schema) : Ajv.ValidateFunction :=
  {| Ajv.vf_options := opts; Ajv.vf_schema := s; Ajv.errors := None |}.

(** The validators [buildRequestValidatorsForOperation] registers for an
    operation when both compile. *)
Definition bodyValidatorOf (opts : Ajv.Options) (operation : Operation)
  : list Ajv.ValidateFunction :=
  match requestBody operation with
  | Some requestBody =>
      match requestBodySchema requestBody with
      | Some s => [fresh opts (Ajv.SObject s)]
      | None => []
      end
  | None => []
  end.

Definition paramsValidatorOf (opts : Ajv.Options) (operation : Operation)
  : Ajv.ValidateFunction :=
  fresh (Ajv.with_coercion opts) (Ajv.SObject (paramsSchemaOf operation)).

Definition requestValidatorsOf (opts : Ajv.Options) (operation : Operation)
  : list Ajv.ValidateFunction :=
  (bodyValidatorOf opts operation ++ [paramsValidatorOf opts operation])%list.

Definition requestEntry (opts : Ajv.Options) (operation : Operation)
  : option (list Ajv.ValidateFunction) :=
  Some (requestValidatorsOf opts operation).

(** The schemas [buildResponseValidatorForOperation] collects. *)
Definition declaredResponseSchemas (operation : Operation)
  : list Ajv.SchemaObject :=
  match responses operation with
  | Some responses => responseSchemasOf responses
  | None => []
  end.

Definition string_list_eqb (l1 l2 : list string) : bool :=
  Nat.eqb (length l1) (length l2)
  && forallb (fun '(a, b) => String.eqb a b) (combine l1 l2).

(** A validator compiled from a parameter schema: coercing, with the four
    locations as properties. *)
Definition isParamsValidator (v : Ajv.ValidateFunction) : bool :=
  match Ajv.coerceTypes (Ajv.vf_options v), Ajv.vf_schema v with
  | Ajv.CoerceOn, Ajv.SObject s =>
      string_list_eqb (Js.keys (Ajv.properties s))
                      ["path"; "query"; "header"; "cookie"]
  | _, _ => false
  end.

(** A validator compiled from a body schema: its only property is
    [requestBody]. *)
Definition isBodyValidator (v : Ajv.ValidateFunction) : bool :=
  match Ajv.vf_schema v with
  | Ajv.SObject s =>
      match Ajv.properties s with
      | [(k, Ajv.Author _)] => String.eqb k "requestBody"
      | _ => false
      end
  | Ajv.SOneOf _ => false
  end.

(** A validator compiled from a non-empty [oneOf]. *)
Definition isResponseValidator (v : Ajv.ValidateFunction) : bool :=
  match Ajv.vf_schema v with
  | Ajv.SOneOf (_ :: _) => true
  | _ => false
  end.

(** The validator [buildResponseValidatorForOperation] registers. *)
Definition responseValidatorOf (opts : Ajv.Options) (operation : Operation)
  : option Ajv.ValidateFunction :=
  match declaredResponseSchemas operation with
  | [] => None
  | schemas => Some (fresh opts (Ajv.SOneOf schemas))
  end.

(** One registration: [registry[key a] = v] when there is a [v]. *)
Definition register {A V} (key : A -> string) (val : A -> option V)
    (m : gmap string V) (a : A) : gmap string V :=
  match val a with
  | Some v => <[key a := v]> m
  | None => m
  end.


(** The value the loop over the query entries leaves under [name]. *)
Definition wrapValue (operation : Operation) (entry : string * Js.value)
  : string * Js.value :=
  let '(name, value) := entry in
  (name,
   match value with
   | Js.Str _ =>
       if declaredAsArray operation name then Js.Array [value] else value
   | _ => value
   end).



(** An error that reports the property [requestBody] of the validated
    object as missing: keyword [required] at the root of the data, naming
    the property or its accessor. *)
Definition reportsMissingBody (e : Ajv.ErrorObject) : bool :=
  String.eqb (Ajv.keyword e) "required"
  && String.eqb (Ajv.dataPath e) ""
  && match Ajv.params e with
     | Js.Object fields =>
         match Js.get "missingProperty" fields with
         | Js.Str name =>
             String.eqb name "requestBody" || String.eqb name ".requestBody"
         | _ => false
         end
     | _ => false
     end.

(** An error of a schema keyword, not of the parse check. *)
Definition schema_keyword (e : Ajv.ErrorObject) : Prop :=
  Ajv.keyword e <> "parse".

(** The payload matches an author schema. *)
Definition matches (opts : Ajv.Options) (d : Js.value) (s : Ajv.SchemaObject)
  : bool :=
  Ajv.is_nil (fst (Ajv.evaluate opts s d)).

(** How many of the schemas the payload matches. *)
Definition matching (opts : Ajv.Options) (schemas : list Ajv.SchemaObject)
    (d : Js.value) : nat :=
  length (List.filter (matches opts d) schemas).

(** What a compiled validator is, apart from the errors of its last call. *)
Definition compiled (v : Ajv.ValidateFunction) : Ajv.Options * Ajv.Schema :=
  (Ajv.vf_options v, Ajv.vf_schema v).

(** The operation was not resolved, or has no operationId. *)
Definition unresolved (operation : option Operation) : Prop :=
  match operation with
  | Some operation => Js.truthy_string (operationId operation) = false
  | None => True
  end.

(** A location the router left out or returned empty. *)
Definition emptyOrAbsent (o : option Js.object) : Prop :=
  o = None \/ o = Some [].

(** *** Notions used in the further properties *)

Definition location_eqb (l1 l2 : ParameterLocation) : bool :=
  match l1, l2 with
  | InPath, InPath | InQuery, InQuery
  | InHeader, InHeader | InCookie, InCookie => true
  | _, _ => false
  end.



(** The properties and the required names a location ends up with. *)
Definition locationProperties (ps : list ParameterObject) (l : ParameterLocation)
  : list (string * option Ajv.SchemaObject) :=
  fold_left (fun acc p =>
               if location_eqb (param_in p) l
               then Js.set (param_name p) (param_schema p) acc
               else acc) ps [].

Definition locationRequired (ps : list ParameterObject) (l : ParameterLocation)
  : list string :=
  map param_name
      (List.filter (fun p => location_eqb (param_in p) l && param_required p) ps).

Definition requiredLocations (ps : list ParameterObject) : list string :=
  fold_left (fun acc p =>
               if param_required p
               then Js.uniq (acc ++ [location_name (param_in p)])%list
               else acc) ps [].

Definition locationSchemaOf (ps : list ParameterObject) (l : ParameterLocation)
  : Ajv.LocationSchema :=
  {| Ajv.loc_additionalProperties :=
       match l with InPath | InQuery => false | InHeader | InCookie => true end;
     Ajv.loc_properties := locationProperties ps l;
     Ajv.loc_required := locationRequired ps l |}.

(** Two instances that differ at most in the [errors] properties of their
    validators. *)
Definition sameCompiled (self1 self2 : OpenAPIValidator) : Prop :=
  definition self1 = definition self2
  /\ router self1 = router self2
  /\ ajvOpts self1 = ajvOpts self2
  /\ map compiled <$> requestValidators self1
     = map compiled <$> requestValidators self2
  /\ compiled <$> responseValidators self1
     = compiled <$> responseValidators self2.

(** The error carries the keyword of the JSON check on the body. *)
Definition parse_keyword (e : Ajv.ErrorObject) : bool :=
  String.eqb (Ajv.keyword e) "parse".






(** The value the normalisation of the query leaves for a value. *)
Definition wrapped (operation : Operation) (name : string) (value : Js.value)
  : Js.value :=
  match value with
  | Js.Str _ =>
      if declaredAsArray operation name then Js.Array [value] else value
  | _ => value
  end.


End Model.

(* ===================================================================== *)
(** ** A concrete instance *)
(* ===================================================================== *)

(** A dialect with three schemas, a router over a list of operations, and
    the operations and requests the statements below are run on. *)
Module Example.

(** [{}], [{ type: 'object' }] and [{ type: 'array' }]. *)
Inductive schema : Type := AnyValue | ObjectType | ArrayType.

Definition type_error (t : string) : Ajv.ErrorObject :=
  {| Ajv.keyword := "type"; Ajv.dataPath := ""; Ajv.schemaPath := "/type";
     Ajv.params := Js.Object [("type", Js.Str t)];
     Ajv.message := "should be " ++ t |}.

(** Keyword [type]; a scalar becomes a one-element array only under
    [coerceTypes: 'array']. *)
Definition evaluate (opts : Ajv.Options) (s : schema) (d : Js.value)
  : list Ajv.ErrorObject * Js.value :=
  match s, d with
  | AnyValue, _ => ([], d)
  | ObjectType, Js.Object _ => ([], d)
  | ObjectType, _ => ([type_error "object"], d)
  | ArrayType, Js.Array _ => ([], d)
  | ArrayType, (Js.Null | Js.Bool _ | Js.Number _ | Js.Str _) =>
      match Ajv.coerceTypes opts with
      | Ajv.CoerceArray => ([], Js.Array [d])
      | _ => ([type_error "array"], d)
      end
  | ArrayType, _ => ([type_error "array"], d)
  end.

Definition dialect : Ajv.SchemaDialect :=
  {| Ajv.SchemaObject := schema;
     Ajv.schema_type := fun s =>
       match s with
       | AnyValue => None
       | ObjectType => Some "object"
       | ArrayType => Some "array"
       end;
     Ajv.schema_valid := fun _ => true;
     Ajv.schema_has_rules := fun s =>
       match s with AnyValue => false | _ => true end;
     Ajv.evaluate := evaluate;
     Ajv.evaluate_no_rules :=
       ltac:(intros o [] d; simpl; intros; congruence);
     Ajv.evaluate_no_coercion :=
       ltac:(intros o [] [] Hc; simpl; try rewrite Hc; reflexivity);
     Ajv.evaluate_keyword :=
       ltac:(intros o s d e; destruct s, d; simpl;
             try destruct (Ajv.coerceTypes o); simpl;
             intros Hin; repeat destruct Hin as [<- | Hin];
             try contradiction; discriminate) |}.

#[export] Existing Instance dialect.

(** [JSON.parse] on the texts the requests below carry. *)
Definition parse_text (text : string) : Js.parsed :=
  if String.eqb text "{}" then Js.Parsed (Js.Object [])
  else if String.eqb text "[]" then Js.Parsed (Js.Array [])
  else Js.SyntaxError "Unexpected end of JSON input".

Definition same_id (id : string) (operation : Operation) : bool :=
  match operationId operation with
  | Some id' => String.eqb id id'
  | None => false
  end.

(** The segments of a path, split at ['/']. *)
Fixpoint segments (s : string) : list string :=
  match s with
  | EmptyString => [EmptyString]
  | String c s' =>
      if Ascii.eqb c "/" then EmptyString :: segments s'
      else match segments s' with
           | segment :: rest => String c segment :: rest
           | [] => [String c EmptyString]
           end
  end.

(** The name in a template segment [{name}]. *)
Fixpoint closing (s : string) : option string :=
  match s with
  | EmptyString => None
  | String c EmptyString =>
      if Ascii.eqb c "}" then Some EmptyString else None
  | String c s' => option_map (String c) (closing s')
  end.

Definition placeholder (segment : string) : option string :=
  match segment with
  | String c s' => if Ascii.eqb c "{" then closing s' else None
  | EmptyString => None
  end.

(** The path parameters of a path that fits a template, segment by
    segment: a placeholder takes a segment that is not empty. *)
Fixpoint bindPath (template path : list string) : option Js.object :=
  match template, path with
  | [], [] => Some []
  | t :: template', p :: path' =>
      match placeholder t with
      | Some name =>
          if String.eqb p "" then None
          else option_map (cons (name, Js.Str p)) (bindPath template' path')
      | None => if String.eqb t p then bindPath template' path' else None
      end
  | _, _ => None
  end.

Definition pathParameters (template path : string) : option Js.object :=
  bindPath (segments template) (segments path).

(** Modelled from the spec: the router of src/router.ts, as far as sections
    4.4 and 6 describe it - it lists the operations, matches a request to
    one of them, finds one by operationId and parses a request against a
    path template.  A request matches the first operation with its method
    whose path template its path fits; the path parameters are the
    segments in the place of the template's placeholders; a request's query
    object and headers are passed on, a textual body is parsed when it is
    JSON.  The requests below carry no headers, no cookies and no query
    string, so that header names need no normalisation and the cookies and
    a textual query are empty. *)
Definition listRouter (operations : list Operation) : OpenAPIRouter :=
  {| getOperations := operations;
     matchOperation := fun req =>
       List.find (fun operation =>
                    match pathParameters (path operation) (req_path req) with
                    | Some _ => String.eqb (method operation) (req_method req)
                    | None => false
                    end)
                 operations;
     getOperation := fun id => List.find (same_id id) operations;
     parseRequest := fun req template =>
       {| params :=
            match template with
            | Some template =>
                match pathParameters template (req_path req) with
                | Some o => Some o
                | None => Some []
                end
            | None => Some []
            end;
          query := match req_query req with
                   | Some (Js.Object o) => Some o
                   | _ => Some []
                   end;
          headers := match req_headers req with
                     | Some h => Some h
                     | None => Some []
                     end;
          cookies := Some [];
          parsed_requestBody :=
            match body req with
            | Js.Str text =>
                match parse_text text with
                | Js.Parsed v => v
                | Js.SyntaxError _ => body req
                end
            | b => b
            end |} |}.

Definition environment : Environment :=
  {| Document := list Operation;
     new_OpenAPIRouter := listRouter;
     JSON_parse := parse_text |}.

#[export] Existing Instance environment.

Definition json (s : schema) : list (string * MediaTypeObject) :=
  [("application/json", {| media_schema := Some s |})].

(** GET /ping: no parameters, no request body, no responses. *)
Definition ping : Operation :=
  {| operationId := Some "ping"; path := "/ping"; method := "get";
     parameters := []; requestBody := None; responses := None |}.

(** GET /pets: an optional array-typed query parameter [tags]. *)
Definition listPets : Operation :=
  {| operationId := Some "listPets"; path := "/pets"; method := "get";
     parameters :=
       [{| param_name := "tags"; param_in := InQuery;
           param_required := false; param_schema := Some ArrayType |}];
     requestBody := None;
     responses :=
       Some [("200", {| response_content := Some (json ArrayType) |})] |}.

(** POST /pets: a JSON-only request body, object responses for two
    statuses. *)
Definition createPet : Operation :=
  {| operationId := Some "createPet"; path := "/pets"; method := "post";
     parameters := [];
     requestBody := Some {| body_content := json ObjectType |};
     responses :=
       Some [("201", {| response_content := Some (json ObjectType) |});
             ("400", {| response_content := Some (json ObjectType) |})] |}.

(** An operation without operationId. *)
Definition anonymous : Operation :=
  {| operationId := None; path := "/anonymous"; method := "get";
     parameters := []; requestBody := None; responses := None |}.

Definition api : list Operation := [ping; listPets; createPet].

Definition options : ConstructorOptions :=
  {| opts_definition := api; opts_ajvOpts := None |}.

Definition request (m p : string) (q : option Js.value) (b : Js.value)
  : Request :=
  {| req_method := m; req_path := p; req_headers := None;
     req_query := q; body := b |}.

(** The instance [new OpenAPIValidator({ definition: api })]. *)
Definition validator : OpenAPIValidator :=
  match constructor options with
  | Returns self => self
  | Throws _ =>
      {| definition := api; ajvOpts := Ajv.default_options;
         requestValidators := ∅; responseValidators := ∅;
         router := listRouter api |}
  end.

(** GET /ping *)
Definition getPing : Request := request "get" "/ping" None Js.Undefined.

(** GET /ping?foo=bar *)
Definition getPingFoo : Request :=
  request "get" "/ping" (Some (Js.Object [("foo", Js.Str "bar")])) Js.Undefined.



(** POST /pets without body, with a truncated body, with an array. *)
Definition postNothing : Request := request "post" "/pets" None Js.Undefined.
Definition postTruncated : Request := request "post" "/pets" None (Js.Str "{").
Definition postArray : Request := request "post" "/pets" None (Js.Str "[]").

(** The object the example router leads to when the body is not included. *)
Definition bareParameters : Js.object :=
  [("path", Js.Object []); ("query", Js.Object []);
   ("header", Js.Object []); ("cookie", Js.Object [])].

Definition requiredRequestBody : Ajv.ErrorObject :=
  {| Ajv.keyword := "required";
     Ajv.dataPath := "";
     Ajv.schemaPath := "#/required";
     Ajv.params := Js.Object [("missingProperty", Js.Str "requestBody")];
     Ajv.message := "should have required property 'requestBody'" |}.


(** GET /pets/{id}: a required path parameter. *)
Definition petId : ParameterObject :=
  {| param_name := "id"; param_in := InPath;
     param_required := true; param_schema := Some AnyValue |}.

Definition showPet : Operation :=
  {| operationId := Some "showPet"; path := "/pets/{id}"; method := "get";
     parameters := [petId]; requestBody := None; responses := None |}.

(** Two operations under one operationId; only the first declares a JSON
    response schema. *)
Definition dupFirst : Operation :=
  {| operationId := Some "dup"; path := "/first"; method := "get";
     parameters := []; requestBody := None;
     responses :=
       Some [("200", {| response_content := Some (json ArrayType) |})] |}.

Definition dupLast : Operation :=
  {| operationId := Some "dup"; path := "/last"; method := "post";
     parameters := [];
     requestBody := Some {| body_content := json ObjectType |};
     responses := None |}.

(** An operation that is in no listing. *)
Definition ghost : Operation :=
  {| operationId := Some "ghost"; path := "/ghost"; method := "get";
     parameters := []; requestBody := None; responses := None |}.

(** Another one, named like a member of [Object.prototype]. *)
Definition ghostValueOf : Operation :=
  {| operationId := Some "valueOf"; path := "/ghost"; method := "get";
     parameters := []; requestBody := None; responses := None |}.

(** GET /find: a required query parameter. *)
Definition status : ParameterObject :=
  {| param_name := "status"; param_in := InQuery;
     param_required := true; param_schema := Some AnyValue |}.

Definition findPets : Operation :=
  {| operationId := Some "findPets"; path := "/find"; method := "get";
     parameters := [status]; requestBody := None; responses := None |}.




Definition api2 : list Operation := [ping; showPet; findPets].

Definition strictOptions : Ajv.Options :=
  {| Ajv.coerceTypes := Ajv.CoerceArray; Ajv.allErrors := true |}.

Definition options2 : ConstructorOptions :=
  {| opts_definition := api2; opts_ajvOpts := Some strictOptions |}.

Definition instance (opts : ConstructorOptions) : OpenAPIValidator :=
  match constructor opts with
  | Returns self => self
  | Throws _ =>
      {| definition := opts_definition opts;
         ajvOpts := Ajv.default_options;
         requestValidators := ∅; responseValidators := ∅;
         router := listRouter (opts_definition opts) |}
  end.

(** The instance [new OpenAPIValidator({ definition: api2, ajvOpts })]. *)
Definition validator2 : OpenAPIValidator := instance options2.

(** A definition in which two operations share an operationId. *)
Definition sharedApi : list Operation := [showPet; dupFirst; dupLast].

Definition sharedOptions : ConstructorOptions :=
  {| opts_definition := sharedApi; opts_ajvOpts := Some strictOptions |}.

Definition sharedValidator : OpenAPIValidator := instance sharedOptions.





(** GET /find, without query. *)
Definition getFind : Request := request "get" "/find" None Js.Undefined.

(** GET /pets/7 *)
Definition getPet7 : Request := request "get" "/pets/7" None Js.Undefined.

(** GET /pets?foo=bar *)
Definition getPetsFoo : Request :=
  request "get" "/pets" (Some (Js.Object [("foo", Js.Str "bar")])) Js.Undefined.

(** GET /ping with an object as body. *)
Definition getPingBody : Request :=
  request "get" "/ping" None (Js.Object [("a", Js.Null)]).



(** GET /own *)
Definition getOwn : Request := request "get" "/own" None Js.Undefined.

End Example.

(* ===================================================================== *)
(** ** Properties *)
(* ===================================================================== *)

Section Properties.
Context {D : Ajv.SchemaDialect} {E : Environment}.

(** *** The result of a call *)

Lemma is_nil_true {A} (l : list A) : Ajv.is_nil l = true <-> l = [].
Proof. destruct l; simpl; split; congruence. Qed.

Lemma finish_nil : finish [] = {| valid := true; errors := None |}.
Proof. reflexivity. Qed.

Lemma finish_cons e es :
  finish (e :: es) = {| valid := false; errors := Some (e :: es) |}.
Proof. reflexivity. Qed.

(** A read finds the value assigned under the key, if there is one. *)
Lemma read_own {V} (o : gmap string V) k v :
  Js.read o k = Js.Own v <-> o !! k = Some v.
Proof.
  unfold Js.read. destruct (o !! k) as [v'|].
  - split; congruence.
  - destruct (Js.inherited k); split; discriminate.
Qed.

Lemma read_assigned {V} (o : gmap string V) k v :
  o !! k = Some v -> Js.read o k = Js.Own v.
Proof. apply read_own. Qed.

Lemma read_unassigned {V} (o : gmap string V) k :
  o !! k = None ->
  Js.read o k = match Js.inherited k with
                | Some f => Js.Inherited f
                | None => Js.Missing
                end.
Proof. unfold Js.read. intros ->. reflexivity. Qed.

Lemma finish_invariant es :
  let r := finish es in
  (valid r = false <-> exists e es', errors r = Some (e :: es'))
  /\ (valid r = true <-> errors r = None)
  /\ errors r <> Some [].
Proof.
  destruct es as [|e es]; simpl; repeat split; try congruence.
  - intros (e & es' & H). discriminate.
  - intros _. eauto.
Qed.

(** Every [ValidationResult] either method returns comes out of [finish]. *)
Lemma validateRequest_returns self req operation r self' :
  validateRequest self req operation = (Returns r, self') ->
  exists es, r = finish es.
Proof.
  unfold validateRequest.
  destruct (resolveRequestOperation self req operation) as [op|]; [|congruence].
  destruct (negb (Js.truthy_string (operationId op))); [congruence|].
  destruct (includeRequestBody _ _) as [parameters|]; [|congruence].
  destruct (getRequestValidatorsForOperation self _) as [vs|f|];
    [|congruence..].
  destruct (runValidators vs (Js.Object parameters)) as [vs' es].
  intros [= <- _]. eauto.
Qed.

Lemma validateResponse_returns self res operation r self' :
  validateResponse self res operation = (Returns r, self') ->
  exists es, r = finish es.
Proof.
  unfold validateResponse.
  destruct (resolveResponseOperation self operation) as [op|]; [|congruence].
  destruct (negb (Js.truthy_string (operationId op))); [congruence|].
  destruct (getResponseValidatorForOperation self _) as [validate|f|].
  - destruct (Ajv.call validate res) as [validate' d]. intros [= <- _]. eauto.
  - destruct (Js.call_throws f res); [congruence|]. intros [= <- _]. eauto.
  - intros [= <- _]. eauto.
Qed.

(** C3. Whenever [validateRequest] or [validateResponse] returns a
    [ValidationResult]: [valid] is false exactly when [errors] is a
    non-empty list, [valid] is true exactly when [errors] is absent, and
    [errors] is never the empty list. *)
Theorem result_valid_iff_no_errors self req res operation r self' :
  validateRequest self req operation = (Returns r, self')
  \/ validateResponse self res operation = (Returns r, self') ->
  (valid r = false <-> exists e es, errors r = Some (e :: es))
  /\ (valid r = true <-> errors r = None)
  /\ errors r <> Some [].
Proof.
  intros [H | H].
  - apply validateRequest_returns in H as [es ->]. apply finish_invariant.
  - apply validateResponse_returns in H as [es ->]. apply finish_invariant.
Qed.

(** *** Unknown operations *)

(** C7. When the operation is not resolved (no match, unknown operationId),
    or the resolved operation has no operationId, [validateRequest] and
    [validateResponse] throw [Error('Unknown operation')]: no
    [ValidationResult] is returned, and the instance is as it was. *)
Theorem unknown_operation_throws self req res operation :
  (unresolved (resolveRequestOperation self req operation) ->
   validateRequest self req operation = (Throws (Error "Unknown operation"), self))
  /\ (unresolved (resolveResponseOperation self operation) ->
      validateResponse self res operation
      = (Throws (Error "Unknown operation"), self)).
Proof.
  split; intros H.
  - unfold validateRequest.
    destruct (resolveRequestOperation self req operation) as [op|]; [|reflexivity].
    simpl in H. rewrite H. reflexivity.
  - unfold validateResponse.
    destruct (resolveResponseOperation self operation) as [op|]; [|reflexivity].
    simpl in H. rewrite H. reflexivity.
Qed.

(** *** What a call leaves in place *)

Lemma call_compiled validate d :
  compiled (fst (Ajv.call validate d)) = compiled validate.
Proof.
  unfold Ajv.call.
  destruct (Ajv.eval_schema _ _ d) as [es d']. reflexivity.
Qed.

Lemma runValidators_compiled validators d :
  map compiled (fst (runValidators validators d)) = map compiled validators.
Proof.
  revert d. induction validators as [|validate rest IH]; intros d; simpl.
  - reflexivity.
  - pose proof (call_compiled validate d) as Hc.
    destruct (Ajv.call validate d) as [validate' d']. simpl in Hc.
    specialize (IH d').
    destruct (runValidators rest d') as [rest' es]. simpl in *.
    congruence.
Qed.

(** Storing back under its key a value with the same image changes neither
    the images nor the keys. *)
Lemma fmap_insert_same {A B} (f : A -> B) (m : gmap string A) k x x' :
  m !! k = Some x -> f x' = f x ->
  f <$> <[k := x']> m = f <$> m.
Proof.
  intros Hk Hf. rewrite fmap_insert. apply insert_id.
  rewrite lookup_fmap, Hk. simpl. congruence.
Qed.

Lemma dom_insert_same {A} (m : gmap string A) k x x' :
  m !! k = Some x -> dom (<[k := x']> m) = dom m.
Proof. intros Hk. apply dom_insert_lookup_L. eauto. Qed.

(** C10. Neither [validateRequest] nor [validateResponse] changes the
    definition, the router, the options, the keys of the two registries or
    the compiled validators stored under them: a call only replaces the
    [errors] property of the validators it runs. *)
Theorem calls_preserve_registry self req res operation :
  let after_request := snd (validateRequest self req operation) in
  let after_response := snd (validateResponse self res operation) in
  (definition after_request = definition self
   /\ router after_request = router self
   /\ ajvOpts after_request = ajvOpts self
   /\ dom (requestValidators after_request) = dom (requestValidators self)
   /\ map compiled <$> requestValidators after_request
      = map compiled <$> requestValidators self
   /\ responseValidators after_request = responseValidators self)
  /\ (definition after_response = definition self
      /\ router after_response = router self
      /\ ajvOpts after_response = ajvOpts self
      /\ requestValidators after_response = requestValidators self
      /\ dom (responseValidators after_response) = dom (responseValidators self)
      /\ compiled <$> responseValidators after_response
         = compiled <$> responseValidators self).
Proof.
  simpl. split.
  - unfold validateRequest.
    destruct (resolveRequestOperation self req operation) as [op|];
      [|simpl; tauto].
    destruct (negb (Js.truthy_string (operationId op))); [simpl; tauto|].
    destruct (includeRequestBody _ _) as [parameters|]; [|simpl; tauto].
    unfold getRequestValidatorsForOperation, Js.read.
    destruct (requestValidators self !! _) as [vs|] eqn:Hvs;
      [|destruct (Js.inherited _); simpl; tauto].
    pose proof (runValidators_compiled vs (Js.Object parameters)) as Hc.
    destruct (runValidators vs (Js.Object parameters)) as [vs' es].
    simpl in *. repeat split.
    + eapply dom_insert_same; eassumption.
    + eapply fmap_insert_same; eassumption.
  - unfold validateResponse.
    destruct (resolveResponseOperation self operation) as [op|];
      [|simpl; tauto].
    destruct (negb (Js.truthy_string (operationId op))); [simpl; tauto|].
    unfold getResponseValidatorForOperation, Js.read.
    destruct (responseValidators self !! _) as [validate|] eqn:Hv;
      [|destruct (Js.inherited _) as [f|];
        [destruct (Js.call_throws f res)|]; simpl; tauto].
    pose proof (call_compiled validate res) as Hc.
    destruct (Ajv.call validate res) as [validate' d]. simpl in *.
    repeat split.
    + eapply dom_insert_same; eassumption.
    + eapply fmap_insert_same; eassumption.
Qed.

(** *** The registry after construction *)

Section Registration.
Context {A V : Type} (key : A -> string) (val : A -> option V).

Lemma register_other m a k :
  k <> key a -> register key val m a !! k = m !! k.
Proof.
  intros Hk. unfold register. destruct (val a); [|reflexivity].
  apply lookup_insert_ne. congruence.
Qed.

Lemma registered_elsewhere l m k :
  ~ In k (map key l) ->
  fold_left (register key val) l m !! k = m !! k.
Proof.
  revert m. induction l as [|a l IH]; intros m Hk; simpl in *.
  - reflexivity.
  - rewrite IH by tauto. apply register_other. intros ->. tauto.
Qed.

(** With distinct keys, an element's entry is its own. *)
Lemma registered_own l m a :
  List.NoDup (map key l) -> In a l -> m !! key a = None ->
  fold_left (register key val) l m !! key a = val a.
Proof.
  revert m. induction l as [|a0 l IH]; intros m Hnd Hin Hm; simpl in *.
  - contradiction.
  - inversion Hnd as [|? ? Hnot Hnd']; subst.
    destruct Hin as [-> | Hin].
    + rewrite registered_elsewhere by assumption.
      unfold register. destruct (val a) as [v|].
      * apply lookup_insert_eq.
      * assumption.
    + apply IH; try assumption.
      rewrite register_other; [assumption|].
      intros Heq. apply Hnot. rewrite <- Heq. apply in_map. assumption.
Qed.

(** In any case an entry is the value of some element with that key. *)
Lemma registered_some l m k v :
  fold_left (register key val) l m !! k = Some v ->
  m !! k = Some v \/ exists a, In a l /\ key a = k /\ val a = Some v.
Proof.
  revert m. induction l as [|a0 l IH]; intros m H; simpl in *.
  - tauto.
  - apply IH in H as [H | (a & Ha & Hk & Hv)].
    + unfold register in H. destruct (val a0) as [v0|] eqn:Hv0; [|tauto].
      destruct (decide (key a0 = k)) as [Heq | Hne].
      * subst k. rewrite lookup_insert_eq in H. injection H as ->.
        right. exists a0. tauto.
      * rewrite lookup_insert_ne in H by assumption. tauto.
    + right. exists a. tauto.
Qed.

(** Later registrations keep a key present. *)
Lemma registered_stays l m k :
  is_Some (m !! k) -> is_Some (fold_left (register key val) l m !! k).
Proof.
  revert m. induction l as [|a l IH]; intros m H; simpl.
  - assumption.
  - apply IH. unfold register. destruct (val a) as [v|]; [|assumption].
    destruct (decide (key a = k)) as [<- | Hne].
    + rewrite lookup_insert_eq. eauto.
    + rewrite lookup_insert_ne by assumption. assumption.
Qed.

(** A registered element leaves an entry under its key. *)
Lemma registered_present l m a :
  In a l -> is_Some (val a) ->
  is_Some (fold_left (register key val) l m !! key a).
Proof.
  revert m. induction l as [|a0 l IH]; intros m Hin Hv; simpl in *.
  - contradiction.
  - destruct Hin as [-> | Hin]; [|eauto].
    apply registered_stays. unfold register. destruct Hv as [v ->].
    rewrite lookup_insert_eq. eauto.
Qed.

End Registration.

Lemma compile_fresh opts s v :
  Ajv.compile opts s = Some v -> v = fresh opts s.
Proof.
  unfold Ajv.compile. destruct (Ajv.valid_schema s); [|discriminate].
  intros [= <-]. reflexivity.
Qed.

Lemma bodyValidators_returns opts op vs :
  bodyValidators opts op = Returns vs -> vs = bodyValidatorOf opts op.
Proof.
  unfold bodyValidators, bodyValidatorOf.
  destruct (requestBody op) as [rb|]; [|congruence].
  destruct (requestBodySchema rb) as [s|]; [|congruence].
  destruct (Ajv.compile opts (Ajv.SObject s)) as [v|] eqn:Hv; simpl; [|discriminate].
  apply compile_fresh in Hv as ->. congruence.
Qed.

Lemma build_request_returns self op self' :
  buildRequestValidatorsForOperation self op = Returns self' ->
  self' = set_requestValidators self
            (register registryKey (requestEntry (ajvOpts self))
                      (requestValidators self) op).
Proof.
  unfold buildRequestValidatorsForOperation.
  destruct (bodyValidators (ajvOpts self) op) as [vs|] eqn:Hb; simpl; [|discriminate].
  apply bodyValidators_returns in Hb as ->.
  destruct (Ajv.compile _ _) as [pv|] eqn:Hp; simpl; [|discriminate].
  apply compile_fresh in Hp as ->. intros [= <-]. reflexivity.
Qed.

Lemma build_response_returns self op self' :
  buildResponseValidatorForOperation self op = Returns self' ->
  self' = set_responseValidators self
            (register registryKey (responseValidatorOf (ajvOpts self))
                      (responseValidators self) op).
Proof.
  unfold buildResponseValidatorForOperation, register, responseValidatorOf,
    declaredResponseSchemas.
  destruct self as [def o rq rs rt]; simpl.
  destruct (responses op) as [rsp|]; [|intros [= <-]; reflexivity].
  destruct (responseSchemasOf rsp) as [|s ss]; simpl;
    [intros [= <-]; reflexivity|].
  destruct (Ajv.compile o _) as [v|] eqn:Hv; simpl; [|discriminate].
  apply compile_fresh in Hv as ->. intros [= <-]. reflexivity.
Qed.

Lemma for_each_request ops self self' :
  for_each buildRequestValidatorsForOperation ops self = Returns self' ->
  self' = set_requestValidators self
            (fold_left (register registryKey (requestEntry (ajvOpts self)))
                       ops (requestValidators self)).
Proof.
  revert self. induction ops as [|op ops IH]; intros self; simpl.
  - intros [= <-]. destruct self; reflexivity.
  - destruct (buildRequestValidatorsForOperation self op) as [self1|] eqn:H1;
      simpl; [|discriminate].
    apply build_request_returns in H1 as ->.
    intros H. apply IH in H as ->. reflexivity.
Qed.

Lemma for_each_response ops self self' :
  for_each buildResponseValidatorForOperation ops self = Returns self' ->
  self' = set_responseValidators self
            (fold_left (register registryKey (responseValidatorOf (ajvOpts self)))
                       ops (responseValidators self)).
Proof.
  revert self. induction ops as [|op ops IH]; intros self; simpl.
  - intros [= <-]. destruct self; reflexivity.
  - destruct (buildResponseValidatorForOperation self op) as [self1|] eqn:H1;
      simpl; [|discriminate].
    apply build_response_returns in H1 as ->.
    intros H. apply IH in H as ->. reflexivity.
Qed.

(** The instance a successful construction returns. *)
Lemma constructor_returns opts self :
  constructor opts = Returns self ->
  let operations := getOperations (router self) in
  definition self = opts_definition opts
  /\ router self = new_OpenAPIRouter (opts_definition opts)
  /\ requestValidators self
     = fold_left (register registryKey (requestEntry (ajvOpts self)))
                 operations ∅
  /\ responseValidators self
     = fold_left (register registryKey (responseValidatorOf (ajvOpts self)))
                 operations ∅.
Proof.
  unfold constructor.
  destruct (for_each buildRequestValidatorsForOperation _ _) as [self1|] eqn:H1;
    simpl; [|discriminate].
  apply for_each_request in H1 as ->.
  intros H. apply for_each_response in H as ->. simpl. tauto.
Qed.

Lemma constructed_request_entry opts self op :
  constructor opts = Returns self ->
  uniqueOperationIds (getOperations (router self)) ->
  In op (getOperations (router self)) ->
  requestValidators self !! registryKey op
  = Some (requestValidatorsOf (ajvOpts self) op).
Proof.
  intros Hc Hu Hin. apply constructor_returns in Hc as (_ & _ & -> & _).
  apply (registered_own registryKey (requestEntry (ajvOpts self)));
    [exact Hu | exact Hin | apply lookup_empty].
Qed.

Lemma constructed_response_entry opts self op :
  constructor opts = Returns self ->
  uniqueOperationIds (getOperations (router self)) ->
  In op (getOperations (router self)) ->
  responseValidators self !! registryKey op
  = responseValidatorOf (ajvOpts self) op.
Proof.
  intros Hc Hu Hin. apply constructor_returns in Hc as (_ & _ & _ & ->).
  apply (registered_own registryKey (responseValidatorOf (ajvOpts self)));
    [exact Hu | exact Hin | apply lookup_empty].
Qed.

Lemma on_target_keys target f props :
  Js.keys (on_target target f props) = Js.keys props.
Proof.
  unfold Js.keys, on_target. rewrite map_map. apply map_ext.
  intros [k p]. destruct (String.eqb k target); reflexivity.
Qed.

Lemma paramsSchema_keys ps s :
  Js.keys (Ajv.properties (fold_left addParameter ps s))
  = Js.keys (Ajv.properties s).
Proof.
  revert s. induction ps as [|p ps IH]; intros s; simpl.
  - reflexivity.
  - rewrite IH. simpl. apply on_target_keys.
Qed.

Lemma paramsValidator_is_params opts op :
  isParamsValidator (paramsValidatorOf opts op) = true
  /\ isBodyValidator (paramsValidatorOf opts op) = false.
Proof.
  unfold isParamsValidator, isBodyValidator, paramsValidatorOf,
    paramsSchemaOf. simpl.
  pose proof (paramsSchema_keys (parameters op) paramsSkeleton) as Hk.
  simpl in Hk. rewrite Hk. split; [reflexivity|].
  revert Hk.
  destruct (Ajv.properties _) as [|[k p] [|q rest]]; try reflexivity.
  - discriminate.
  - intros _. destruct p; reflexivity.
Qed.

Lemma bodyValidator_is_body opts op :
  bodyValidatorOf opts op = []
  \/ exists v, bodyValidatorOf opts op = [v]
               /\ isBodyValidator v = true /\ isParamsValidator v = false.
Proof.
  unfold bodyValidatorOf.
  destruct (requestBody op) as [rb|]; [|tauto].
  unfold requestBodySchema.
  destruct (Js.lookup _ _) as [media|]; [|tauto].
  destruct (media_schema media) as [schema|]; [|tauto].
  right. eexists. split; [reflexivity|].
  unfold isBodyValidator, isParamsValidator. simpl.
  split; [reflexivity|]. destruct (Ajv.coerceTypes opts); reflexivity.
Qed.

Lemma responseValidator_is_response opts op v :
  responseValidatorOf opts op = Some v -> isResponseValidator v = true.
Proof.
  unfold responseValidatorOf.
  destruct (declaredResponseSchemas op); [discriminate|].
  intros [= <-]. reflexivity.
Qed.

(** C8. After construction, the registry holds for every operation of the
    router's listing, under its operationId, exactly one parameter validator
    (also when the operation declares no parameter), preceded by at most one
    body validator; and at most one response validator. *)
Theorem registry_entry_shape opts self op :
  constructor opts = Returns self ->
  In op (getOperations (router self)) ->
  (exists paramsValidator,
      isParamsValidator paramsValidator = true
      /\ isBodyValidator paramsValidator = false
      /\ (getRequestValidatorsForOperation self (registryKey op)
          = Js.Own [paramsValidator]
          \/ exists bodyValidator,
               isBodyValidator bodyValidator = true
               /\ isParamsValidator bodyValidator = false
               /\ getRequestValidatorsForOperation self (registryKey op)
                  = Js.Own [bodyValidator; paramsValidator]))
  /\ (responseValidators self !! registryKey op = None
      \/ exists validator,
           isResponseValidator validator = true
           /\ getResponseValidatorForOperation self (registryKey op)
              = Js.Own validator).
Proof.
  intros Hc Hin.
  unfold getRequestValidatorsForOperation, getResponseValidatorForOperation.
  apply constructor_returns in Hc as (_ & _ & Hrq & Hrs).
  rewrite Hrq, Hrs. clear Hrq Hrs. split.
  - destruct (registered_present registryKey (requestEntry (ajvOpts self))
                (getOperations (router self)) ∅ op Hin) as [vs Hvs];
      [unfold requestEntry; eauto|].
    rewrite (read_assigned _ _ _ Hvs).
    apply registered_some in Hvs as [Hvs | (op' & _ & _ & Hvs)];
      [rewrite lookup_empty in Hvs; discriminate|].
    injection Hvs as <-. unfold requestValidatorsOf.
    destruct (paramsValidator_is_params (ajvOpts self) op') as [Hp Hnb].
    exists (paramsValidatorOf (ajvOpts self) op').
    repeat split; try assumption.
    destruct (bodyValidator_is_body (ajvOpts self) op')
      as [-> | (bv & -> & Hb & Hnp)]; simpl; [tauto|].
    right. exists bv. tauto.
  - destruct (fold_left _ _ _ !! registryKey op) as [v|] eqn:Hv; [|tauto].
    right. exists v. split; [|apply read_assigned; exact Hv].
    apply registered_some in Hv as [Hv | (op' & _ & _ & Hv)];
      [rewrite lookup_empty in Hv; discriminate|].
    eapply responseValidator_is_response; eassumption.
Qed.

(** *** Response validation *)

Lemma errors_of_call validate d :
  errors_of (fst (Ajv.call validate d))
  = fst (Ajv.eval_schema (Ajv.vf_options validate) (Ajv.vf_schema validate) d).
Proof.
  unfold Ajv.call, errors_of.
  destruct (Ajv.eval_schema _ _ d) as [es d']. simpl.
  destruct es; reflexivity.
Qed.


Lemma validateResponse_registered self res operation op validate :
  resolveResponseOperation self operation = Some op ->
  Js.truthy_string (operationId op) = true ->
  getResponseValidatorForOperation self (registryKey op) = Js.Own validate ->
  fst (validateResponse self res operation)
  = Returns (finish (fst (Ajv.eval_schema (Ajv.vf_options validate)
                                          (Ajv.vf_schema validate) res))).
Proof.
  intros Hr Ht Hv. unfold validateResponse. rewrite Hr, Ht. simpl.
  unfold registryKey in Hv. rewrite Hv.
  pose proof (errors_of_call validate res) as He.
  destruct (Ajv.call validate res) as [validate' d]. simpl in *.
  rewrite He. reflexivity.
Qed.


Lemma eval_author_plain opts s dp sp d :
  Ajv.coerceTypes opts = Ajv.CoerceOff ->
  Ajv.eval_author opts s dp sp d
  = (map (Ajv.relocate dp sp) (fst (Ajv.evaluate opts s d)), d).
Proof.
  intros Hc. unfold Ajv.eval_author.
  pose proof (Ajv.evaluate_no_coercion opts s d Hc) as Hd.
  destruct (Ajv.evaluate opts s d) as [es d']. simpl in *. congruence.
Qed.

Lemma is_nil_map {A B} (f : A -> B) l : Ajv.is_nil (map f l) = Ajv.is_nil l.
Proof. destruct l; reflexivity. Qed.

(** Without coercion every branch of [oneOf] sees the payload itself, and
    the branches that pass are counted up to two. *)
Lemma eval_branches_plain opts dp sp d schemas :
  Ajv.coerceTypes opts = Ajv.CoerceOff ->
  forall i passing,
    let '(es, ps, d') := Ajv.eval_branches opts dp sp schemas i passing d in
    d' = d
    /\ length ps
       = Nat.min 2 (matching opts schemas d
                    + match passing with Some _ => 1 | None => 0 end).
Proof.
  intros Hc. induction schemas as [|s rest IH]; intros i passing.
  - destruct passing; cbn; auto.
  - cbn [Ajv.eval_branches].
    rewrite eval_author_plain by assumption. rewrite is_nil_map.
    assert (Hm : matching opts (s :: rest) d
                 = (if matches opts d s then 1 else 0) + matching opts rest d).
    { unfold matching. cbn [List.filter].
      destruct (matches opts d s); reflexivity. }
    rewrite Hm. fold (matches opts d s).
    destruct (matches opts d s).
    + destruct passing as [p|].
      * split; [reflexivity|]. cbn [length]. lia.
      * specialize (IH (S i) (Some i)).
        destruct (Ajv.eval_branches _ _ _ rest _ _ d) as [[es ps] d'].
        destruct IH as [-> ->]. split; [reflexivity|]. f_equal. lia.
    + specialize (IH (S i) passing).
      destruct (Ajv.eval_branches _ _ _ rest _ _ d) as [[es ps] d'].
      exact IH.
Qed.

Lemma eval_oneOf_plain opts schemas d :
  Ajv.coerceTypes opts = Ajv.CoerceOff ->
  fst (Ajv.eval_oneOf opts "" "#" schemas d) = []
  <-> matching opts schemas d = 1.
Proof.
  intros Hc. unfold Ajv.eval_oneOf.
  pose proof (eval_branches_plain opts "" "#" d schemas Hc 0 None) as H.
  destruct (Ajv.eval_branches _ _ _ schemas 0 None d) as [[es ps] d'].
  destruct H as [_ H]. rewrite Nat.add_0_r in H.
  destruct ps as [|p [|q ps]]; cbn [length fst] in *.
  - split; [intros He; destruct es; discriminate | intros Hm; exfalso; lia].
  - split; [lia | reflexivity].
  - split; [intros He; destruct es; discriminate | intros Hm; exfalso; lia].
Qed.

Lemma finish_valid es : valid (finish es) = true <-> es = [].
Proof. destruct es; simpl; split; congruence. Qed.

(** C1, as the code has it. For an operation of the listing with at least
    one JSON response schema, under options that do not coerce,
    [validateResponse] returns a result, and the result is valid if and
    only if the payload matches exactly one of the collected schemas. *)
Theorem response_valid_iff_exactly_one opts self op operation res :
  constructor opts = Returns self ->
  uniqueOperationIds (getOperations (router self)) ->
  In op (getOperations (router self)) ->
  Js.truthy_string (operationId op) = true ->
  declaredResponseSchemas op <> [] ->
  Ajv.coerceTypes (ajvOpts self) = Ajv.CoerceOff ->
  resolveResponseOperation self operation = Some op ->
  exists r,
    fst (validateResponse self res operation) = Returns r
    /\ (valid r = true
        <-> matching (ajvOpts self) (declaredResponseSchemas op) res = 1).
Proof.
  intros Hc Hu Hin Ht Hne Hco Hr.
  assert (Hv : getResponseValidatorForOperation self (registryKey op)
               = Js.Own (fresh (ajvOpts self)
                               (Ajv.SOneOf (declaredResponseSchemas op)))).
  { unfold getResponseValidatorForOperation. apply read_assigned.
    rewrite (constructed_response_entry opts) by assumption.
    unfold responseValidatorOf.
    destruct (declaredResponseSchemas op); [congruence | reflexivity]. }
  eexists. split.
  - eapply validateResponse_registered; eassumption.
  - simpl. rewrite finish_valid. apply eval_oneOf_plain. assumption.
Qed.

(** *** Query parameters declared as arrays *)

Lemma set_first {A} k (x v : A) pre post :
  ~ In k (Js.keys pre) ->
  Js.set k x (pre ++ (k, v) :: post) = (pre ++ (k, x) :: post)%list.
Proof.
  induction pre as [|[k' v'] pre IH]; simpl; intros Hk.
  - rewrite String.eqb_refl. reflexivity.
  - destruct (String.eqb_spec k k') as [-> | Hne]; [tauto|].
    rewrite IH by tauto. reflexivity.
Qed.


Lemma keys_app {A} (l1 l2 : list (string * A)) :
  Js.keys (l1 ++ l2) = (Js.keys l1 ++ Js.keys l2)%list.
Proof. apply map_app. Qed.

Lemma wrapValue_keys op l : Js.keys (map (wrapValue op) l) = Js.keys l.
Proof.
  unfold Js.keys. rewrite map_map. apply map_ext. intros [n v]. reflexivity.
Qed.

(** The loop, entry by entry: the entries already visited hold their
    wrapped values, the others are still to come. *)
Lemma wrap_loop op visited rest :
  List.NoDup (Js.keys (visited ++ rest)) ->
  fold_left
    (fun query '(name, value) =>
       match value with
       | Js.Str _ =>
           if declaredAsArray op name
           then option_map (Js.set name (Js.Array [value])) query
           else query
       | _ => query
       end)
    rest (Some (map (wrapValue op) visited ++ rest)%list)
  = Some (map (wrapValue op) (visited ++ rest)).
Proof.
  revert visited. induction rest as [|[n v] rest IH]; intros visited Hnd.
  - simpl. rewrite !app_nil_r. reflexivity.
  - assert (Hn : ~ In n (Js.keys (map (wrapValue op) visited))).
    { rewrite wrapValue_keys. rewrite keys_app in Hnd.
      apply NoDup_remove_2 in Hnd.
      intros Hin. apply Hnd. apply in_or_app. tauto. }
    assert (Hstep : forall x,
               (map (wrapValue op) visited ++ (n, x) :: rest)%list
               = (map (wrapValue op) visited ++ [(n, x)] ++ rest)%list)
      by reflexivity.
    replace (visited ++ (n, v) :: rest)%list
      with ((visited ++ [(n, v)]) ++ rest)%list in *
      by (rewrite <- app_assoc; reflexivity).
    specialize (IH (visited ++ [(n, v)])%list Hnd).
    rewrite <- IH. cbn [fold_left]. f_equal. rewrite map_app.
    rewrite <- app_assoc. cbn [map app wrapValue].
    destruct v; try reflexivity.
    destruct (declaredAsArray op n); [|reflexivity].
    cbn [option_map]. rewrite set_first by assumption. reflexivity.
Qed.

Lemma wrapSingularQuery_map op q :
  List.NoDup (Js.keys q) ->
  wrapSingularQuery op (Some q) = Some (map (wrapValue op) q).
Proof.
  intros Hnd. unfold wrapSingularQuery. cbn [Js.entries].
  apply (wrap_loop op [] q). assumption.
Qed.

Lemma NoDup_map_eq {A B} (f : A -> B) l x y :
  List.NoDup (map f l) -> In x l -> In y l -> f x = f y -> x = y.
Proof.
  induction l as [|a l IH]; simpl; intros Hnd Hx Hy Hf; [contradiction|].
  inversion Hnd as [|? ? Hnot Hnd']; subst.
  destruct Hx as [-> | Hx], Hy as [-> | Hy]; auto.
  - exfalso. apply Hnot. rewrite Hf. apply in_map. assumption.
  - exfalso. apply Hnot. rewrite <- Hf. apply in_map. assumption.
Qed.

(** With parameters unique by name and location, a declared array-typed
    query parameter is the one [_.find] returns. *)
Lemma declared_array op p k schema :
  uniqueParameters op ->
  In p (parameters op) ->
  param_name p = k -> param_in p = InQuery ->
  param_schema p = Some schema ->
  Ajv.schema_type schema = Some "array" ->
  declaredAsArray op k = true.
Proof.
  intros Hu Hin Hn Hq Hs Ht. unfold declaredAsArray.
  destruct (List.find _ (parameters op)) as [p'|] eqn:Hf.
  - apply find_some in Hf as [Hin' Hp'].
    apply andb_prop in Hp' as [Hn' Hq'].
    apply String.eqb_eq in Hn'.
    assert (p' = p) as ->.
    { eapply NoDup_map_eq; [exact Hu | assumption | assumption |].
      simpl. f_equal; [congruence|].
      rewrite Hq. destruct (param_in p'); simpl in Hq'; congruence. }
    rewrite Hs, Ht. reflexivity.
  - eapply find_none in Hf; [|exact Hin]. simpl in Hf.
    rewrite Hn, Hq, String.eqb_refl in Hf. discriminate.
Qed.


(** *** Operations without parameters *)

(** The parameter schema of an operation without parameters accepts an
    object whose path and query are empty or absent, whatever its headers,
    cookies and request body. *)
Lemma skeleton_accepts opts (p q h c : option Js.object) (b : option Js.value) :
  emptyOrAbsent p -> emptyOrAbsent q ->
  let parameters :=
    (omitNil [("path", p); ("query", q); ("header", h); ("cookie", c)]
     ++ match b with Some v => [("requestBody", v)] | None => [] end)%list in
  fst (Ajv.eval_schema opts (Ajv.SObject paramsSkeleton) (Js.Object parameters))
  = [].
Proof.
  intros [-> | ->] [-> | ->]; destruct h, c, b, opts as [ct []];
    reflexivity.
Qed.

Lemma set_new k (v : Js.value) o :
  ~ In k (Js.keys o) -> Js.set k v o = (o ++ [(k, v)])%list.
Proof.
  induction o as [|[k' v'] o IH]; simpl; intros Hk; [reflexivity|].
  destruct (String.eqb_spec k k') as [-> | Hne]; [tauto|].
  rewrite IH by tauto. reflexivity.
Qed.

Lemma omitNil_no_requestBody p q h c :
  ~ In "requestBody"
       (Js.keys (omitNil [("path", p); ("query", q); ("header", h); ("cookie", c)])).
Proof.
  destruct p, q, h, c; simpl; intuition discriminate.
Qed.

(** The object handed to the validators: the locations the router
    returned, then the request body if it is included. *)
Lemma includeRequestBody_returns op parsed parameters :
  includeRequestBody parsed (requestParameters op parsed) = Returns parameters ->
  exists b,
    parameters
    = (requestParameters op parsed
       ++ match b with Some v => [("requestBody", v)] | None => [] end)%list
    /\ (b = None \/ b = Some (parsed_requestBody parsed)).
Proof.
  unfold includeRequestBody, requestParameters.
  rewrite set_new by apply omitNil_no_requestBody.
  generalize (omitNil [("path", params parsed);
                       ("query", wrapSingularQuery op (query parsed));
                       ("header", headers parsed);
                       ("cookie", cookies parsed)]).
  intros base.
  destruct (Js.typeof_object (parsed_requestBody parsed)).
  - intros [= <-]. exists (Some (parsed_requestBody parsed)).
    split; [reflexivity | right; reflexivity].
  - destruct (headers parsed) as [hs|]; [|discriminate].
    destruct (is_json_content_type _).
    + intros [= <-]. exists (Some (parsed_requestBody parsed)).
      split; [reflexivity | right; reflexivity].
    + intros [= <-]. exists None. rewrite app_nil_r.
      split; [reflexivity | left; reflexivity].
Qed.

Lemma wrapSingularQuery_emptyOrAbsent op q :
  emptyOrAbsent q -> wrapSingularQuery op q = q.
Proof. intros [-> | ->]; reflexivity. Qed.

Lemma validateRequest_registered self req operation op validators parameters :
  resolveRequestOperation self req operation = Some op ->
  Js.truthy_string (operationId op) = true ->
  getRequestValidatorsForOperation self (registryKey op) = Js.Own validators ->
  includeRequestBody (parseRequest (router self) req (Some (path op)))
    (requestParameters op (parseRequest (router self) req (Some (path op))))
  = Returns parameters ->
  validateRequest self req operation
  = (Returns (finish (malformedBodyErrors op req
                      ++ snd (runValidators validators (Js.Object parameters)))%list),
     set_requestValidators self
       (<[registryKey op := fst (runValidators validators (Js.Object parameters))]>
          (requestValidators self))).
Proof.
  intros Hr Ht Hv Hp. unfold validateRequest. rewrite Hr, Ht. simpl.
  rewrite Hp. unfold registryKey in Hv. rewrite Hv.
  destruct (runValidators validators (Js.Object parameters)) as [vs' es].
  reflexivity.
Qed.

(** C2, as the code has it. For an operation of the listing that declares no
    parameter and no JSON request-body schema, [validateRequest] returns
    [{ valid: true, errors: null }] for every request resolved to it whose
    parsed path parameters and query are empty or absent and whose body
    passes the malformed-JSON check; headers, cookies and the request body
    are arbitrary. *)
Theorem no_parameters_valid opts self op operation req :
  constructor opts = Returns self ->
  uniqueOperationIds (getOperations (router self)) ->
  In op (getOperations (router self)) ->
  Js.truthy_string (operationId op) = true ->
  parameters op = [] ->
  (requestBody op = None
   \/ exists declared, requestBody op = Some declared
                       /\ requestBodySchema declared = None) ->
  resolveRequestOperation self req operation = Some op ->
  emptyOrAbsent (params (parseRequest (router self) req (Some (path op)))) ->
  emptyOrAbsent (query (parseRequest (router self) req (Some (path op)))) ->
  headers (parseRequest (router self) req (Some (path op))) <> None ->
  malformedBodyErrors op req = [] ->
  fst (validateRequest self req operation)
  = Returns {| valid := true; errors := None |}.
Proof.
  intros Hc Hu Hin Ht Hps Hnb Hr Hp Hq Hh Hm.
  set (parsed := parseRequest (router self) req (Some (path op))) in *.
  destruct (includeRequestBody parsed (requestParameters op parsed))
    as [parameters|e] eqn:Hi.
  2: { unfold includeRequestBody in Hi.
       destruct (Js.typeof_object _); [discriminate|].
       destruct (headers parsed); [|congruence].
       destruct (is_json_content_type _); discriminate. }
  erewrite validateRequest_registered;
    [| eassumption | assumption
     | unfold getRequestValidatorsForOperation; apply read_assigned;
       apply (constructed_request_entry opts); assumption
     | exact Hi].
  rewrite Hm. cbn [fst app].
  assert (Hb : bodyValidatorOf (ajvOpts self) op = []).
  { unfold bodyValidatorOf.
    destruct Hnb as [-> | (declared & -> & ->)]; reflexivity. }
  unfold requestValidatorsOf. rewrite Hb. cbn [app runValidators].
  pose proof (errors_of_call (paramsValidatorOf (ajvOpts self) op)
                             (Js.Object parameters)) as He.
  destruct (Ajv.call _ (Js.Object parameters)) as [validate' d].
  cbn [fst snd] in *. rewrite app_nil_r, He.
  unfold paramsValidatorOf, paramsSchemaOf. rewrite Hps.
  cbn [fresh Ajv.vf_options Ajv.vf_schema fold_left].
  apply includeRequestBody_returns in Hi as (b & -> & _).
  unfold requestParameters.
  rewrite (wrapSingularQuery_emptyOrAbsent op _ Hq).
  rewrite skeleton_accepts by assumption. reflexivity.
Qed.

(** *** Request bodies *)

Lemma get_app_new k o (v : Js.value) :
  ~ In k (Js.keys o) -> Js.get k (o ++ [(k, v)])%list = v.
Proof.
  induction o as [|[k' v'] o IH]; simpl; intros Hk.
  - rewrite String.eqb_refl. reflexivity.
  - destruct (String.eqb_spec k k') as [-> | Hne]; [tauto|]. apply IH. tauto.
Qed.

Lemma get_absent k o : ~ In k (Js.keys o) -> Js.get k o = Js.Undefined.
Proof.
  induction o as [|[k' v'] o IH]; simpl; intros Hk; [reflexivity|].
  destruct (String.eqb_spec k k') as [-> | Hne]; [tauto|]. apply IH. tauto.
Qed.

(** A body schema that requires [requestBody], on an object without it:
    one error, and the object is left as it was.  A body schema with rules
    of its own is reported by keyword [properties], under the bare name;
    one without is left to keyword [required]. *)
Lemma body_schema_missing opts schema parameters :
  Js.get "requestBody" parameters = Js.Undefined ->
  Ajv.eval_schema opts
    (Ajv.SObject {| Ajv.title := "Request";
                    Ajv.additionalProperties := true;
                    Ajv.properties := [("requestBody", Ajv.Author schema)];
                    Ajv.required := ["requestBody"] |})
    (Js.Object parameters)
  = ([Ajv.required_error "" "#"
        (if Ajv.schema_has_rules schema || Ajv.allErrors opts
         then "requestBody" else ".requestBody")],
     Js.Object parameters).
Proof.
  intros Hg. unfold Ajv.eval_schema, Ajv.eval_object. simpl.
  unfold Ajv.missing. rewrite Hg. simpl.
  destruct (Ajv.schema_has_rules schema), (Ajv.allErrors opts); reflexivity.
Qed.

(** *** Where the errors of an object schema come from *)

Lemma mem_elem k l : Ajv.mem k l = true -> In k l.
Proof.
  unfold Ajv.mem. intros H. apply existsb_exists in H as (x & Hx & He).
  apply String.eqb_eq in He. congruence.
Qed.

Lemma limit_subset all es e : In e (Ajv.limit all es) -> In e es.
Proof.
  unfold Ajv.limit. destruct all; [tauto|].
  destruct es as [|e0 es]; simpl; tauto.
Qed.

Section ObjectErrors.
Context {A : Type} (has_rules : A -> bool).
Context (child : A -> string -> string -> Js.value
                 -> list Ajv.ErrorObject * Js.value).
Variables (all : bool) (required : list string) (dp sp : string).

Lemma eval_properties_errors props o e :
  In e (fst (Ajv.eval_properties has_rules child all required dp sp props o)) ->
  (exists k, In k required /\ e = Ajv.required_error dp sp k)
  \/ (exists k a v,
         In (k, a) props
         /\ In e (fst (child a (dp ++ Ajv.getProperty k)
                         (sp ++ "/properties/" ++ Ajv.escapeFragment k) v))).
Proof.
  revert o. induction props as [|[k a] props IH]; intros o; cbn [Ajv.eval_properties].
  - intros [].
  - assert (Hrest : forall o',
               In e (fst (Ajv.eval_properties has_rules child all required
                            dp sp props o')) ->
               (exists k0, In k0 required /\ e = Ajv.required_error dp sp k0)
               \/ (exists k0 a0 v,
                      In (k0, a0) ((k, a) :: props)
                      /\ In e (fst (child a0 (dp ++ Ajv.getProperty k0)
                                      (sp ++ "/properties/"
                                          ++ Ajv.escapeFragment k0) v)))).
    { intros o' H. apply IH in H as [H | (k0 & a0 & v & Hin & H)];
        [left; exact H|].
      right. exists k0, a0, v. split; [right; exact Hin | exact H]. }
    destruct (has_rules a).
    + destruct (Ajv.missing o k).
      * destruct (Ajv.mem k required) eqn:Hm.
        -- destruct (Ajv.stop all _); cbn [fst].
           ++ intros [<- | []]. left. exists k.
              split; [apply mem_elem; exact Hm | reflexivity].
           ++ specialize (Hrest o).
              destruct (Ajv.eval_properties _ _ _ _ _ _ props o) as [es' o2].
              cbn [fst app] in *. intros [<- | H]; [|auto].
              left. exists k. split; [apply mem_elem; exact Hm | reflexivity].
        -- destruct (Ajv.stop all _); cbn [fst]; [intros []|].
           specialize (Hrest o).
           destruct (Ajv.eval_properties _ _ _ _ _ _ props o) as [es' o2].
           cbn [fst app] in *. exact Hrest.
      * destruct (child a (dp ++ Ajv.getProperty k)
                    (sp ++ "/properties/" ++ Ajv.escapeFragment k)
                    (Js.get k o)) as [es v'] eqn:Hc.
        assert (Hhere : In e es ->
                  exists k0 a0 v,
                    In (k0, a0) ((k, a) :: props)
                    /\ In e (fst (child a0 (dp ++ Ajv.getProperty k0)
                                    (sp ++ "/properties/"
                                        ++ Ajv.escapeFragment k0) v))).
        { intros H. exists k, a, (Js.get k o).
          split; [left; reflexivity | rewrite Hc; exact H]. }
        destruct (Ajv.stop all es); cbn [fst]; [auto|].
        specialize (Hrest (Js.set k v' o)).
        destruct (Ajv.eval_properties _ _ _ _ _ _ props _) as [es' o2].
        cbn [fst] in *. intros H. apply in_app_or in H as [H | H]; auto.
    + destruct (Ajv.stop all []); cbn [fst]; [intros []|].
      specialize (Hrest o).
      destruct (Ajv.eval_properties _ _ _ _ _ _ props o) as [es' o2].
      cbn [fst app] in *. exact Hrest.
Qed.

Lemma eval_object_errors addl props d e :
  In e (fst (Ajv.eval_object has_rules child all required dp sp addl props d)) ->
  e = Ajv.type_object_error dp sp
  \/ (exists k, In k required
                /\ (e = Ajv.required_error dp sp k
                    \/ e = Ajv.required_error dp sp (Ajv.getProperty k)))
  \/ (exists k, e = Ajv.additional_error dp sp k)
  \/ (exists k a v,
         In (k, a) props
         /\ In e (fst (child a (dp ++ Ajv.getProperty k)
                         (sp ++ "/properties/" ++ Ajv.escapeFragment k) v))).
Proof.
  unfold Ajv.eval_object.
  destruct d as [| | | | | |o]; cbn [fst];
    try (intros [<- | []]; left; reflexivity).
  set (e_req := Ajv.limit all _).
  assert (Hreq : In e e_req ->
            exists k, In k required
                      /\ (e = Ajv.required_error dp sp k
                          \/ e = Ajv.required_error dp sp (Ajv.getProperty k))).
  { intros H. apply limit_subset, in_map_iff in H as (k & <- & Hk).
    apply List.filter_In in Hk as [Hk _]. exists k. split; [exact Hk|].
    unfold Ajv.missing_name. destruct all; tauto. }
  destruct (Ajv.stop all e_req); cbn [fst]; [tauto|].
  set (e_add := if addl then [] else _).
  assert (Hadd : In e e_add -> exists k, e = Ajv.additional_error dp sp k).
  { unfold e_add. destruct addl; [intros []|].
    intros H. apply limit_subset, in_map_iff in H as (k & <- & _). eauto. }
  destruct (Ajv.stop all e_add); cbn [fst].
  { intros H. apply in_app_or in H as [H | H]; tauto. }
  pose proof (eval_properties_errors props o e) as Hp.
  destruct (Ajv.eval_properties _ _ _ _ _ _ props o) as [e_props o'].
  cbn [fst] in *. intros H.
  apply in_app_or in H as [H | H]; [tauto|].
  apply in_app_or in H as [H | H]; [tauto|].
  destruct (Hp H) as [(k & Hk & ->) | Hc]; [|tauto].
  right. left. exists k. tauto.
Qed.

End ObjectErrors.

Lemma string_app_assoc (a b c : string) :
  ((a ++ b) ++ c)%string = (a ++ (b ++ c))%string.
Proof.
  induction a as [|x a IH]; [reflexivity|].
  change (String x ((a ++ b) ++ c) = String x (a ++ (b ++ c))).
  f_equal. exact IH.
Qed.

Lemma string_app_nil (a : string) : (a ++ "")%string = a.
Proof.
  induction a as [|x a IH]; [reflexivity|].
  change (String x (a ++ "") = String x a). f_equal. exact IH.
Qed.

(** Every error of a sub-schema lies at or below the place of the
    sub-schema in the data. *)
Lemma eval_author_dataPath opts s dp sp d e :
  In e (fst (Ajv.eval_author opts s dp sp d)) ->
  exists x, Ajv.dataPath e = dp ++ x.
Proof.
  unfold Ajv.eval_author. destruct (Ajv.evaluate opts s d) as [es d'].
  cbn [fst]. intros H. apply in_map_iff in H as (e0 & <- & _).
  exists (Ajv.dataPath e0). reflexivity.
Qed.

Lemma eval_location_dataPath opts l dp sp d e :
  In e (fst (Ajv.eval_location opts l dp sp d)) ->
  exists x, Ajv.dataPath e = dp ++ x.
Proof.
  unfold Ajv.eval_location. intros H.
  apply eval_object_errors in H
    as [-> | [(k & _ & [-> | ->]) | [(k & ->) | (k & a & v & _ & H)]]];
    try (exists ""; rewrite string_app_nil; reflexivity).
  destruct a as [s|]; [|destruct H].
  apply eval_author_dataPath in H as [x ->].
  exists (Ajv.getProperty k ++ x). apply string_app_assoc.
Qed.

Lemma eval_property_dataPath opts p dp sp d e :
  In e (fst (Ajv.eval_property opts p dp sp d)) ->
  exists x, Ajv.dataPath e = dp ++ x.
Proof.
  destruct p as [s | l]; simpl.
  - apply eval_author_dataPath.
  - apply eval_location_dataPath.
Qed.

Lemma uniq_subset l x : In x (Js.uniq l) -> In x l.
Proof.
  induction l as [|a l IH]; simpl; [tauto|].
  intros [-> | H]; [tauto|].
  apply List.filter_In in H as [H _]. auto.
Qed.

(** The parameter schema requires nothing but locations. *)
Lemma paramsSchema_required ps s k :
  In k (Ajv.required (fold_left addParameter ps s)) ->
  In k (Ajv.required s) \/ exists l, k = location_name l.
Proof.
  revert s. induction ps as [|p ps IH]; intros s; simpl; [tauto|].
  intros H. apply IH in H as [H | H]; [|tauto].
  unfold addParameter in H. cbn [Ajv.required] in H.
  destruct (param_required p); [|tauto].
  apply uniq_subset, in_app_or in H as [H | [<- | []]]; eauto.
Qed.

Lemma getProperty_path k x : String.eqb (Ajv.getProperty k ++ x) "" = false.
Proof. unfold Ajv.getProperty. destruct (Ajv.is_identifier k); reflexivity. Qed.

(** No error of the parameter schema reports [requestBody] as missing:
    its errors at the root name a location, the others lie below one. *)
Lemma params_errors_not_body opts op d e :
  In e (fst (Ajv.eval_schema opts (Ajv.SObject (paramsSchemaOf op)) d)) ->
  reportsMissingBody e = false.
Proof.
  cbn [Ajv.eval_schema]. intros H.
  apply eval_object_errors in H
    as [-> | [(k & Hk & He) | [(k & ->) | (k & a & v & _ & H)]]].
  - reflexivity.
  - apply paramsSchema_required in Hk as [[] | [l ->]].
    destruct He as [-> | ->]; destruct l; reflexivity.
  - reflexivity.
  - apply eval_property_dataPath in H as [x Hx].
    change (("" ++ Ajv.getProperty k) ++ x)%string
      with (Ajv.getProperty k ++ x)%string in Hx.
    unfold reportsMissingBody.
    rewrite Hx, getProperty_path, andb_false_r. reflexivity.
Qed.

Local Arguments String.eqb : simpl never.

Lemma requestBodySchema_required declared s :
  requestBodySchema declared = Some s ->
  (Ajv.required s = ["requestBody"]
   <-> Js.keys (body_content declared) = ["application/json"])
  /\ (Ajv.required s = ["requestBody"] \/ Ajv.required s = []).
Proof.
  unfold requestBodySchema. destruct declared as [content]. simpl.
  destruct (Js.lookup "application/json" content) as [media|] eqn:Hl;
    [|discriminate].
  destruct (media_schema media); [|discriminate].
  intros [= <-]. simpl.
  destruct content as [|[k m] [|km content]]; simpl in *.
  - discriminate Hl.
  - destruct (String.eqb_spec "application/json" k) as [<- | Hne];
      [|discriminate Hl].
    split; [split; reflexivity | left; reflexivity].
  - split; [split; discriminate | right; reflexivity].
Qed.

(** C5. A request body that declares a schema under application/json gets
    a body schema, which requires [requestBody] exactly when
    application/json is the only declared media type, and requires nothing
    otherwise.  So a request without body to an operation whose only media
    type is application/json gets, from the body validator, one error of
    keyword [required] that names [requestBody] (as ['.requestBody'] when
    the body schema has no rules and [allErrors] is off); the errors that
    follow are those of the parameter validator, and none of them reports
    [requestBody] as missing. *)
Theorem json_only_body_is_required opts self op operation req declared media schema parameters :
  Js.lookup "application/json" (body_content declared) = Some media ->
  media_schema media = Some schema ->
  (exists s,
      requestBodySchema declared = Some s
      /\ (Ajv.required s = ["requestBody"]
          <-> Js.keys (body_content declared) = ["application/json"])
      /\ (Ajv.required s = ["requestBody"] \/ Ajv.required s = []))
  /\ (constructor opts = Returns self ->
      uniqueOperationIds (getOperations (router self)) ->
      In op (getOperations (router self)) ->
      Js.truthy_string (operationId op) = true ->
      requestBody op = Some declared ->
      Js.keys (body_content declared) = ["application/json"] ->
      resolveRequestOperation self req operation = Some op ->
      body req = Js.Undefined ->
      parsed_requestBody (parseRequest (router self) req (Some (path op)))
      = Js.Undefined ->
      includeRequestBody (parseRequest (router self) req (Some (path op)))
        (requestParameters op (parseRequest (router self) req (Some (path op))))
      = Returns parameters ->
      exists e rest,
        fst (validateRequest self req operation)
        = Returns {| valid := false; errors := Some (e :: rest) |}
        /\ e = Ajv.required_error "" "#"
                 (if Ajv.schema_has_rules schema
                     || Ajv.allErrors (ajvOpts self)
                  then "requestBody" else ".requestBody")
        /\ reportsMissingBody e = true
        /\ rest = fst (Ajv.eval_schema
                         (Ajv.with_coercion (ajvOpts self))
                         (Ajv.SObject (paramsSchemaOf op))
                         (Js.Object parameters))
        /\ Forall (fun e' => reportsMissingBody e' = false) rest).
Proof.
  intros Hl Hms.
  assert (Hs : exists s,
             requestBodySchema declared = Some s
             /\ Ajv.properties s = [("requestBody", Ajv.Author schema)]
             /\ Ajv.title s = "Request"
             /\ Ajv.additionalProperties s = true).
  { unfold requestBodySchema. rewrite Hl, Hms. eexists.
    split; [reflexivity|]. simpl. tauto. }
  destruct Hs as (s & Hs & Hprops & Htitle & Haddl).
  split.
  { exists s. split; [exact Hs|]. apply requestBodySchema_required. exact Hs. }
  intros Hc Hu Hin Ht Hrb Hk Hr Hb Hpb Hi.
  set (parsed := parseRequest (router self) req (Some (path op))) in *.
  erewrite validateRequest_registered;
    [| eassumption | assumption
     | unfold getRequestValidatorsForOperation; apply read_assigned;
       apply (constructed_request_entry opts); assumption
     | exact Hi].
  cbn [fst].
  assert (Hm : malformedBodyErrors op req = []).
  { unfold malformedBodyErrors. rewrite Hb. reflexivity. }
  rewrite Hm. cbn [app].
  assert (Hg : Js.get "requestBody" parameters = Js.Undefined).
  { apply includeRequestBody_returns in Hi as (b & -> & Hbv).
    unfold requestParameters.
    destruct Hbv as [-> | ->].
    - rewrite app_nil_r. apply get_absent, omitNil_no_requestBody.
    - rewrite get_app_new by apply omitNil_no_requestBody. exact Hpb. }
  unfold requestValidatorsOf, bodyValidatorOf. rewrite Hrb, Hs.
  cbn [app runValidators].
  assert (Hreq : s = {| Ajv.title := "Request";
                        Ajv.additionalProperties := true;
                        Ajv.properties := [("requestBody", Ajv.Author schema)];
                        Ajv.required := ["requestBody"] |}).
  { destruct (requestBodySchema_required declared s Hs) as [Hiff _].
    apply Hiff in Hk. destruct s as [t a ps rq]. simpl in *. congruence. }
  unfold Ajv.call at 1. cbn [fresh Ajv.vf_options Ajv.vf_schema].
  rewrite Hreq, body_schema_missing by exact Hg.
  pose proof (errors_of_call (paramsValidatorOf (ajvOpts self) op)
                             (Js.Object parameters)) as He.
  destruct (Ajv.call _ (Js.Object parameters)) as [validate' d].
  cbn [fst snd errors_of Ajv.errors Ajv.is_nil app] in *.
  rewrite He, app_nil_r.
  cbn [paramsValidatorOf fresh Ajv.vf_options Ajv.vf_schema].
  eexists _, _. split; [reflexivity|].
  split; [reflexivity|]. split.
  { destruct (Ajv.schema_has_rules schema), (Ajv.allErrors (ajvOpts self));
      reflexivity. }
  split; [reflexivity|].
  apply List.Forall_forall. intros e' He'.
  eapply params_errors_not_body. exact He'.
Qed.

(** *** Malformed JSON bodies *)

Lemma limit_keyword all es :
  Forall schema_keyword es -> Forall schema_keyword (Ajv.limit all es).
Proof.
  intros H. unfold Ajv.limit. destruct all; [assumption|].
  destruct es as [|e es]; simpl; [constructor|].
  inversion H; subst. repeat constructor. assumption.
Qed.

Lemma eval_author_keyword opts s dp sp d :
  Forall schema_keyword (fst (Ajv.eval_author opts s dp sp d)).
Proof.
  unfold Ajv.eval_author.
  pose proof (Ajv.evaluate_keyword opts s d) as H.
  destruct (Ajv.evaluate opts s d) as [es d']. simpl in *.
  apply List.Forall_forall. intros e He.
  apply in_map_iff in He as (e0 & <- & He0). apply (H e0 He0).
Qed.

Section ObjectKeyword.
Context {A : Type} (has_rules : A -> bool).
Context (child : A -> string -> string -> Js.value
                 -> list Ajv.ErrorObject * Js.value).
Hypothesis child_keyword :
  forall a dp sp d, Forall schema_keyword (fst (child a dp sp d)).

Lemma eval_properties_keyword all req dp sp props o :
  Forall schema_keyword
    (fst (Ajv.eval_properties has_rules child all req dp sp props o)).
Proof.
  revert o. induction props as [|[k a] props IH]; intros o; simpl.
  - constructor.
  - destruct (has_rules a).
    + destruct (Ajv.missing o k).
      * destruct (Ajv.mem k req).
        -- destruct (Ajv.stop all _); simpl.
           ++ repeat constructor. discriminate.
           ++ specialize (IH o).
              destruct (Ajv.eval_properties _ _ _ _ _ _ props o).
              simpl in *. constructor; [discriminate | assumption].
        -- destruct (Ajv.stop all _); simpl; [constructor|].
           specialize (IH o).
           destruct (Ajv.eval_properties _ _ _ _ _ _ props o). assumption.
      * pose proof (child_keyword a (dp ++ Ajv.getProperty k)
                      (sp ++ "/properties/" ++ Ajv.escapeFragment k)
                      (Js.get k o)) as Hc.
        destruct (child a _ _ _) as [es v']. simpl in Hc.
        destruct (Ajv.stop all es); simpl; [assumption|].
        specialize (IH (Js.set k v' o)).
        destruct (Ajv.eval_properties _ _ _ _ _ _ props _). simpl in *.
        apply List.Forall_app. tauto.
    + destruct (Ajv.stop all []); simpl; [constructor|].
      specialize (IH o).
      destruct (Ajv.eval_properties _ _ _ _ _ _ props o). assumption.
Qed.

Lemma eval_object_keyword all req dp sp addl props d :
  Forall schema_keyword
    (fst (Ajv.eval_object has_rules child all req dp sp addl props d)).
Proof.
  unfold Ajv.eval_object.
  destruct d; simpl; try (repeat constructor; discriminate).
  set (e_req := Ajv.limit all _).
  assert (Hreq : Forall schema_keyword e_req).
  { apply limit_keyword, List.Forall_forall. intros e He.
    apply in_map_iff in He as (k & <- & _). discriminate. }
  destruct (Ajv.stop all e_req); simpl; [assumption|].
  set (e_add := if addl then [] else _).
  assert (Hadd : Forall schema_keyword e_add).
  { unfold e_add. destruct addl; [constructor|].
    apply limit_keyword, List.Forall_forall. intros e He.
    apply in_map_iff in He as (k & <- & _). discriminate. }
  destruct (Ajv.stop all e_add); simpl; [apply List.Forall_app; tauto|].
  pose proof (eval_properties_keyword all req dp sp props fields) as Hp.
  destruct (Ajv.eval_properties _ _ _ _ _ _ props fields). simpl in *.
  rewrite !List.Forall_app. tauto.
Qed.

End ObjectKeyword.

Lemma eval_branches_keyword opts dp sp schemas i passing d :
  Forall schema_keyword
    (fst (fst (Ajv.eval_branches opts dp sp schemas i passing d))).
Proof.
  revert i passing d. induction schemas as [|s rest IH]; intros i passing d;
    simpl; [constructor|].
  pose proof (eval_author_keyword opts s dp
                (sp ++ "/oneOf/" ++ Js.number_to_string (Z.of_nat i)) d) as Hs.
  destruct (Ajv.eval_author _ _ _ _ d) as [es d']. simpl in Hs.
  destruct (Ajv.is_nil es).
  - destruct passing; simpl; [constructor | apply IH].
  - specialize (IH (S i) passing d').
    destruct (Ajv.eval_branches _ _ _ rest _ _ d') as [[es' ps] d''].
    simpl in *. apply List.Forall_app. tauto.
Qed.

Lemma eval_schema_keyword opts s d :
  Forall schema_keyword (fst (Ajv.eval_schema opts s d)).
Proof.
  destruct s as [s | schemas]; simpl.
  - apply eval_object_keyword. intros [a | l] dp sp v; simpl.
    + apply eval_author_keyword.
    + unfold Ajv.eval_location. apply eval_object_keyword.
      intros [a|] dp' sp' v'; simpl;
        [apply eval_author_keyword | constructor].
  - unfold Ajv.eval_oneOf.
    pose proof (eval_branches_keyword opts "" "#" schemas 0 None d) as H.
    destruct (Ajv.eval_branches _ _ _ schemas 0 None d) as [[es ps] d'].
    simpl in H.
    destruct ps as [|p [|q ps]]; simpl;
      [ | constructor | ];
      (apply List.Forall_app; split; [assumption|]; repeat constructor; discriminate).
Qed.

Lemma runValidators_keyword validators d :
  Forall schema_keyword (snd (runValidators validators d)).
Proof.
  revert d. induction validators as [|validate rest IH]; intros d; simpl.
  - constructor.
  - pose proof (errors_of_call validate d) as He.
    pose proof (eval_schema_keyword (Ajv.vf_options validate)
                  (Ajv.vf_schema validate) d) as Hk.
    destruct (Ajv.call validate d) as [validate' d']. simpl in He.
    specialize (IH d'). destruct (runValidators rest d') as [rest' es].
    simpl in *. apply List.Forall_app. rewrite He. tauto.
Qed.

(** C6. Let the raw body be present and not an object, and application/json
    be the only media type of the operation's request body.  If [JSON.parse]
    throws, the result is invalid and its errors start with the error of
    keyword [parse], data path [''], schema path ['#/requestBody'] and the
    message of the exception; the request validators run all the same, and
    their errors follow.  If [JSON.parse] returns, the errors are those of
    the validators, none of which has the keyword [parse]. *)
Theorem malformed_body_reported self op operation req validators parameters :
  resolveRequestOperation self req operation = Some op ->
  Js.truthy_string (operationId op) = true ->
  getRequestValidatorsForOperation self (registryKey op) = Js.Own validators ->
  includeRequestBody (parseRequest (router self) req (Some (path op)))
    (requestParameters op (parseRequest (router self) req (Some (path op))))
  = Returns parameters ->
  Js.typeof_object (body req) = false ->
  body req <> Js.Undefined ->
  payloadFormats op = ["application/json"] ->
  let ran := runValidators validators (Js.Object parameters) in
  (forall message,
      JSON_parse (Js.to_string (body req)) = Js.SyntaxError message ->
      validateRequest self req operation
      = (Returns
           {| valid := false;
              errors :=
                Some ({| Ajv.keyword := "parse";
                         Ajv.dataPath := "";
                         Ajv.schemaPath := "#/requestBody";
                         Ajv.params := Js.Array [];
                         Ajv.message := message |} :: snd ran) |},
         set_requestValidators self
           (<[registryKey op := fst ran]> (requestValidators self))))
  /\ (forall v,
         JSON_parse (Js.to_string (body req)) = Js.Parsed v ->
         fst (validateRequest self req operation) = Returns (finish (snd ran))
         /\ Forall (fun e => Ajv.keyword e <> "parse") (snd ran)).
Proof.
  intros Hr Ht Hv Hi Hobj Hdef Hfmt ran.
  rewrite (validateRequest_registered self req operation op validators parameters)
    by assumption.
  fold ran.
  assert (Hm : malformedBodyErrors op req
               = match JSON_parse (Js.to_string (body req)) with
                 | Js.SyntaxError message => [parse_error message]
                 | Js.Parsed _ => []
                 end).
  { unfold malformedBodyErrors. rewrite Hobj, Hfmt.
    destruct (body req); try congruence; reflexivity. }
  rewrite Hm. split.
  - intros message ->. reflexivity.
  - intros v ->. split; [reflexivity|].
    apply runValidators_keyword.
Qed.

End Properties.

(* ===================================================================== *)
(** ** Further properties *)
(* ===================================================================== *)

Section Further.
Context {D : Ajv.SchemaDialect} {E : Environment}.

(** *** The parameter schema *)

Lemma uniq_In l x : In x (Js.uniq l) <-> In x l.
Proof.
  induction l as [|a l IH]; simpl; [tauto|].
  rewrite List.filter_In, IH.
  destruct (String.eqb_spec a x) as [-> | Hne]; simpl.
  - tauto.
  - intuition congruence.
Qed.

Lemma uniq_NoDup l : List.NoDup (Js.uniq l).
Proof.
  induction l as [|a l IH]; simpl; constructor.
  - rewrite List.filter_In. rewrite String.eqb_refl. simpl. intros [_ H]. discriminate.
  - apply List.NoDup_filter. assumption.
Qed.


Lemma keys_set_In {A} k n (v : A) o :
  In n (Js.keys (Js.set k v o)) <-> n = k \/ In n (Js.keys o).
Proof.
  induction o as [|[k' v'] o IH]; simpl.
  - intuition.
  - destruct (String.eqb_spec k k') as [<- | Hne]; simpl.
    + intuition.
    + rewrite IH. intuition.
Qed.

Lemma keys_set_NoDup {A} k (v : A) o :
  List.NoDup (Js.keys o) -> List.NoDup (Js.keys (Js.set k v o)).
Proof.
  induction o as [|[k' v'] o IH]; simpl; intros Hnd.
  - repeat constructor. simpl. tauto.
  - inversion Hnd as [|? ? Hnot Hnd']; subst.
    destruct (String.eqb_spec k k') as [<- | Hne]; simpl.
    + constructor; assumption.
    + constructor; [|auto].
      fold (Js.keys (Js.set k v o)). rewrite keys_set_In.
      intros [-> | Hin]; [congruence | tauto].
Qed.

Lemma location_eqb_eq l1 l2 : location_eqb l1 l2 = true <-> l1 = l2.
Proof. destruct l1, l2; simpl; split; congruence. Qed.

Lemma location_name_inj l1 l2 : location_name l1 = location_name l2 -> l1 = l2.
Proof. destruct l1, l2; simpl; congruence. Qed.

(** The parameter schema, in one piece. *)
Lemma paramsSchemaOf_form op :
  paramsSchemaOf op
  = {| Ajv.title := "Request";
       Ajv.additionalProperties := true;
       Ajv.properties :=
         [("path", Ajv.Location (locationSchemaOf (parameters op) InPath));
          ("query", Ajv.Location (locationSchemaOf (parameters op) InQuery));
          ("header", Ajv.Location (locationSchemaOf (parameters op) InHeader));
          ("cookie", Ajv.Location (locationSchemaOf (parameters op) InCookie))];
       Ajv.required := requiredLocations (parameters op) |}.
Proof.
  unfold paramsSchemaOf. generalize (parameters op) as ps.
  induction ps as [|p ps IH] using rev_ind.
  - reflexivity.
  - rewrite fold_left_app. cbn [fold_left]. rewrite IH.
    unfold locationSchemaOf, locationProperties, locationRequired,
      requiredLocations.
    rewrite !fold_left_app, !List.filter_app, !map_app. cbn [fold_left].
    unfold addParameter.
    destruct p as [n [] [] sch];
      cbn [List.filter map location_eqb param_in param_required andb
           param_name param_schema];
      rewrite ?app_nil_r; reflexivity.
Qed.

Lemma requiredLocations_NoDup ps : List.NoDup (requiredLocations ps).
Proof.
  unfold requiredLocations.
  induction ps as [|p ps IH] using rev_ind; [constructor|].
  rewrite fold_left_app. cbn [fold_left].
  destruct (param_required p); [apply uniq_NoDup | assumption].
Qed.

Lemma requiredLocations_In ps x :
  In x (requiredLocations ps)
  <-> exists p, In p ps /\ param_required p = true
                /\ location_name (param_in p) = x.
Proof.
  unfold requiredLocations.
  induction ps as [|p ps IH] using rev_ind.
  - simpl. split; [tauto | intros (p & [] & _)].
  - rewrite fold_left_app. cbn [fold_left].
    destruct (param_required p) eqn:Hr.
    + rewrite uniq_In, in_app_iff, IH. simpl. split.
      * intros [(q & Hq & Hqr & Hql) | [<- | []]].
        -- exists q. rewrite in_app_iff. tauto.
        -- exists p. rewrite in_app_iff. simpl. tauto.
      * intros (q & Hq & Hqr & Hql). apply in_app_iff in Hq as [Hq | [<- | []]].
        -- left. eauto.
        -- tauto.
    + rewrite IH. split.
      * intros (q & Hq & Hqr & Hql). exists q. rewrite in_app_iff. tauto.
      * intros (q & Hq & Hqr & Hql). apply in_app_iff in Hq as [Hq | [<- | []]].
        -- eauto.
        -- congruence.
Qed.

(** X1. The parameter schema of an operation is an open object schema whose
    properties are the four locations, in the order path, query, header,
    cookie; path and query are closed ([additionalProperties: false]),
    header and cookie are open.  Its [required] list has no duplicates and
    holds exactly the locations in which the operation declares a required
    parameter. *)
Theorem params_schema_shape op :
  Ajv.additionalProperties (paramsSchemaOf op) = true
  /\ (exists path query header cookie,
         Ajv.properties (paramsSchemaOf op)
         = [("path", Ajv.Location path); ("query", Ajv.Location query);
            ("header", Ajv.Location header); ("cookie", Ajv.Location cookie)]
         /\ Ajv.loc_additionalProperties path = false
         /\ Ajv.loc_additionalProperties query = false
         /\ Ajv.loc_additionalProperties header = true
         /\ Ajv.loc_additionalProperties cookie = true)
  /\ List.NoDup (Ajv.required (paramsSchemaOf op))
  /\ (forall x,
         In x (Ajv.required (paramsSchemaOf op))
         <-> exists p, In p (parameters op) /\ param_required p = true
                       /\ location_name (param_in p) = x).
Proof.
  rewrite paramsSchemaOf_form. cbn [Ajv.additionalProperties Ajv.properties
                                     Ajv.required].
  split; [reflexivity|]. split.
  - do 4 eexists. split; [reflexivity|]. simpl. tauto.
  - split; [apply requiredLocations_NoDup | apply requiredLocations_In].
Qed.


Lemma locationProperties_NoDup ps l :
  List.NoDup (Js.keys (locationProperties ps l)).
Proof.
  unfold locationProperties.
  induction ps as [|p ps IH] using rev_ind; [constructor|].
  rewrite fold_left_app. cbn [fold_left].
  destruct (location_eqb (param_in p) l); [|assumption].
  apply keys_set_NoDup. assumption.
Qed.


Lemma locationProperties_In ps l n :
  In n (Js.keys (locationProperties ps l))
  <-> exists p, In p ps /\ param_in p = l /\ param_name p = n.
Proof.
  unfold locationProperties.
  induction ps as [|p ps IH] using rev_ind.
  - simpl. split; [tauto | intros (p & [] & _)].
  - rewrite fold_left_app. cbn [fold_left].
    destruct (location_eqb (param_in p) l) eqn:Hl.
    + apply location_eqb_eq in Hl. rewrite keys_set_In, IH. split.
      * intros [-> | (q & Hq & Hql & Hqn)].
        -- exists p. rewrite in_app_iff. simpl. tauto.
        -- exists q. rewrite in_app_iff. tauto.
      * intros (q & Hq & Hql & Hqn). apply in_app_iff in Hq as [Hq | [<- | []]].
        -- right. eauto.
        -- left. congruence.
    + rewrite IH. split.
      * intros (q & Hq & Hql & Hqn). exists q. rewrite in_app_iff. tauto.
      * intros (q & Hq & Hql & Hqn). apply in_app_iff in Hq as [Hq | [<- | []]].
        -- eauto.
        -- subst l. destruct (param_in p); discriminate.
Qed.


(** *** The registries after construction *)

Section LastRegistration.
Context {A V : Type} (key : A -> string) (val : A -> option V).

(** An entry survives the registrations that do not write its key. *)
Lemma registered_kept l m k v :
  m !! k = Some v ->
  (forall b, In b l -> key b = k -> val b = None) ->
  fold_left (register key val) l m !! k = Some v.
Proof.
  revert m. induction l as [|b l IH]; intros m Hm Hl; simpl.
  - assumption.
  - apply IH; [|intros c Hc; apply Hl; right; assumption].
    unfold register. destruct (val b) as [w|] eqn:Hw; [|assumption].
    destruct (decide (key b = k)) as [Hk | Hk].
    + rewrite (Hl b (or_introl eq_refl) Hk) in Hw. discriminate.
    + rewrite lookup_insert_ne by assumption. assumption.
Qed.

(** The last registration under a key is the entry. *)
Lemma registered_last l1 a l2 m v :
  val a = Some v ->
  (forall b, In b l2 -> key b = key a -> val b = None) ->
  fold_left (register key val) (l1 ++ a :: l2) m !! key a = Some v.
Proof.
  intros Hv Hl. rewrite fold_left_app. cbn [fold_left].
  apply registered_kept; [|assumption].
  unfold register. rewrite Hv. apply lookup_insert_eq.
Qed.

End LastRegistration.

Lemma responseValidatorOf_is_Some opts op :
  is_Some (responseValidatorOf opts op) <-> declaredResponseSchemas op <> [].
Proof.
  unfold responseValidatorOf. destruct (declaredResponseSchemas op); split.
  - intros [v Hv]. discriminate.
  - congruence.
  - discriminate.
  - eauto.
Qed.

(** X3. After construction a getter returns a registered value under an
    id exactly when an operation of the listing has this id as its key -
    for the response getter, one that declares a JSON response schema.
    Under any other id it returns what every plain object inherits: the
    member of [Object.prototype] of that name ([constructor],
    [hasOwnProperty], ...), or [undefined] when there is none (no operation
    of the listing being registered under ['__proto__']). *)
Theorem registry_keys opts self id :
  constructor opts = Returns self ->
  ((exists validators,
       getRequestValidatorsForOperation self id = Js.Own validators)
   <-> exists op, In op (getOperations (router self)) /\ registryKey op = id)
  /\ ((exists validator,
          getResponseValidatorForOperation self id = Js.Own validator)
      <-> exists op, In op (getOperations (router self))
                     /\ registryKey op = id
                     /\ declaredResponseSchemas op <> [])
  /\ ((forall op, In op (getOperations (router self)) ->
                  registryKey op <> id /\ registryKey op <> "__proto__") ->
      getRequestValidatorsForOperation self id
      = match Js.inherited id with
        | Some member => Js.Inherited member
        | None => Js.Missing
        end
      /\ getResponseValidatorForOperation self id
         = match Js.inherited id with
           | Some member => Js.Inherited member
           | None => Js.Missing
           end).
Proof.
  intros Hc.
  unfold getRequestValidatorsForOperation, getResponseValidatorForOperation.
  apply constructor_returns in Hc as (_ & _ & -> & ->).
  split; [|split]; [split | split |].
  - intros [vs Hvs]. apply read_own in Hvs.
    apply registered_some in Hvs as [Hvs | (op & Hin & Hk & _)];
      [rewrite lookup_empty in Hvs; discriminate | eauto].
  - intros (op & Hin & <-).
    destruct (registered_present registryKey (requestEntry (ajvOpts self))
                (getOperations (router self)) ∅ op Hin) as [vs Hvs];
      [unfold requestEntry; eauto|].
    exists vs. apply read_assigned. exact Hvs.
  - intros [v Hv]. apply read_own in Hv.
    apply registered_some in Hv as [Hv | (op & Hin & Hk & Hv)];
      [rewrite lookup_empty in Hv; discriminate|].
    exists op. repeat split; try assumption.
    apply (responseValidatorOf_is_Some (ajvOpts self)). eauto.
  - intros (op & Hin & <- & Hne).
    destruct (registered_present registryKey
                (responseValidatorOf (ajvOpts self))
                (getOperations (router self)) ∅ op Hin) as [v Hv];
      [apply responseValidatorOf_is_Some; assumption|].
    exists v. apply read_assigned. exact Hv.
  - intros Hother.
    assert (Hid : ~ In id (map registryKey (getOperations (router self)))).
    { intros Hin. apply in_map_iff in Hin as (op & Hk & Hin).
      destruct (Hother op Hin) as [Hne _]. congruence. }
    split; apply read_unassigned;
      rewrite registered_elsewhere by exact Hid; apply lookup_empty.
Qed.

(** X4. When two operations of the listing share an operationId, the later
    one wins: the request validators under a key are those of the last
    operation with this key, and the response validator is that of the last
    operation with this key that declares a JSON response schema. *)
Theorem last_operation_wins opts self before op after :
  constructor opts = Returns self ->
  getOperations (router self) = (before ++ op :: after)%list ->
  ((forall op', In op' after -> registryKey op' <> registryKey op) ->
   getRequestValidatorsForOperation self (registryKey op)
   = Js.Own (requestValidatorsOf (ajvOpts self) op))
  /\ (declaredResponseSchemas op <> [] ->
      (forall op', In op' after -> registryKey op' = registryKey op ->
                   declaredResponseSchemas op' = []) ->
      getResponseValidatorForOperation self (registryKey op)
      = Js.Own (fresh (ajvOpts self)
                      (Ajv.SOneOf (declaredResponseSchemas op)))).
Proof.
  intros Hc Hl.
  unfold getRequestValidatorsForOperation, getResponseValidatorForOperation.
  apply constructor_returns in Hc as (_ & _ & -> & ->). rewrite Hl. split.
  - intros Hafter. apply read_assigned.
    apply (registered_last registryKey (requestEntry (ajvOpts self)));
      [reflexivity|].
    intros b Hb Hk. exfalso. exact (Hafter b Hb Hk).
  - intros Hne Hafter. apply read_assigned.
    apply (registered_last registryKey (responseValidatorOf (ajvOpts self))).
    + unfold responseValidatorOf.
      destruct (declaredResponseSchemas op); [congruence | reflexivity].
    + intros b Hb Hk. unfold responseValidatorOf.
      rewrite (Hafter b Hb Hk). reflexivity.
Qed.

(** X5. After construction every registered validator is fresh ([errors]
    is [null]); in each request entry the last validator is compiled with
    [coerceTypes: true] and otherwise the caller's options, the ones before
    it and the response validators with the caller's options as given
    (the default options when none were passed). *)
Theorem validator_options opts self :
  constructor opts = Returns self ->
  ajvOpts self = match opts_ajvOpts opts with
                 | Some o => o
                 | None => Ajv.default_options
                 end
  /\ (forall id validators,
         getRequestValidatorsForOperation self id = Js.Own validators ->
         exists body paramsValidator,
           validators = (body ++ [paramsValidator])%list
           /\ Forall (fun v => Ajv.vf_options v = ajvOpts self
                               /\ Ajv.errors v = None) body
           /\ Ajv.coerceTypes (Ajv.vf_options paramsValidator) = Ajv.CoerceOn
           /\ Ajv.allErrors (Ajv.vf_options paramsValidator)
              = Ajv.allErrors (ajvOpts self)
           /\ Ajv.errors paramsValidator = None)
  /\ (forall id validator,
         getResponseValidatorForOperation self id = Js.Own validator ->
         Ajv.vf_options validator = ajvOpts self
         /\ Ajv.errors validator = None).
Proof.
  intros Hc. split.
  { unfold constructor in Hc.
    destruct (for_each buildRequestValidatorsForOperation _ _) as [self1|] eqn:H1;
      simpl in Hc; [|discriminate].
    apply for_each_request in H1 as ->.
    apply for_each_response in Hc as ->. reflexivity. }
  unfold getRequestValidatorsForOperation, getResponseValidatorForOperation.
  apply constructor_returns in Hc as (_ & _ & Hrq & Hrs).
  rewrite Hrq, Hrs. clear Hrq Hrs. split.
  - intros id vs Hvs. apply read_own in Hvs.
    apply registered_some in Hvs as [Hvs | (op & _ & _ & Hvs)];
      [rewrite lookup_empty in Hvs; discriminate|].
    injection Hvs as <-. unfold requestValidatorsOf.
    exists (bodyValidatorOf (ajvOpts self) op),
           (paramsValidatorOf (ajvOpts self) op).
    split; [reflexivity|]. split; [|simpl; tauto].
    unfold bodyValidatorOf.
    destruct (requestBody op) as [rb|]; [|constructor].
    destruct (requestBodySchema rb); repeat constructor.
  - intros id v Hv. apply read_own in Hv.
    apply registered_some in Hv as [Hv | (op & _ & _ & Hv)];
      [rewrite lookup_empty in Hv; discriminate|].
    unfold responseValidatorOf in Hv.
    destruct (declaredResponseSchemas op); [discriminate|].
    injection Hv as <-. simpl. tauto.
Qed.

(** *** Calls and the state they leave *)

Lemma includeRequestBody_throws parsed parameters e :
  includeRequestBody parsed parameters = Throws e -> e = TypeError.
Proof.
  unfold includeRequestBody.
  destruct (Js.typeof_object _); [discriminate|].
  destruct (headers parsed); [|congruence].
  destruct (is_json_content_type _); discriminate.
Qed.

(** X6. An operation with an operationId under which nothing is
    registered is treated differently by the two methods (nothing being
    registered under ['__proto__'] either).  When the registry yields
    [undefined] under the id, [validateRequest] throws a [TypeError] - its
    loop runs over [undefined] - and leaves the instance as it was, while
    [validateResponse] returns [{ valid: true, errors: null }].  When the
    id is the name of a member of [Object.prototype], [validateResponse]
    calls that member: it returns [{ valid: true, errors: null }] when the
    member returns ([constructor], [toString], [isPrototypeOf] on a payload
    that is no object) and throws a [TypeError] when the member does
    ([hasOwnProperty], [valueOf], ['__proto__'], ...). *)
Theorem unregistered_operation self req res operation op :
  Js.truthy_string (operationId op) = true ->
  (resolveRequestOperation self req operation = Some op ->
   requestValidators self !! registryKey op = None ->
   requestValidators self !! "__proto__" = None ->
   Js.inherited (registryKey op) = None ->
   validateRequest self req operation = (Throws TypeError, self))
  /\ (resolveResponseOperation self operation = Some op ->
      responseValidators self !! registryKey op = None ->
      responseValidators self !! "__proto__" = None ->
      validateResponse self res operation
      = (match Js.inherited (registryKey op) with
         | Some member =>
             if Js.call_throws member res then Throws TypeError
             else Returns {| valid := true; errors := None |}
         | None => Returns {| valid := true; errors := None |}
         end, self)).
Proof.
  intros Ht. split.
  - intros Hr Hv _ Hi. unfold validateRequest. rewrite Hr, Ht. simpl.
    unfold getRequestValidatorsForOperation.
    unfold registryKey in Hv, Hi. rewrite (read_unassigned _ _ Hv), Hi.
    destruct (includeRequestBody _ _) as [parameters|e] eqn:Hb.
    + reflexivity.
    + apply includeRequestBody_throws in Hb as ->. reflexivity.
  - intros Hr Hv _. unfold validateResponse. rewrite Hr, Ht. simpl.
    unfold getResponseValidatorForOperation.
    unfold registryKey in *. rewrite (read_unassigned _ _ Hv).
    destruct (Js.inherited _) as [member|]; [|reflexivity].
    destruct (Js.call_throws member res); reflexivity.
Qed.






Lemma sameCompiled_trans s1 s2 s3 :
  sameCompiled s1 s2 -> sameCompiled s2 s3 -> sameCompiled s1 s3.
Proof.
  unfold sameCompiled. intros (?&?&?&?&?) (?&?&?&?&?).
  repeat split; congruence.
Qed.








Lemma malformedBodyErrors_cases op req :
  (malformedBodyErrors op req = []
   /\ ~ (Js.typeof_object (body req) = false
         /\ body req <> Js.Undefined
         /\ payloadFormats op = ["application/json"]
         /\ exists message,
              JSON_parse (Js.to_string (body req)) = Js.SyntaxError message))
  \/ (exists message,
         malformedBodyErrors op req = [parse_error message]
         /\ Js.typeof_object (body req) = false
         /\ body req <> Js.Undefined
         /\ payloadFormats op = ["application/json"]
         /\ JSON_parse (Js.to_string (body req)) = Js.SyntaxError message).
Proof.
  unfold malformedBodyErrors.
  destruct (Js.typeof_object (body req)) eqn:Hobj; simpl.
  { left. split; [reflexivity|]. intros (H & _). discriminate. }
  destruct (Js.is_undefined (body req)) eqn:Hu; simpl.
  { left. split; [reflexivity|]. intros (_ & H & _).
    destruct (body req); try discriminate. congruence. }
  destruct (payloadFormats op) as [|format [|f2 fs]].
  - left. split; [reflexivity|]. intros (_ & _ & H & _). discriminate.
  - destruct (String.eqb_spec format "application/json") as [-> | Hne].
    + destruct (JSON_parse _) as [v | message] eqn:Hp.
      * left. split; [reflexivity|]. intros (_ & _ & _ & m & H). discriminate.
      * right. exists message. repeat split.
        intros Hb. rewrite Hb in Hu. discriminate.
    + left. split; [reflexivity|]. intros (_ & _ & H & _). congruence.
  - left. split; [reflexivity|]. intros (_ & _ & H & _). discriminate.
Qed.

Lemma existsb_schema_keyword es :
  Forall schema_keyword es -> existsb parse_keyword es = false.
Proof.
  induction 1 as [|e es He _ IH]; simpl; [reflexivity|].
  rewrite IH. unfold parse_keyword, schema_keyword in *.
  destruct (String.eqb_spec (Ajv.keyword e) "parse"); [contradiction|].
  reflexivity.
Qed.

(** X11. A result of [validateRequest] holds an error of keyword [parse]
    if and only if the raw body is present and not an object,
    application/json is the only media type of the operation's request
    body, and [JSON.parse] throws on the body's text; it then holds exactly
    one, in first place. *)
Theorem parse_error_iff_malformed self req operation op r self' :
  resolveRequestOperation self req operation = Some op ->
  validateRequest self req operation = (Returns r, self') ->
  ((exists es, errors r = Some es /\ existsb parse_keyword es = true)
   <-> (Js.typeof_object (body req) = false
        /\ body req <> Js.Undefined
        /\ payloadFormats op = ["application/json"]
        /\ exists message,
             JSON_parse (Js.to_string (body req)) = Js.SyntaxError message))
  /\ (forall es, errors r = Some es ->
        existsb parse_keyword es = true ->
        exists message rest,
          es = parse_error message :: rest
          /\ existsb parse_keyword rest = false).
Proof.
  intros Hr. unfold validateRequest. rewrite Hr.
  destruct (negb (Js.truthy_string (operationId op))); [discriminate|].
  destruct (includeRequestBody _ _) as [parameters|]; [|discriminate].
  destruct (getRequestValidatorsForOperation self _) as [vs|f|];
    [|discriminate..].
  pose proof (runValidators_keyword vs (Js.Object parameters)) as Hk.
  destruct (runValidators vs (Js.Object parameters)) as [vs' es].
  simpl in Hk. apply existsb_schema_keyword in Hk.
  intros [= <- _].
  destruct (malformedBodyErrors_cases op req)
    as [[-> Hno] | (message & -> & Hobj & Hdef & Hfmt & Hp)]; simpl.
  - split.
    + split; [|tauto]. intros (es0 & He & Hex).
      destruct es as [|e es]; simpl in He; [discriminate|].
      injection He as <-. congruence.
    + intros es0 He Hex.
      destruct es as [|e es]; simpl in He; [discriminate|].
      injection He as <-. congruence.
  - split.
    + split; [eauto 6|]. intros _. eexists. split; [reflexivity|]. reflexivity.
    + intros es0 [= <-] _. eauto.
Qed.

(** *** The normalisation of the query *)

Lemma get_map_wrapValue op k q :
  Js.get k (map (wrapValue op) q) = wrapped op k (Js.get k q).
Proof.
  induction q as [|[n v] q IH]; simpl; [reflexivity|].
  destruct (String.eqb_spec k n) as [-> | Hne]; [reflexivity | exact IH].
Qed.

Lemma wrapValue_idempotent op entry :
  wrapValue op (wrapValue op entry) = wrapValue op entry.
Proof.
  destruct entry as [n v]. unfold wrapValue.
  destruct v; try reflexivity.
  destruct (declaredAsArray op n); reflexivity.
Qed.

(** X12. On a query object the normalisation keeps the keys and their
    order, replaces a string under a name that the operation declares as an
    array-typed query parameter by the one-element array of that string,
    and leaves every other value as it is; applied a second time it changes
    nothing.  An absent query stays absent. *)
Theorem query_normalisation op q :
  List.NoDup (Js.keys q) ->
  wrapSingularQuery op None = None
  /\ exists q',
       wrapSingularQuery op (Some q) = Some q'
       /\ Js.keys q' = Js.keys q
       /\ (forall k, Js.get k q' = wrapped op k (Js.get k q))
       /\ wrapSingularQuery op (Some q') = Some q'.
Proof.
  intros Hnd. split; [reflexivity|].
  exists (map (wrapValue op) q).
  split; [apply wrapSingularQuery_map; assumption|].
  split; [apply wrapValue_keys|].
  split; [intros k; apply get_map_wrapValue|].
  rewrite wrapSingularQuery_map by (rewrite wrapValue_keys; assumption).
  rewrite map_map. f_equal. apply map_ext. apply wrapValue_idempotent.
Qed.

(** *** When construction succeeds *)

Lemma compile_valid opts s :
  Ajv.compile opts s
  = if Ajv.valid_schema s then Some (fresh opts s) else None.
Proof. reflexivity. Qed.











(** *** Requests the parameter validator rejects *)

Lemma stop_nonempty all es : Ajv.stop all es = true -> es <> [].
Proof.
  unfold Ajv.stop. destruct es; simpl; [|discriminate].
  rewrite andb_false_r. discriminate.
Qed.

Lemma limit_nonempty all es : es <> [] -> Ajv.limit all es <> [].
Proof.
  unfold Ajv.limit. destruct all; [tauto|].
  destruct es; simpl; [tauto | discriminate].
Qed.

Lemma app_nonempty_r {A} (l1 l2 : list A) : l2 <> [] -> (l1 ++ l2)%list <> [].
Proof. destruct l1, l2; simpl; congruence. Qed.

Lemma app_nonempty_l {A} (l1 l2 : list A) : l1 <> [] -> (l1 ++ l2)%list <> [].
Proof. destruct l1; simpl; congruence. Qed.

Lemma get_set_other k k' (v : Js.value) o :
  k <> k' -> Js.get k (Js.set k' v o) = Js.get k o.
Proof.
  intros Hne. induction o as [|[k0 v0] o IH]; simpl.
  - destruct (String.eqb_spec k k'); [contradiction | reflexivity].
  - destruct (String.eqb_spec k' k0) as [<- | Hne0]; simpl.
    + destruct (String.eqb_spec k k'); [contradiction | reflexivity].
    + rewrite IH. reflexivity.
Qed.

Lemma has_key_In {A} k (o : list (string * A)) :
  Js.has_key k o = true <-> In k (Js.keys o).
Proof.
  induction o as [|[k0 v0] o IH]; simpl; [split; [discriminate | tauto]|].
  rewrite orb_true_iff, IH.
  destruct (String.eqb_spec k k0) as [-> | Hne]; intuition congruence.
Qed.

Lemma mem_In k l : Ajv.mem k l = true <-> In k l.
Proof.
  unfold Ajv.mem. rewrite existsb_exists. split.
  - intros (x & Hin & Heq). apply String.eqb_eq in Heq. congruence.
  - intros Hin. exists k. rewrite String.eqb_refl. tauto.
Qed.

Lemma lookup_In {A} n (v : A) o : Js.lookup n o = Some v -> In (n, v) o.
Proof.
  induction o as [|[k w] o IH]; simpl; [discriminate|].
  destruct (String.eqb_spec n k) as [-> | Hne].
  - intros [= ->]. tauto.
  - tauto.
Qed.

Section ObjectFailure.
Context {A : Type} (has_rules : A -> bool).
Context (child : A -> string -> string -> Js.value
                 -> list Ajv.ErrorObject * Js.value).
Variable all : bool.
Variable required : list string.
Variables dp sp : string.

(** The loop over the properties writes only under their names. *)
Lemma eval_properties_get props o k :
  ~ In k (Js.keys props) ->
  Js.get k (snd (Ajv.eval_properties has_rules child all required dp sp props o))
  = Js.get k o.
Proof.
  revert o. induction props as [|[k0 a0] props IH]; intros o Hk.
  - reflexivity.
  - assert (Hne : k <> k0) by (intros ->; apply Hk; left; reflexivity).
    assert (Hk' : ~ In k (Js.keys props))
      by (intros Hin; apply Hk; right; exact Hin).
    cbn [Ajv.eval_properties].
    destruct (has_rules a0).
    + destruct (Ajv.missing o k0).
      * destruct (Ajv.stop all _); [reflexivity|].
        specialize (IH o Hk').
        destruct (Ajv.eval_properties _ _ _ _ _ _ props o). exact IH.
      * destruct (child a0 _ _ _) as [es v'].
        destruct (Ajv.stop all es); cbn [snd];
          [apply get_set_other; assumption|].
        specialize (IH (Js.set k0 v' o) Hk').
        destruct (Ajv.eval_properties _ _ _ _ _ _ props _). cbn [snd] in *.
        rewrite IH. apply get_set_other. assumption.
    + destruct (Ajv.stop all []); [reflexivity|].
      specialize (IH o Hk').
      destruct (Ajv.eval_properties _ _ _ _ _ _ props o). exact IH.
Qed.

Lemma eval_properties_fails props o k a :
  List.NoDup (Js.keys props) -> In (k, a) props ->
  has_rules a = true ->
  (Ajv.missing o k = true /\ Ajv.mem k required = true)
  \/ (Ajv.missing o k = false
      /\ fst (child a (dp ++ Ajv.getProperty k)
                      (sp ++ "/properties/" ++ Ajv.escapeFragment k)
                      (Js.get k o)) <> []) ->
  fst (Ajv.eval_properties has_rules child all required dp sp props o) <> [].
Proof.
  revert o. induction props as [|[k0 a0] props IH]; intros o Hnd Hin Hr Hf;
    [contradiction|].
  inversion Hnd as [|? ? Hnot Hnd']; subst.
  cbn [Ajv.eval_properties].
  destruct Hin as [[= -> ->] | Hin].
  - rewrite Hr. destruct Hf as [(Hm & Hreq) | (Hm & Hc)]; rewrite Hm.
    + rewrite Hreq. destruct (Ajv.stop all _); cbn [fst]; [discriminate|].
      destruct (Ajv.eval_properties _ _ _ _ _ _ props o). cbn [fst].
      discriminate.
    + destruct (child a _ _ _) as [es v']. cbn [fst] in Hc.
      destruct (Ajv.stop all es); cbn [fst]; [assumption|].
      destruct (Ajv.eval_properties _ _ _ _ _ _ props _). cbn [fst].
      apply app_nonempty_l. assumption.
  - assert (Hne : k <> k0).
    { intros ->. apply Hnot. apply (in_map fst) in Hin. exact Hin. }
    assert (Hstep : forall v,
               (Ajv.missing (Js.set k0 v o) k = true
                /\ Ajv.mem k required = true)
               \/ (Ajv.missing (Js.set k0 v o) k = false
                   /\ fst (child a (dp ++ Ajv.getProperty k)
                                   (sp ++ "/properties/" ++ Ajv.escapeFragment k)
                                   (Js.get k (Js.set k0 v o))) <> [])).
    { intros v. unfold Ajv.missing in *.
      rewrite get_set_other by assumption. exact Hf. }
    destruct (has_rules a0).
    + destruct (Ajv.missing o k0).
      * destruct (Ajv.stop all _) eqn:Hs; cbn [fst].
        -- apply stop_nonempty in Hs. assumption.
        -- specialize (IH o Hnd' Hin Hr Hf).
           destruct (Ajv.eval_properties _ _ _ _ _ _ props o). cbn [fst] in *.
           apply app_nonempty_r. assumption.
      * destruct (child a0 _ _ _) as [es v'].
        destruct (Ajv.stop all es) eqn:Hs; cbn [fst].
        -- apply stop_nonempty in Hs. assumption.
        -- specialize (IH (Js.set k0 v' o) Hnd' Hin Hr (Hstep v')).
           destruct (Ajv.eval_properties _ _ _ _ _ _ props _). cbn [fst] in *.
           apply app_nonempty_r. assumption.
    + destruct (Ajv.stop all []) eqn:Hs; cbn [fst].
      * apply stop_nonempty in Hs. congruence.
      * specialize (IH o Hnd' Hin Hr Hf).
        destruct (Ajv.eval_properties _ _ _ _ _ _ props o). cbn [fst] in *.
        assumption.
Qed.

(** An object schema leaves an object an object, and writes only under the
    names of its properties. *)
Lemma eval_object_get addl props o :
  exists o',
    snd (Ajv.eval_object has_rules child all required dp sp addl props
           (Js.Object o)) = Js.Object o'
    /\ forall k, ~ In k (Js.keys props) -> Js.get k o' = Js.get k o.
Proof.
  unfold Ajv.eval_object.
  set (e_req := Ajv.limit all
                  (map (fun k => Ajv.required_error dp sp
                                   (Ajv.missing_name all k)) _)).
  set (e_add := if addl then [] else _).
  destruct (Ajv.stop all e_req); [exists o; split; [reflexivity | tauto]|].
  destruct (Ajv.stop all e_add); [exists o; split; [reflexivity | tauto]|].
  pose proof (eval_properties_get props o) as Hg.
  destruct (Ajv.eval_properties _ _ _ _ _ _ props o) as [es o'].
  exists o'. split; [reflexivity | exact Hg].
Qed.

Lemma eval_object_property_fails addl props o k a :
  List.NoDup (Js.keys props) -> In (k, a) props ->
  has_rules a = true ->
  (Ajv.missing o k = true /\ Ajv.mem k required = true)
  \/ (Ajv.missing o k = false
      /\ fst (child a (dp ++ Ajv.getProperty k)
                      (sp ++ "/properties/" ++ Ajv.escapeFragment k)
                      (Js.get k o)) <> []) ->
  fst (Ajv.eval_object has_rules child all required dp sp addl props
         (Js.Object o)) <> [].
Proof.
  intros Hnd Hin Hr Hf. unfold Ajv.eval_object.
  set (e_req := Ajv.limit all
                  (map (fun k => Ajv.required_error dp sp
                                   (Ajv.missing_name all k)) _)).
  set (e_add := if addl then [] else _).
  destruct (Ajv.stop all e_req) eqn:Hs1;
    [apply stop_nonempty in Hs1; assumption|].
  destruct (Ajv.stop all e_add) eqn:Hs2.
  { apply stop_nonempty in Hs2. cbn [fst]. apply app_nonempty_r. assumption. }
  pose proof (eval_properties_fails props o k a Hnd Hin Hr Hf) as Hp.
  destruct (Ajv.eval_properties _ _ _ _ _ _ props o) as [es o']. cbn [fst] in *.
  apply app_nonempty_r, app_nonempty_r. assumption.
Qed.

(** A required name without rules of its own, missing from the object. *)
Lemma eval_object_required_fails addl props o k :
  In k required -> Ajv.missing o k = true ->
  match Js.lookup k props with
  | Some a => has_rules a = false
  | None => True
  end ->
  fst (Ajv.eval_object has_rules child all required dp sp addl props
         (Js.Object o)) <> [].
Proof.
  intros Hin Hm Hl. unfold Ajv.eval_object.
  set (e_req := Ajv.limit all
                  (map (fun k => Ajv.required_error dp sp
                                   (Ajv.missing_name all k)) _)).
  set (e_add := if addl then [] else _).
  assert (Hreq : e_req <> []).
  { apply limit_nonempty. intros Hnil.
    apply map_eq_nil in Hnil.
    assert (Hk : In k (List.filter
                         (fun k0 => negb match Js.lookup k0 props with
                                         | Some a => has_rules a
                                         | None => false
                                         end && Ajv.missing o k0) required)).
    { apply List.filter_In. split; [assumption|]. rewrite Hm.
      destruct (Js.lookup k props); [rewrite Hl|]; reflexivity. }
    rewrite Hnil in Hk. contradiction. }
  destruct (Ajv.stop all e_req); [assumption|].
  destruct (Ajv.stop all e_add); cbn [fst]; [apply app_nonempty_l; assumption|].
  destruct (Ajv.eval_properties _ _ _ _ _ _ props o). cbn [fst].
  apply app_nonempty_l. assumption.
Qed.

(** A closed object schema on an object with a key it does not list. *)
Lemma eval_object_additional_fails props o k :
  In k (Js.keys o) -> ~ In k (Js.keys props) ->
  fst (Ajv.eval_object has_rules child all required dp sp false props
         (Js.Object o)) <> [].
Proof.
  intros Hk Hnot. unfold Ajv.eval_object.
  set (e_req := Ajv.limit all
                  (map (fun k => Ajv.required_error dp sp
                                   (Ajv.missing_name all k)) _)).
  set (e_add := Ajv.limit all (map (Ajv.additional_error dp sp) _)).
  assert (Hadd : e_add <> []).
  { apply limit_nonempty. intros Hnil. apply map_eq_nil in Hnil.
    assert (Hin : In k (List.filter (fun k0 => negb (Js.has_key k0 props))
                                    (Js.keys o))).
    { apply List.filter_In. split; [assumption|].
      destruct (Js.has_key k props) eqn:Hh; [|reflexivity].
      apply has_key_In in Hh. contradiction. }
    rewrite Hnil in Hin. contradiction. }
  destruct (Ajv.stop all e_req) eqn:Hs1;
    [apply stop_nonempty in Hs1; assumption|].
  destruct (Ajv.stop all e_add); cbn [fst]; [apply app_nonempty_r; assumption|].
  destruct (Ajv.eval_properties _ _ _ _ _ _ props o). cbn [fst].
  apply app_nonempty_r, app_nonempty_l. assumption.
Qed.

End ObjectFailure.

(** The parameter schema rejects an object in which a location fails: it is
    missing and required, or it is an object its sub-schema rejects. *)
Lemma params_schema_fails opts op o l :
  (Js.get (location_name l) o = Js.Undefined
   /\ In (location_name l) (requiredLocations (parameters op)))
  \/ (exists q,
         Js.get (location_name l) o = Js.Object q
         /\ forall dp sp,
              fst (Ajv.eval_location opts (locationSchemaOf (parameters op) l)
                     dp sp (Js.Object q)) <> []) ->
  fst (Ajv.eval_schema opts (Ajv.SObject (paramsSchemaOf op)) (Js.Object o))
  <> [].
Proof.
  intros H. rewrite paramsSchemaOf_form. unfold Ajv.eval_schema.
  cbn [Ajv.required Ajv.additionalProperties Ajv.properties].
  apply (eval_object_property_fails Ajv.property_has_rules
           (Ajv.eval_property opts) (Ajv.allErrors opts)
           (requiredLocations (parameters op)) "" "#" true _ o
           (location_name l)
           (Ajv.Location (locationSchemaOf (parameters op) l))).
  - cbn. repeat constructor; cbn; intuition discriminate.
  - destruct l; cbn; tauto.
  - reflexivity.
  - destruct H as [(Hg & Hin) | (q & Hg & Hq)].
    + left. unfold Ajv.missing. rewrite Hg. split; [reflexivity|].
      apply mem_In. assumption.
    + right. unfold Ajv.missing. rewrite Hg. split; [reflexivity|].
      cbn [Ajv.eval_property]. apply Hq.
Qed.

Lemma locationRequired_In ps l p :
  In p ps -> param_in p = l -> param_required p = true ->
  In (param_name p) (locationRequired ps l).
Proof.
  intros Hin Hl Hr. unfold locationRequired. apply in_map.
  apply List.filter_In. split; [assumption|].
  rewrite Hr, andb_true_r. apply location_eqb_eq. assumption.
Qed.

(** A location object without a value for a required parameter. *)
Lemma location_fails_missing opts ps l q p dp sp :
  In p ps -> param_in p = l -> param_required p = true ->
  Js.get (param_name p) q = Js.Undefined ->
  fst (Ajv.eval_location opts (locationSchemaOf ps l) dp sp (Js.Object q)) <> [].
Proof.
  intros Hin Hl Hr Hg. unfold Ajv.eval_location.
  cbn [locationSchemaOf Ajv.loc_required Ajv.loc_properties].
  pose proof (locationRequired_In ps l p Hin Hl Hr) as Hreq.
  assert (Hm : Ajv.missing q (param_name p) = true)
    by (unfold Ajv.missing; rewrite Hg; reflexivity).
  destruct (Js.lookup (param_name p) (locationProperties ps l)) as [a|] eqn:Hlk.
  - destruct (Ajv.optional_has_rules a) eqn:Hrules.
    + apply (eval_object_property_fails Ajv.optional_has_rules
               (Ajv.eval_optional opts) (Ajv.allErrors opts)
               (locationRequired ps l) dp sp _ _ q (param_name p) a).
      * apply locationProperties_NoDup.
      * apply lookup_In. assumption.
      * assumption.
      * left. split; [assumption | apply mem_In; assumption].
    + apply eval_object_required_fails with (k := param_name p);
        [assumption | assumption | rewrite Hlk; assumption].
  - apply eval_object_required_fails with (k := param_name p);
      [assumption | assumption | rewrite Hlk; exact I].
Qed.

(** A path or query object with a key no parameter declares. *)
Lemma location_fails_undeclared opts ps l q k dp sp :
  l = InPath \/ l = InQuery ->
  In k (Js.keys q) ->
  (forall p, In p ps -> ~ (param_in p = l /\ param_name p = k)) ->
  fst (Ajv.eval_location opts (locationSchemaOf ps l) dp sp (Js.Object q)) <> [].
Proof.
  intros Hl Hk Hno. unfold Ajv.eval_location.
  assert (Hclosed : Ajv.loc_additionalProperties (locationSchemaOf ps l) = false)
    by (destruct Hl as [-> | ->]; reflexivity).
  rewrite Hclosed. cbn [locationSchemaOf Ajv.loc_required Ajv.loc_properties].
  apply eval_object_additional_fails with (k := k); [assumption|].
  rewrite locationProperties_In. intros (p & Hin & Hpl & Hpn).
  apply (Hno p Hin). tauto.
Qed.

Lemma finish_invalid es1 es2 :
  es2 <> [] ->
  exists es, finish (es1 ++ es2)%list = {| valid := false; errors := Some es |}.
Proof.
  intros Hne. destruct (es1 ++ es2)%list as [|e es] eqn:He.
  - apply app_eq_nil in He as [_ He]. contradiction.
  - eexists. reflexivity.
Qed.

Lemma bodyValidatorOf_cases opts op :
  bodyValidatorOf opts op = []
  \/ exists s schema,
       bodyValidatorOf opts op = [fresh opts (Ajv.SObject s)]
       /\ Ajv.properties s = [("requestBody", Ajv.Author schema)].
Proof.
  unfold bodyValidatorOf.
  destruct (requestBody op) as [rb|]; [|tauto].
  unfold requestBodySchema.
  destruct (Js.lookup _ _) as [media|]; [|tauto].
  destruct (media_schema media) as [schema|]; [|tauto].
  right. do 2 eexists. split; reflexivity.
Qed.

(** The body validator hands the parameter validator an object with the
    same locations. *)
Lemma body_validator_keeps_locations opts s schema parameters :
  Ajv.properties s = [("requestBody", Ajv.Author schema)] ->
  exists o',
    snd (Ajv.call (fresh opts (Ajv.SObject s)) (Js.Object parameters))
    = Js.Object o'
    /\ forall k, k <> "requestBody" -> Js.get k o' = Js.get k parameters.
Proof.
  intros Hp. unfold Ajv.call. cbn [fresh Ajv.vf_options Ajv.vf_schema].
  unfold Ajv.eval_schema. rewrite Hp.
  destruct (eval_object_get Ajv.property_has_rules (Ajv.eval_property opts)
              (Ajv.allErrors opts) (Ajv.required s) "" "#"
              (Ajv.additionalProperties s)
              [("requestBody", Ajv.Author schema)] parameters)
    as (o' & Ho' & Hg).
  destruct (Ajv.eval_object _ _ _ _ _ _ _ _ _) as [es d]. cbn [snd] in *.
  exists o'. split; [assumption|].
  intros k Hk. apply Hg. cbn. intros [Heq | []]. congruence.
Qed.

(** A request is invalid as soon as the parameter schema rejects every
    object with the locations of the assembled input. *)
Lemma invalid_when_parameters_fail opts self op operation req parameters :
  constructor opts = Returns self ->
  uniqueOperationIds (getOperations (router self)) ->
  In op (getOperations (router self)) ->
  Js.truthy_string (operationId op) = true ->
  resolveRequestOperation self req operation = Some op ->
  includeRequestBody (parseRequest (router self) req (Some (path op)))
    (requestParameters op (parseRequest (router self) req (Some (path op))))
  = Returns parameters ->
  (forall o',
      (forall k, k <> "requestBody" -> Js.get k o' = Js.get k parameters) ->
      fst (Ajv.eval_schema (Ajv.with_coercion (ajvOpts self))
             (Ajv.SObject (paramsSchemaOf op)) (Js.Object o')) <> []) ->
  exists es,
    fst (validateRequest self req operation)
    = Returns {| valid := false; errors := Some es |}.
Proof.
  intros Hc Hu Hin Ht Hr Hi Hfail.
  erewrite validateRequest_registered;
    [| eassumption | assumption
     | unfold getRequestValidatorsForOperation; apply read_assigned;
       apply (constructed_request_entry opts); assumption
     | exact Hi].
  cbn [fst]. unfold requestValidatorsOf.
  assert (Hpv : forall o',
             (forall k, k <> "requestBody" -> Js.get k o' = Js.get k parameters) ->
             snd (runValidators [paramsValidatorOf (ajvOpts self) op]
                    (Js.Object o')) <> []).
  { intros o' Ho'. cbn [runValidators].
    pose proof (errors_of_call (paramsValidatorOf (ajvOpts self) op)
                               (Js.Object o')) as He.
    destruct (Ajv.call _ (Js.Object o')) as [v' d']. cbn [fst snd] in *.
    rewrite app_nil_r, He. apply Hfail. assumption. }
  destruct (bodyValidatorOf_cases (ajvOpts self) op)
    as [-> | (s & schema & -> & Hp)]; cbn [app].
  - destruct (finish_invalid (malformedBodyErrors op req)
                (snd (runValidators [paramsValidatorOf (ajvOpts self) op]
                        (Js.Object parameters)))) as [es ->];
      [apply Hpv; reflexivity | eauto].
  - cbn [runValidators].
    destruct (body_validator_keeps_locations (ajvOpts self) s schema
                parameters Hp) as (o' & Ho' & Hg).
    destruct (Ajv.call (fresh (ajvOpts self) (Ajv.SObject s))
                       (Js.Object parameters)) as [bv' d1].
    cbn [snd] in Ho'. subst d1.
    specialize (Hpv o' Hg). cbn [runValidators] in Hpv.
    destruct (Ajv.call (paramsValidatorOf (ajvOpts self) op) (Js.Object o'))
      as [pv' d2].
    cbn [fst snd] in *.
    destruct (finish_invalid (malformedBodyErrors op req)
                (errors_of bv' ++ errors_of pv' ++ [])%list) as [es ->];
      [apply app_nonempty_r; assumption | eauto].
Qed.

(** X14. A request that leaves out a required parameter is invalid: when
    the assembled input has no object for the parameter's location, or that
    object has no value under the parameter's name, [validateRequest]
    returns [valid: false] with a non-empty list of errors.  (The name is
    not one that every object inherits from [Object.prototype]: Ajv tests
    [data[name] === undefined], which such a name never satisfies.) *)
Theorem missing_required_parameter_invalid opts self op operation req input p :
  constructor opts = Returns self ->
  uniqueOperationIds (getOperations (router self)) ->
  In op (getOperations (router self)) ->
  Js.truthy_string (operationId op) = true ->
  resolveRequestOperation self req operation = Some op ->
  includeRequestBody (parseRequest (router self) req (Some (path op)))
    (requestParameters op (parseRequest (router self) req (Some (path op))))
  = Returns input ->
  In p (parameters op) ->
  param_required p = true ->
  Js.inherited (param_name p) = None ->
  (Js.get (location_name (param_in p)) input = Js.Undefined
   \/ exists q,
        Js.get (location_name (param_in p)) input = Js.Object q
        /\ Js.get (param_name p) q = Js.Undefined) ->
  exists e es,
    fst (validateRequest self req operation)
    = Returns {| valid := false; errors := Some (e :: es) |}.
Proof.
  intros Hc Hu Hin Ht Hr Hi Hp Hreq _ Hmiss.
  destruct (invalid_when_parameters_fail opts self op operation req input
              Hc Hu Hin Ht Hr Hi) as [es Hes].
  - intros o' Ho'.
    assert (Hloc : location_name (param_in p) <> "requestBody")
      by (destruct (param_in p); discriminate).
    apply params_schema_fails with (l := param_in p).
    rewrite (Ho' _ Hloc).
    destruct Hmiss as [Hg | (q & Hg & Hq)].
    + left. split; [assumption|].
      apply requiredLocations_In. exists p. tauto.
    + right. exists q. split; [assumption|]. intros dp sp.
      apply location_fails_missing with (p := p); auto.
  - pose proof Hes as Hshape.
    destruct (validateRequest self req operation) as [out self'] eqn:Hv.
    cbn [fst] in *. subst out.
    apply validateRequest_returns in Hv as [es0 Hv].
    destruct es0 as [|e es0]; [discriminate|].
    injection Hv as ->. eauto.
Qed.

(** X15. A request with an undeclared path or query key is invalid: when
    the path or query object of the assembled input has a key that is not
    the name of a parameter the operation declares in that location,
    [validateRequest] returns [valid: false] with a non-empty list of
    errors. *)
Theorem undeclared_key_invalid opts self op operation req input l q k :
  constructor opts = Returns self ->
  uniqueOperationIds (getOperations (router self)) ->
  In op (getOperations (router self)) ->
  Js.truthy_string (operationId op) = true ->
  resolveRequestOperation self req operation = Some op ->
  includeRequestBody (parseRequest (router self) req (Some (path op)))
    (requestParameters op (parseRequest (router self) req (Some (path op))))
  = Returns input ->
  l = InPath \/ l = InQuery ->
  Js.get (location_name l) input = Js.Object q ->
  In k (Js.keys q) ->
  (forall p, In p (parameters op) -> ~ (param_in p = l /\ param_name p = k)) ->
  exists e es,
    fst (validateRequest self req operation)
    = Returns {| valid := false; errors := Some (e :: es) |}.
Proof.
  intros Hc Hu Hin Ht Hr Hi Hl Hg Hk Hno.
  destruct (invalid_when_parameters_fail opts self op operation req input
              Hc Hu Hin Ht Hr Hi) as [es Hes].
  - intros o' Ho'.
    assert (Hloc : location_name l <> "requestBody")
      by (destruct l; discriminate).
    apply params_schema_fails with (l := l).
    rewrite (Ho' _ Hloc). right. exists q. split; [assumption|].
    intros dp sp. apply location_fails_undeclared with (k := k); assumption.
  - destruct (validateRequest self req operation) as [out self'] eqn:Hv.
    cbn [fst] in *. subst out.
    apply validateRequest_returns in Hv as [es0 Hv].
    destruct es0 as [|e es0]; [discriminate|].
    injection Hv as ->. eauto.
Qed.

(** *** The request body and the parameter validator *)

Lemma get_app_other k kx (vx : Js.value) o :
  k <> kx -> Js.get k (o ++ [(kx, vx)])%list = Js.get k o.
Proof.
  intros Hne. induction o as [|[k0 v0] o IH]; simpl.
  - destruct (String.eqb_spec k kx); [contradiction | reflexivity].
  - rewrite IH. reflexivity.
Qed.

Lemma get_defined_key k o : Js.get k o <> Js.Undefined -> In k (Js.keys o).
Proof.
  induction o as [|[k0 v0] o IH]; simpl; [congruence|].
  destruct (String.eqb_spec k k0) as [-> | Hne]; [tauto|]. auto.
Qed.

Lemma set_app_present k (v x : Js.value) kx o :
  In k (Js.keys o) ->
  Js.set k v (o ++ [(kx, x)])%list = (Js.set k v o ++ [(kx, x)])%list.
Proof.
  induction o as [|[k0 v0] o IH]; simpl; [contradiction|].
  destruct (String.eqb_spec k k0) as [-> | Hne]; [reflexivity|].
  intros [Heq | Hin]; [congruence|]. rewrite IH by assumption. reflexivity.
Qed.

Lemma missing_false_key o k : Ajv.missing o k = false -> In k (Js.keys o).
Proof.
  unfold Ajv.missing. intros Hm. apply get_defined_key.
  intros Hu. rewrite Hu in Hm. discriminate.
Qed.

Section ExtraKey.
Context {A : Type} (has_rules : A -> bool).
Context (child : A -> string -> string -> Js.value
                 -> list Ajv.ErrorObject * Js.value).
Variable all : bool.
Variable required : list string.
Variables dp sp : string.
Variable kx : string.
Variable vx : Js.value.

(** A key that is no property of the schema passes through the loop over
    the properties and does not change its errors. *)
Lemma eval_properties_extra props o :
  ~ In kx (Js.keys props) ->
  Ajv.eval_properties has_rules child all required dp sp props
    (o ++ [(kx, vx)])%list
  = (fst (Ajv.eval_properties has_rules child all required dp sp props o),
     (snd (Ajv.eval_properties has_rules child all required dp sp props o)
      ++ [(kx, vx)])%list).
Proof.
  revert o. induction props as [|[k0 a0] props IH]; intros o Hk.
  - reflexivity.
  - assert (Hne : k0 <> kx) by (intros ->; apply Hk; left; reflexivity).
    assert (Hk' : ~ In kx (Js.keys props))
      by (intros Hin; apply Hk; right; exact Hin).
    cbn [Ajv.eval_properties].
    assert (Hm : Ajv.missing (o ++ [(kx, vx)])%list k0 = Ajv.missing o k0)
      by (unfold Ajv.missing; rewrite get_app_other by assumption; reflexivity).
    rewrite Hm, (get_app_other k0 kx vx o Hne).
    destruct (has_rules a0).
    + destruct (Ajv.missing o k0) eqn:Hmiss.
      * destruct (Ajv.stop all _); [reflexivity|].
        rewrite (IH o Hk').
        destruct (Ajv.eval_properties _ _ _ _ _ _ props o). reflexivity.
      * destruct (child a0 _ _ _) as [es v'].
        rewrite set_app_present by (apply missing_false_key; assumption).
        destruct (Ajv.stop all es); [reflexivity|].
        rewrite (IH _ Hk').
        destruct (Ajv.eval_properties _ _ _ _ _ _ props _). reflexivity.
    + destruct (Ajv.stop all []); [reflexivity|].
      rewrite (IH o Hk').
      destruct (Ajv.eval_properties _ _ _ _ _ _ props o). reflexivity.
Qed.

(** So an open object schema reports the same errors with or without a key
    that it neither lists nor requires. *)
Lemma eval_object_extra props o :
  ~ In kx (Js.keys props) -> ~ In kx required ->
  fst (Ajv.eval_object has_rules child all required dp sp true props
         (Js.Object (o ++ [(kx, vx)])%list))
  = fst (Ajv.eval_object has_rules child all required dp sp true props
           (Js.Object o)).
Proof.
  intros Hk Hreq. unfold Ajv.eval_object.
  assert (Hf : List.filter
                 (fun k => negb match Js.lookup k props with
                                | Some a => has_rules a
                                | None => false
                                end && Ajv.missing (o ++ [(kx, vx)])%list k)
                 required
               = List.filter
                   (fun k => negb match Js.lookup k props with
                                  | Some a => has_rules a
                                  | None => false
                                  end && Ajv.missing o k)
                   required).
  { apply List.filter_ext_in. intros k Hin.
    assert (Hne : k <> kx) by (intros ->; contradiction).
    unfold Ajv.missing. rewrite get_app_other by assumption. reflexivity. }
  rewrite Hf.
  destruct (Ajv.stop all _); [reflexivity|].
  destruct (Ajv.stop all []); [reflexivity|].
  rewrite eval_properties_extra by assumption.
  destruct (Ajv.eval_properties _ _ _ _ _ _ props o). reflexivity.
Qed.

End ExtraKey.

(** X16. For an operation without a JSON request-body schema the request
    body plays no part in validation: whether or not it was attached to the
    validated object, the result is the error of the JSON check, if any,
    followed by the errors of the parameter schema on the locations alone. *)
Theorem body_ignored_without_body_schema opts self op operation req input :
  constructor opts = Returns self ->
  uniqueOperationIds (getOperations (router self)) ->
  In op (getOperations (router self)) ->
  Js.truthy_string (operationId op) = true ->
  (requestBody op = None
   \/ exists declared, requestBody op = Some declared
                       /\ requestBodySchema declared = None) ->
  resolveRequestOperation self req operation = Some op ->
  includeRequestBody (parseRequest (router self) req (Some (path op)))
    (requestParameters op (parseRequest (router self) req (Some (path op))))
  = Returns input ->
  fst (validateRequest self req operation)
  = Returns
      (finish
         (malformedBodyErrors op req
          ++ fst (Ajv.eval_schema (Ajv.with_coercion (ajvOpts self))
                    (Ajv.SObject (paramsSchemaOf op))
                    (Js.Object
                       (requestParameters op
                          (parseRequest (router self) req (Some (path op)))))))%list).
Proof.
  intros Hc Hu Hin Ht Hnb Hr Hi.
  erewrite validateRequest_registered;
    [| eassumption | assumption
     | unfold getRequestValidatorsForOperation; apply read_assigned;
       apply (constructed_request_entry opts); assumption
     | exact Hi].
  cbn [fst].
  assert (Hb : bodyValidatorOf (ajvOpts self) op = []).
  { unfold bodyValidatorOf.
    destruct Hnb as [-> | (declared & -> & ->)]; reflexivity. }
  unfold requestValidatorsOf. rewrite Hb. cbn [app runValidators].
  pose proof (errors_of_call (paramsValidatorOf (ajvOpts self) op)
                             (Js.Object input)) as He.
  destruct (Ajv.call _ (Js.Object input)) as [validate' d].
  cbn [fst snd] in *. rewrite app_nil_r, He.
  cbn [paramsValidatorOf fresh Ajv.vf_options Ajv.vf_schema].
  apply includeRequestBody_returns in Hi as (b & -> & _).
  destruct b as [v|]; [|rewrite app_nil_r; reflexivity].
  do 3 f_equal.
  rewrite paramsSchemaOf_form. unfold Ajv.eval_schema.
  cbn [Ajv.required Ajv.additionalProperties Ajv.properties].
  apply eval_object_extra.
  - cbn. intuition discriminate.
  - rewrite requiredLocations_In. intros (p & _ & _ & Hl).
    destruct (param_in p); discriminate.
Qed.

(** *** A single response schema *)

Lemma eval_oneOf_single opts schema d :
  fst (Ajv.eval_oneOf opts "" "#" [schema] d)
  = match fst (Ajv.evaluate opts schema d) with
    | [] => []
    | es => (map (Ajv.relocate "" "#/oneOf/0") es
             ++ [Ajv.oneOf_error "" "#" Js.Null])%list
    end.
Proof.
  unfold Ajv.eval_oneOf. cbn [Ajv.eval_branches]. unfold Ajv.eval_author.
  destruct (Ajv.evaluate opts schema d) as [[|e es] d']; cbn.
  - reflexivity.
  - rewrite app_nil_r. reflexivity.
Qed.

(** X17. When an operation declares exactly one JSON response schema,
    [validateResponse] is valid exactly when the payload matches that
    schema, whatever the options; otherwise it reports the schema's errors,
    placed under ['#/oneOf/0'], followed by one error of keyword [oneOf]
    with [passingSchemas: null]. *)
Theorem single_response_schema opts self op operation res schema :
  constructor opts = Returns self ->
  uniqueOperationIds (getOperations (router self)) ->
  In op (getOperations (router self)) ->
  Js.truthy_string (operationId op) = true ->
  declaredResponseSchemas op = [schema] ->
  resolveResponseOperation self operation = Some op ->
  fst (validateResponse self res operation)
  = Returns
      match fst (Ajv.evaluate (ajvOpts self) schema res) with
      | [] => {| valid := true; errors := None |}
      | es =>
          {| valid := false;
             errors :=
               Some (map (Ajv.relocate "" "#/oneOf/0") es
                     ++ [{| Ajv.keyword := "oneOf";
                            Ajv.dataPath := "";
                            Ajv.schemaPath := "#/oneOf";
                            Ajv.params :=
                              Js.Object [("passingSchemas", Js.Null)];
                            Ajv.message :=
                              "should match exactly one schema in oneOf" |}])%list |}
      end.
Proof.
  intros Hc Hu Hin Ht Hs Hr.
  assert (Hv : getResponseValidatorForOperation self (registryKey op)
               = Js.Own (fresh (ajvOpts self) (Ajv.SOneOf [schema]))).
  { unfold getResponseValidatorForOperation. apply read_assigned.
    rewrite (constructed_response_entry opts) by assumption.
    unfold responseValidatorOf. rewrite Hs. reflexivity. }
  rewrite (validateResponse_registered self res operation op _ Hr Ht Hv).
  cbn [fresh Ajv.vf_options Ajv.vf_schema Ajv.eval_schema].
  rewrite eval_oneOf_single.
  destruct (fst (Ajv.evaluate (ajvOpts self) schema res)) as [|e es];
    reflexivity.
Qed.

End Further.

(* ===================================================================== *)
(** ** The statements at concrete inputs *)
(* ===================================================================== *)

Module Checks.
Import Example.

Lemma listing : getOperations (router validator) = api.
Proof. reflexivity. Qed.

Lemma unique_ids : uniqueOperationIds (getOperations (router validator)).
Proof.
  rewrite listing. unfold uniqueOperationIds. simpl.
  repeat constructor; simpl; intuition discriminate.
Qed.

(** C3 at GET /ping?foo=bar, which the validator rejects with one error. *)
Lemma result_valid_iff_no_errors_witness :
  let r := {| valid := false;
              errors := Some [Ajv.additional_error ".query" "#/properties/query" "foo"] |} in
  (valid r = false <-> exists e es, errors r = Some (e :: es))
  /\ (valid r = true <-> errors r = None)
  /\ errors r <> Some [].
Proof.
  apply (result_valid_iff_no_errors validator getPingFoo Js.Null Omitted _
           (snd (validateRequest validator getPingFoo Omitted))).
  left. reflexivity.
Defined.

(** C7 at a request no operation matches, at an unknown operationId and at
    an operation without operationId. *)
Lemma unknown_operation_throws_witness :
  validateRequest validator (request "get" "/nowhere" None Js.Undefined) Omitted
  = (Throws (Error "Unknown operation"), validator)
  /\ validateResponse validator Js.Null (ById "nowhere")
     = (Throws (Error "Unknown operation"), validator)
  /\ validateResponse validator Js.Null (Given anonymous)
     = (Throws (Error "Unknown operation"), validator).
Proof.
  split; [|split].
  - apply (proj1 (unknown_operation_throws validator
                    (request "get" "/nowhere" None Js.Undefined) Js.Null Omitted)).
    exact I.
  - apply (proj2 (unknown_operation_throws validator getPing Js.Null
                    (ById "nowhere"))).
    exact I.
  - apply (proj2 (unknown_operation_throws validator getPing Js.Null
                    (Given anonymous))).
    reflexivity.
Defined.

(** C8 at POST /pets: a body validator, then the parameter validator, and
    a response validator. *)
Lemma registry_entry_shape_witness :
  (exists paramsValidator,
      isParamsValidator paramsValidator = true
      /\ isBodyValidator paramsValidator = false
      /\ (getRequestValidatorsForOperation validator "createPet"
          = Js.Own [paramsValidator]
          \/ exists bodyValidator,
               isBodyValidator bodyValidator = true
               /\ isParamsValidator bodyValidator = false
               /\ getRequestValidatorsForOperation validator "createPet"
                  = Js.Own [bodyValidator; paramsValidator]))
  /\ (responseValidators validator !! "createPet" = None
      \/ exists v,
           isResponseValidator v = true
           /\ getResponseValidatorForOperation validator "createPet"
              = Js.Own v).
Proof.
  apply (registry_entry_shape options validator createPet).
  - reflexivity.
  - simpl. tauto.
Defined.



(** C1 at GET /pets, whose only response schema is [{ type: 'array' }]. *)
Lemma response_valid_iff_exactly_one_witness :
  exists r,
    fst (validateResponse validator (Js.Array []) (Given listPets)) = Returns r
    /\ (valid r = true
        <-> matching Ajv.default_options [ArrayType] (Js.Array []) = 1).
Proof.
  apply (response_valid_iff_exactly_one options validator listPets
           (Given listPets) (Js.Array [])).
  - reflexivity.
  - exact unique_ids.
  - simpl. tauto.
  - reflexivity.
  - discriminate.
  - reflexivity.
  - reflexivity.
Defined.

(** C1 as stated fails at POST /pets: the payload [{}] matches both
    collected schemas - so at least one - and is rejected. *)
Lemma payload_matching_two_schemas_rejected :
  constructor options = Returns validator
  /\ In createPet (getOperations (router validator))
  /\ declaredResponseSchemas createPet = [ObjectType; ObjectType]
  /\ matches Ajv.default_options (Js.Object []) ObjectType = true
  /\ fst (validateResponse validator (Js.Object []) (Given createPet))
     = Returns
         {| valid := false;
            errors :=
              Some [Ajv.oneOf_error "" "#"
                      (Js.Array [Js.Number 0; Js.Number 1])] |}.
Proof. repeat split. simpl. tauto. Qed.

(** C2 at GET /ping with a textual body. *)
Lemma no_parameters_valid_witness :
  fst (validateRequest validator
         (request "get" "/ping" None (Js.Str "hello")) Omitted)
  = Returns {| valid := true; errors := None |}.
Proof.
  apply (no_parameters_valid options validator ping).
  - reflexivity.
  - exact unique_ids.
  - simpl. tauto.
  - reflexivity.
  - reflexivity.
  - left. reflexivity.
  - reflexivity.
  - right. reflexivity.
  - right. reflexivity.
  - discriminate.
  - reflexivity.
Defined.

(** C2 as stated fails at GET /ping?foo=bar: the operation declares no
    parameter and no request body, the request is matched to it, and the
    unknown query key is an error. *)
Lemma unknown_query_key_rejected :
  constructor options = Returns validator
  /\ In ping (getOperations (router validator))
  /\ parameters ping = []
  /\ requestBody ping = None
  /\ resolveRequestOperation validator getPingFoo Omitted = Some ping
  /\ fst (validateRequest validator getPingFoo Omitted)
     = Returns
         {| valid := false;
            errors :=
              Some [{| Ajv.keyword := "additionalProperties";
                       Ajv.dataPath := ".query";
                       Ajv.schemaPath := "#/properties/query/additionalProperties";
                       Ajv.params :=
                         Js.Object [("additionalProperty", Js.Str "foo")];
                       Ajv.message := "should NOT have additional properties" |}] |}.
Proof. repeat split. simpl. tauto. Qed.



(** C5 at POST /pets without body: the body schema [{ type: 'object' }]
    has a rule, so the error names [requestBody]. *)
Lemma json_only_body_is_required_witness :
  exists e rest,
    fst (validateRequest validator postNothing Omitted)
    = Returns {| valid := false; errors := Some (e :: rest) |}
    /\ e = requiredRequestBody
    /\ reportsMissingBody e = true
    /\ rest = []
    /\ Forall (fun e' => reportsMissingBody e' = false) rest.
Proof.
  refine (proj2 (json_only_body_is_required options validator createPet Omitted
                   postNothing {| body_content := json ObjectType |}
                   {| media_schema := Some ObjectType |} ObjectType
                   bareParameters _ _) _ _ _ _ _ _ _ _ _ _).
  - reflexivity.
  - reflexivity.
  - reflexivity.
  - exact unique_ids.
  - simpl. tauto.
  - reflexivity.
  - reflexivity.
  - reflexivity.
  - reflexivity.
  - reflexivity.
  - reflexivity.
  - reflexivity.
Defined.

(** C6 at POST /pets with the truncated body [{] and with the body [[]],
    which parses and is not an object. *)
Lemma malformed_body_reported_witness :
  fst (validateRequest validator postTruncated Omitted)
  = Returns
      {| valid := false;
         errors :=
           Some [{| Ajv.keyword := "parse";
                    Ajv.dataPath := "";
                    Ajv.schemaPath := "#/requestBody";
                    Ajv.params := Js.Array [];
                    Ajv.message := "Unexpected end of JSON input" |};
                 requiredRequestBody] |}
  /\ fst (validateRequest validator postArray Omitted)
     = Returns
         {| valid := false;
            errors :=
              Some [Ajv.relocate ".requestBody" "#/properties/requestBody"
                      (type_error "object")] |}.
Proof.
  split.
  - refine (f_equal fst
              (proj1 (malformed_body_reported validator createPet Omitted
                        postTruncated
                        (requestValidatorsOf Ajv.default_options createPet)
                        bareParameters _ _ _ _ _ _ _)
                     "Unexpected end of JSON input" _));
      try reflexivity; discriminate.
  - refine (proj1 (proj2 (malformed_body_reported validator createPet Omitted
                            postArray
                            (requestValidatorsOf Ajv.default_options createPet)
                            (bareParameters ++ [("requestBody", Js.Array [])])%list
                            _ _ _ _ _ _ _)
                         (Js.Array []) _));
      try reflexivity; discriminate.
Defined.


Lemma listing2 : getOperations (router validator2) = api2.
Proof. reflexivity. Qed.

Lemma unique_ids2 : uniqueOperationIds (getOperations (router validator2)).
Proof.
  rewrite listing2. unfold uniqueOperationIds. simpl.
  repeat constructor; simpl; intuition discriminate.
Qed.

(** X3 at the ids [ping], which is registered for requests only, and
    [toString], which no operation has. *)
Lemma registry_keys_witness :
  (exists validators,
      getRequestValidatorsForOperation validator "ping" = Js.Own validators)
  /\ ~ (exists validator',
          getResponseValidatorForOperation validator "ping"
          = Js.Own validator')
  /\ getRequestValidatorsForOperation validator "toString"
     = Js.Inherited Js.toString
  /\ getResponseValidatorForOperation validator "toString"
     = Js.Inherited Js.toString.
Proof.
  split; [|split].
  - apply (proj1 (registry_keys options validator "ping" eq_refl)).
    exists ping. simpl. tauto.
  - intros H.
    apply (proj1 (proj2 (registry_keys options validator "ping" eq_refl)))
      in H as (op & [<- | [<- | [<- | []]]] & Hk & Hd);
      try discriminate Hk. apply Hd. reflexivity.
  - apply (proj2 (proj2 (registry_keys options validator "toString" eq_refl))).
    intros op [<- | [<- | [<- | []]]]; split; discriminate.
Defined.

(** X4 at a listing with two operations under the id [dup]: the request
    entry is that of the second, the response entry that of the first, the
    only one of the two with a response schema. *)
Lemma last_operation_wins_witness :
  getRequestValidatorsForOperation sharedValidator "dup"
  = Js.Own (requestValidatorsOf strictOptions dupLast)
  /\ getResponseValidatorForOperation sharedValidator "dup"
     = Js.Own (fresh strictOptions (Ajv.SOneOf [ArrayType])).
Proof.
  split.
  - apply (proj1 (last_operation_wins sharedOptions sharedValidator
                    [showPet; dupFirst] dupLast [] eq_refl eq_refl)).
    intros op' [].
  - apply (proj2 (last_operation_wins sharedOptions sharedValidator
                    [showPet] dupFirst [dupLast] eq_refl eq_refl)).
    + discriminate.
    + intros op' [<- | []] _. reflexivity.
Defined.

(** X5 at an instance built with [{ coerceTypes: 'array', allErrors: true }]. *)
Lemma validator_options_witness :
  ajvOpts validator2 = strictOptions
  /\ (forall id validators,
         getRequestValidatorsForOperation validator2 id = Js.Own validators ->
         exists body paramsValidator,
           validators = (body ++ [paramsValidator])%list
           /\ Forall (fun v => Ajv.vf_options v = ajvOpts validator2
                               /\ Ajv.errors v = None) body
           /\ Ajv.coerceTypes (Ajv.vf_options paramsValidator) = Ajv.CoerceOn
           /\ Ajv.allErrors (Ajv.vf_options paramsValidator)
              = Ajv.allErrors (ajvOpts validator2)
           /\ Ajv.errors paramsValidator = None)
  /\ (forall id validator,
         getResponseValidatorForOperation validator2 id = Js.Own validator ->
         Ajv.vf_options validator = ajvOpts validator2
         /\ Ajv.errors validator = None).
Proof.
  apply (validator_options options2 validator2). reflexivity.
Defined.

(** X6 at an operation object that is not in the definition, and at one
    named [valueOf]. *)
Lemma unregistered_operation_witness :
  validateRequest validator getPing (Given ghost) = (Throws TypeError, validator)
  /\ validateResponse validator Js.Null (Given ghost)
     = (Returns {| valid := true; errors := None |}, validator)
  /\ validateResponse validator Js.Null (Given ghostValueOf)
     = (Throws TypeError, validator).
Proof.
  split; [|split].
  - apply (proj1 (unregistered_operation validator getPing Js.Null
                    (Given ghost) ghost eq_refl)); reflexivity.
  - apply (proj2 (unregistered_operation validator getPing Js.Null
                    (Given ghost) ghost eq_refl)); reflexivity.
  - apply (proj2 (unregistered_operation validator getPing Js.Null
                    (Given ghostValueOf) ghostValueOf eq_refl)); reflexivity.
Defined.



(** X11 at POST /pets with a truncated JSON text as body. *)
Lemma parse_error_iff_malformed_witness :
  exists r,
    fst (validateRequest validator postTruncated Omitted) = Returns r
    /\ ((exists es, errors r = Some es /\ existsb parse_keyword es = true)
        <-> (Js.typeof_object (body postTruncated) = false
             /\ body postTruncated <> Js.Undefined
             /\ payloadFormats createPet = ["application/json"]
             /\ exists message,
                  JSON_parse (Js.to_string (body postTruncated))
                  = Js.SyntaxError message))
    /\ (forall es, errors r = Some es ->
          existsb parse_keyword es = true ->
          exists message rest,
            es = parse_error message :: rest
            /\ existsb parse_keyword rest = false).
Proof.
  eexists. split; [reflexivity|].
  apply (parse_error_iff_malformed validator postTruncated Omitted createPet _
           (snd (validateRequest validator postTruncated Omitted)));
    reflexivity.
Defined.

(** X12 at GET /pets?tags=cat&limit=5. *)
Lemma query_normalisation_witness :
  wrapSingularQuery listPets None = None
  /\ exists q',
       wrapSingularQuery listPets
         (Some [("tags", Js.Str "cat"); ("limit", Js.Str "5")]) = Some q'
       /\ Js.keys q' = ["tags"; "limit"]
       /\ (forall k, Js.get k q'
                     = wrapped listPets k
                         (Js.get k [("tags", Js.Str "cat"); ("limit", Js.Str "5")]))
       /\ wrapSingularQuery listPets (Some q') = Some q'.
Proof.
  apply (query_normalisation listPets
           [("tags", Js.Str "cat"); ("limit", Js.Str "5")]).
  simpl. repeat constructor; simpl; intuition discriminate.
Defined.


(** X14 at GET /find without the required query parameter [status]. *)
Lemma missing_required_parameter_invalid_witness :
  exists e es,
    fst (validateRequest validator2 getFind Omitted)
    = Returns {| valid := false; errors := Some (e :: es) |}.
Proof.
  apply (missing_required_parameter_invalid options2 validator2 findPets
           Omitted getFind bareParameters status).
  - reflexivity.
  - exact unique_ids2.
  - simpl. tauto.
  - reflexivity.
  - reflexivity.
  - reflexivity.
  - simpl. tauto.
  - reflexivity.
  - reflexivity.
  - right. exists []. split; reflexivity.
Defined.

(** X15 at GET /pets?foo=bar: [foo] is no query parameter of [listPets]. *)
Lemma undeclared_key_invalid_witness :
  exists e es,
    fst (validateRequest validator getPetsFoo Omitted)
    = Returns {| valid := false; errors := Some (e :: es) |}.
Proof.
  apply (undeclared_key_invalid options validator listPets Omitted getPetsFoo
           [("path", Js.Object []); ("query", Js.Object [("foo", Js.Str "bar")]);
            ("header", Js.Object []); ("cookie", Js.Object [])]
           InQuery [("foo", Js.Str "bar")] "foo").
  - reflexivity.
  - exact unique_ids.
  - simpl. tauto.
  - reflexivity.
  - reflexivity.
  - reflexivity.
  - right. reflexivity.
  - reflexivity.
  - simpl. tauto.
  - intros p [<- | []] [_ Hname]. discriminate Hname.
Defined.

(** X16 at GET /ping with an object as body. *)
Lemma body_ignored_without_body_schema_witness :
  fst (validateRequest validator getPingBody Omitted)
  = Returns
      (finish
         (malformedBodyErrors ping getPingBody
          ++ fst (Ajv.eval_schema (Ajv.with_coercion (ajvOpts validator))
                    (Ajv.SObject (paramsSchemaOf ping))
                    (Js.Object bareParameters)))%list).
Proof.
  apply (body_ignored_without_body_schema options validator ping Omitted
           getPingBody
           (bareParameters
            ++ [("requestBody", Js.Object [("a", Js.Null)])])%list).
  - reflexivity.
  - exact unique_ids.
  - simpl. tauto.
  - reflexivity.
  - left. reflexivity.
  - reflexivity.
  - reflexivity.
Defined.

(** X17 at GET /pets, whose only response schema is [{ type: 'array' }],
    and a payload that is a string. *)
Lemma single_response_schema_witness :
  fst (validateResponse validator (Js.Str "x") (Given listPets))
  = Returns
      {| valid := false;
         errors :=
           Some (map (Ajv.relocate "" "#/oneOf/0")
                   (fst (Ajv.evaluate (ajvOpts validator) ArrayType (Js.Str "x")))
                 ++ [{| Ajv.keyword := "oneOf";
                        Ajv.dataPath := "";
                        Ajv.schemaPath := "#/oneOf";
                        Ajv.params := Js.Object [("passingSchemas", Js.Null)];
                        Ajv.message :=
                          "should match exactly one schema in oneOf" |}])%list |}.
Proof.
  apply (single_response_schema options validator listPets (Given listPets)
           (Js.Str "x") ArrayType).
  - reflexivity.
  - exact unique_ids.
  - simpl. tauto.
  - reflexivity.
  - reflexivity.
  - reflexivity.
Defined.


End Checks.
